(** * neuro_local_planner_wrapper: the egocentric grid builder and its temporal buffer

    A shallow embedding of [neuro_local_planner_wrapper.cpp]: the planner object is a
    record threaded through [setPlan] and [getLaserScanPoints], ROS publications are
    returned as a list, and everything the C++ standard leaves undefined (a
    double that does not fit the integer it is converted to, a [std::vector]
    subscript past the end) is a result of its own, as is an exception that
    leaves the function.  [double] is the kernel's IEEE 754 binary64. *)

From Stdlib Require Import ZArith Floats Uint63 Reals Lra Lia.
From stdpp Require Import base list strings.

Local Open Scope Z_scope.

(* Decimal literals denote the nearest double, as they do in the source. *)
Set Warnings "-inexact-float".

(** ** Results of C++ code *)

Inductive exception := out_of_range.

Inductive result (A : Type) : Type :=
| Ok (a : A)
| Throws (e : exception)
| Undefined.

Arguments Ok {A} a.
Arguments Throws {A} e.
Arguments Undefined {A}.

#[global] Instance result_ret : MRet result := fun A a => Ok a.

#[global] Instance result_bind : MBind result := fun A B k r =>
  match r with
  | Ok a => k a
  | Throws e => Throws e
  | Undefined => Undefined
  end.

(** ** Machine integers *)

Definition wrap_u32 (z : Z) : Z := z mod 2 ^ 32.

(** [unsigned * unsigned] and [unsigned + unsigned] on 32 bits. *)
Definition mul_u32 (a b : Z) : Z := wrap_u32 (a * b).
Definition add_u32 (a b : Z) : Z := wrap_u32 (a + b).

(** The conversion of a [size_t] to [int], as every targeted compiler does it. *)
Definition wrap_s32 (z : Z) : Z := (z + 2 ^ 31) mod 2 ^ 32 - 2 ^ 31.

Definition size_t_max : Z := 2 ^ 64 - 1.
Definition wrap_size_t (z : Z) : Z := z mod 2 ^ 64.

(** ** [double] *)

Module double.

Local Open Scope float_scope.

(** The integer a finite double is truncated to (toward zero); infinities and
    NaN have none. *)
Definition truncate (x : float) : option Z :=
  match Prim2SF x with
  | S754_zero _ => Some 0%Z
  | S754_finite s m e =>
      let a := if (0 <=? e)%Z then (Z.pos m * 2 ^ e)%Z else (Z.pos m / 2 ^ (- e))%Z in
      Some (if s then (- a)%Z else a)
  | S754_infinity _ | S754_nan => None
  end.

(** A floating-integral conversion: the value is truncated, and the behaviour is
    undefined when the truncated value is not one of the destination type. *)
Definition to_integer (lo hi : Z) (x : float) : result Z :=
  match truncate x with
  | Some z => if ((lo <=? z) && (z <=? hi))%Z then Ok z else Undefined
  | None => Undefined
  end.

Definition to_int : float -> result Z := to_integer (- 2 ^ 31) (2 ^ 31 - 1).
Definition to_int8 : float -> result Z := to_integer (- 128) 127.
Definition to_size_t : float -> result Z := to_integer 0 size_t_max.

(** [(double)n] for an [int] or an [unsigned] n: exact, since |n| < 2^53. *)
Definition of_Z (n : Z) : float :=
  match n with
  | Z0 => 0
  | Zpos _ => of_uint63 (Uint63.of_Z n)
  | Zneg p => - of_uint63 (Uint63.of_Z (Z.pos p))
  end.

(** [round] of <math.h>: the nearest integer, halfway cases away from zero;
    zeros, infinities and NaN are returned as they are. *)
Definition round (x : float) : float :=
  match Prim2SF x with
  | S754_finite s m e =>
      if (0 <=? e)%Z then x
      else
        let d := (2 ^ (- e))%Z in
        let q := (Z.pos m / d)%Z in
        let k := if (d <=? 2 * (Z.pos m mod d))%Z then (q + 1)%Z else q in
        let r := of_uint63 (Uint63.of_Z k) in
        if s then - r else r
  | _ => x
  end.

End double.

(** ** [float]

    IEEE 754 binary32.  A single-precision number is kept as the double it is
    equal to, so that [(double)f] is the identity; the operations are those of
    the standard library's specification of floating-point arithmetic at
    precision 24. *)

Module single.

Definition prec : Z := 24.
Definition emax : Z := 128.

(** [(float)x] for a double. *)
Definition of_double (x : float) : float :=
  match Prim2SF x with
  | S754_finite s m e => SF2Prim (binary_normalize prec emax (cond_Zopp s (Z.pos m)) e s)
  | _ => x
  end.

(** [(float)n] for an [int]. *)
Definition of_Z (n : Z) : float := of_double (double.of_Z n).

Definition mul (a b : float) : float := SF2Prim (SFmul prec emax (Prim2SF a) (Prim2SF b)).
Definition add (a b : float) : float := SF2Prim (SFadd prec emax (Prim2SF a) (Prim2SF b)).

End single.

(** ** [std::vector] *)

(** [v.at(i)]: checked. *)
Definition vector_at {A : Type} (v : list A) (i : Z) : result A :=
  if i <? Z.of_nat (length v) then
    match v !! Z.to_nat i with
    | Some a => Ok a
    | None => Throws out_of_range
    end
  else Throws out_of_range.

(** [v[i] = a]: unchecked, so a subscript past the end is undefined. *)
Definition vector_set {A : Type} (v : list A) (i : Z) (a : A) : result (list A) :=
  if i <? Z.of_nat (length v) then Ok (<[Z.to_nat i := a]> v) else Undefined.

(** ** Messages

    The message types are declared by ROS packages outside the repository; the
    fields the planner touches are kept under their names.  Their integer fields
    are the unsigned 32-bit integers of the declarations; the real fields of a
    pose are doubles, those of a scan and the resolution of a map are
    single-precision numbers; a time stamp is a number of nanoseconds. *)

Module std_msgs.
Record Header := { seq : Z; stamp : Z; frame_id : string }.
End std_msgs.

Module geometry_msgs.
Record Point := { x : float; y : float; z : float }.
Record Quaternion := { qx : float; qy : float; qz : float; qw : float }.
Record Pose := { position : Point; orientation : Quaternion }.
Record PoseStamped := { header : std_msgs.Header; pose : Pose }.
End geometry_msgs.

Module nav_msgs.
Record MapMetaData := {
  resolution : float;
  width : Z;
  height : Z;
  origin : geometry_msgs.Pose
}.
Record OccupancyGrid := {
  header : std_msgs.Header;
  info : MapMetaData;
  data : list Z
}.
End nav_msgs.

Module sensor_msgs.
Record LaserScan := {
  header : std_msgs.Header;
  angle_min : float;
  angle_increment : float;
  range_min : float;
  range_max : float;
  ranges : list float
}.
End sensor_msgs.

(** Modelled from the spec: the message [Transition] (its declaration,
    msg/Transition.msg, is not among the sources).  The stacked unit carries
    width, height, depth, a time stamp, a sequence number and the cell buffer;
    the dimensions are integers copied from the grid's. *)
Record Transition := {
  header : std_msgs.Header;
  width : Z;
  height : Z;
  depth : Z;
  state_representation : list Z
}.

Definition Header_0 : std_msgs.Header :=
  {| std_msgs.seq := 0; std_msgs.stamp := 0; std_msgs.frame_id := "" |}.

Definition Pose_0 : geometry_msgs.Pose :=
  {| geometry_msgs.position := {| geometry_msgs.x := 0; geometry_msgs.y := 0; geometry_msgs.z := 0 |};
     geometry_msgs.orientation :=
       {| geometry_msgs.qx := 0; geometry_msgs.qy := 0; geometry_msgs.qz := 0; geometry_msgs.qw := 0 |} |}.

(** A message as its constructor leaves it: numbers are zero, sequences empty. *)
Definition PoseStamped_0 : geometry_msgs.PoseStamped :=
  {| geometry_msgs.header := Header_0; geometry_msgs.pose := Pose_0 |}.

Definition OccupancyGrid_0 : nav_msgs.OccupancyGrid :=
  {| nav_msgs.header := Header_0;
     nav_msgs.info := {| nav_msgs.resolution := 0; nav_msgs.width := 0; nav_msgs.height := 0;
                         nav_msgs.origin := Pose_0 |};
     nav_msgs.data := [] |}.

Definition Transition_0 : Transition :=
  {| header := Header_0; width := 0; height := 0; depth := 0; state_representation := [] |}.

(** ** The collaborators *)

(** [costmap_2d::Costmap2D], through the getters the planner calls. *)
Record Costmap2D := {
  getSizeInCellsX : Z;
  getSizeInCellsY : Z;
  getResolution : float;
  getSizeInMetersX : float;
  getSizeInMetersY : float
}.

(** A [tf::StampedTransform], through [getOrigin()] and the yaw that
    [getBasis().getRPY] returns. *)
Record StampedTransform := { getX : float; getY : float; yaw : float }.

(** [tf::TransformListener]: [None] is a [tf::TransformException].
    [waitForTransform] returns a flag that the planner drops; it is not kept. *)
Record TransformListener := {
  lookupTransform : string -> string -> option StampedTransform;
  transformPose : string -> geometry_msgs.PoseStamped -> option geometry_msgs.PoseStamped
}.

(** What one call reads from outside the planner object: the objects behind
    [tf_] and [costmap_], the clock, the content of a [tf::StampedTransform]
    that was constructed and never assigned (tf leaves it unspecified), and the
    flag [tc_->setPlan] would return. *)
Record Ros := {
  tf_ : TransformListener;
  costmap_ : Costmap2D;
  now : Z;
  unassigned_transform : StampedTransform;
  tc_setPlan : bool
}.

Inductive Publication :=
| customized_costmap_pub (m : nav_msgs.OccupancyGrid)
| transition_pub (m : Transition).

(** ** The planner object *)

Record NeuroLocalPlannerWrapper := {
  initialized_ : bool;
  existing_plugin_ : bool;
  is_customized_costmap_initialized_ : bool;
  global_plan_ : list geometry_msgs.PoseStamped;
  goal_ : geometry_msgs.Pose;
  customized_costmap_ : nav_msgs.OccupancyGrid;
  transition_msg_ : Transition
}.

Definition set_header_stamp (t : Z) (h : std_msgs.Header) : std_msgs.Header :=
  {| std_msgs.seq := std_msgs.seq h; std_msgs.stamp := t; std_msgs.frame_id := std_msgs.frame_id h |}.

Definition set_header_seq (n : Z) (h : std_msgs.Header) : std_msgs.Header :=
  {| std_msgs.seq := n; std_msgs.stamp := std_msgs.stamp h; std_msgs.frame_id := std_msgs.frame_id h |}.

Definition set_grid_header (h : std_msgs.Header) (g : nav_msgs.OccupancyGrid) : nav_msgs.OccupancyGrid :=
  {| nav_msgs.header := h; nav_msgs.info := nav_msgs.info g; nav_msgs.data := nav_msgs.data g |}.

Definition set_grid_data (d : list Z) (g : nav_msgs.OccupancyGrid) : nav_msgs.OccupancyGrid :=
  {| nav_msgs.header := nav_msgs.header g; nav_msgs.info := nav_msgs.info g; nav_msgs.data := d |}.

Definition set_pose_stamp (t : Z) (p : geometry_msgs.PoseStamped) : geometry_msgs.PoseStamped :=
  {| geometry_msgs.header := set_header_stamp t (geometry_msgs.header p);
     geometry_msgs.pose := geometry_msgs.pose p |}.

Definition set_customized_costmap_ (g : nav_msgs.OccupancyGrid) (p : NeuroLocalPlannerWrapper) :=
  {| initialized_ := initialized_ p;
     existing_plugin_ := existing_plugin_ p;
     is_customized_costmap_initialized_ := is_customized_costmap_initialized_ p;
     global_plan_ := global_plan_ p;
     goal_ := goal_ p;
     customized_costmap_ := g;
     transition_msg_ := transition_msg_ p |}.

Definition set_transition_msg_ (t : Transition) (p : NeuroLocalPlannerWrapper) :=
  {| initialized_ := initialized_ p;
     existing_plugin_ := existing_plugin_ p;
     is_customized_costmap_initialized_ := is_customized_costmap_initialized_ p;
     global_plan_ := global_plan_ p;
     goal_ := goal_ p;
     customized_costmap_ := customized_costmap_ p;
     transition_msg_ := t |}.

Definition set_is_customized_costmap_initialized_ (b : bool) (p : NeuroLocalPlannerWrapper) :=
  {| initialized_ := initialized_ p;
     existing_plugin_ := existing_plugin_ p;
     is_customized_costmap_initialized_ := b;
     global_plan_ := global_plan_ p;
     goal_ := goal_ p;
     customized_costmap_ := customized_costmap_ p;
     transition_msg_ := transition_msg_ p |}.

Definition set_global_plan_ (l : list geometry_msgs.PoseStamped) (p : NeuroLocalPlannerWrapper) :=
  {| initialized_ := initialized_ p;
     existing_plugin_ := existing_plugin_ p;
     is_customized_costmap_initialized_ := is_customized_costmap_initialized_ p;
     global_plan_ := l;
     goal_ := goal_ p;
     customized_costmap_ := customized_costmap_ p;
     transition_msg_ := transition_msg_ p |}.

Definition set_goal_ (g : geometry_msgs.Pose) (p : NeuroLocalPlannerWrapper) :=
  {| initialized_ := initialized_ p;
     existing_plugin_ := existing_plugin_ p;
     is_customized_costmap_initialized_ := is_customized_costmap_initialized_ p;
     global_plan_ := global_plan_ p;
     goal_ := g;
     customized_costmap_ := customized_costmap_ p;
     transition_msg_ := transition_msg_ p |}.

Definition set_position_x (v : float) (g : geometry_msgs.Pose) : geometry_msgs.Pose :=
  {| geometry_msgs.position :=
       {| geometry_msgs.x := v;
          geometry_msgs.y := geometry_msgs.y (geometry_msgs.position g);
          geometry_msgs.z := geometry_msgs.z (geometry_msgs.position g) |};
     geometry_msgs.orientation := geometry_msgs.orientation g |}.

Definition set_position_y (v : float) (g : geometry_msgs.Pose) : geometry_msgs.Pose :=
  {| geometry_msgs.position :=
       {| geometry_msgs.x := geometry_msgs.x (geometry_msgs.position g);
          geometry_msgs.y := v;
          geometry_msgs.z := geometry_msgs.z (geometry_msgs.position g) |};
     geometry_msgs.orientation := geometry_msgs.orientation g |}.

(** ** The planner's functions *)

Section neuro_local_planner_wrapper.

(** [cos] and [sin] of <math.h>, on doubles. *)
Variables cos sin : float -> float.

Local Open Scope float_scope.

(** The constructor sets [initialized_]; the other members are
    default-constructed or set by [initialize] before they are read. *)
Definition constructed : NeuroLocalPlannerWrapper :=
  {| initialized_ := false;
     existing_plugin_ := false;
     is_customized_costmap_initialized_ := false;
     global_plan_ := [];
     goal_ := Pose_0;
     customized_costmap_ := OccupancyGrid_0;
     transition_msg_ := Transition_0 |}.

(** [initialize], as far as the planner object goes: advertising, subscribing
    and storing the two pointers leave no trace in it. *)
Definition initialize (p : NeuroLocalPlannerWrapper) : NeuroLocalPlannerWrapper :=
  if negb (initialized_ p) then
    {| initialized_ := true;
       existing_plugin_ := false;
       is_customized_costmap_initialized_ := false;
       global_plan_ := global_plan_ p;
       goal_ := goal_ p;
       customized_costmap_ := customized_costmap_ p;
       transition_msg_ := transition_msg_ p |}
  else p.

(** [setPlan].  An exception leaves the function before it returns; the planner
    object it leaves behind is not kept. *)
Definition setPlan (ros : Ros) (p : NeuroLocalPlannerWrapper)
    (orig_global_plan : list geometry_msgs.PoseStamped)
  : result (NeuroLocalPlannerWrapper * bool) :=
  if negb (initialized_ p) then Ok (p, false)
  else
    let p := set_global_plan_ orig_global_plan p in
    let last := wrap_size_t (Z.of_nat (length orig_global_plan) - 1) in
    px ← vector_at orig_global_plan last;
    let p := set_goal_ (set_position_x
               (geometry_msgs.x (geometry_msgs.position (geometry_msgs.pose px))) (goal_ p)) p in
    py ← vector_at orig_global_plan last;
    let p := set_goal_ (set_position_y
               (geometry_msgs.y (geometry_msgs.position (geometry_msgs.pose py))) (goal_ p)) p in
    if existing_plugin_ p then
      if negb (tc_setPlan ros) then Ok (p, false) else Ok (p, true)
    else Ok (p, true).

Definition initializeTransitionMsg (p : NeuroLocalPlannerWrapper) : NeuroLocalPlannerWrapper :=
  let t := transition_msg_ p in
  set_transition_msg_
    {| header := set_header_seq 0 (header t);
       width := nav_msgs.width (nav_msgs.info (customized_costmap_ p));
       height := nav_msgs.height (nav_msgs.info (customized_costmap_ p));
       depth := 4;
       state_representation := state_representation t |} p.

Definition initializeCustomizedCostmap (ros : Ros) (p : NeuroLocalPlannerWrapper)
  : NeuroLocalPlannerWrapper :=
  let c := costmap_ ros in
  let info :=
    {| nav_msgs.resolution := single.of_double (getResolution c);
       nav_msgs.width := getSizeInCellsX c;
       nav_msgs.height := getSizeInCellsY c;
       nav_msgs.origin :=
         {| geometry_msgs.position :=
              {| geometry_msgs.x := - getSizeInMetersX c / 2;
                 geometry_msgs.y := - getSizeInMetersY c / 2;
                 geometry_msgs.z := 0 |};
            geometry_msgs.orientation :=
              {| geometry_msgs.qx := 0; geometry_msgs.qy := 0;
                 geometry_msgs.qz := 0; geometry_msgs.qw := 1 |} |} |} in
  let g :=
    {| nav_msgs.header :=
         {| std_msgs.seq := 0; std_msgs.stamp := now ros;
            std_msgs.frame_id := "/base_footprint" |};
       nav_msgs.info := info;
       nav_msgs.data :=
         replicate (Z.to_nat (mul_u32 (nav_msgs.width info) (nav_msgs.height info))) 70%Z |} in
  initializeTransitionMsg (set_customized_costmap_ g p).

(** *** 1. Clear the costmap: the [else] branch *)
Definition clear_costmap (g : nav_msgs.OccupancyGrid) : nav_msgs.OccupancyGrid :=
  set_grid_data
    (replicate (Z.to_nat (mul_u32 (nav_msgs.width (nav_msgs.info g))
                                  (nav_msgs.height (nav_msgs.info g)))) 70%Z) g.

Definition initialize_or_clear (ros : Ros) (p : NeuroLocalPlannerWrapper)
  : NeuroLocalPlannerWrapper :=
  if negb (is_customized_costmap_initialized_ p)
  then set_is_customized_costmap_initialized_ true (initializeCustomizedCostmap ros p)
  else set_customized_costmap_ (clear_costmap (customized_costmap_ p)) p.

(** *** 2. Laser scan points *)

(** The local [stamped_transform] after the [try] block. *)
Definition looked_up_transform (ros : Ros) (target source : string) : StampedTransform :=
  match lookupTransform (tf_ ros) target source with
  | Some t => t
  | None => unassigned_transform ros
  end.

(** [cos] and [sin] of a [float]: <math.h> overloads both for [float], and the
    overload returns a [float].  It is taken to be the function on doubles,
    rounded to [float]. *)
Definition cosf (a : float) : float := single.of_double (cos a).
Definition sinf (a : float) : float := single.of_double (sin a).

(** The position of sample [i], of range [r], in the robot base frame:
    polar to Cartesian in the frame of the scan, then the translation and the
    rotation of the transform.  The range and the angle are [float]s: the
    angle is a sum and a product of [float]s, [cos] and [sin] of it are the
    overloads for [float], and the product with the range is a product of
    [float]s, stored in a double.  The yaw is a double, and the rest is double
    arithmetic. *)
Definition position_robot_base_frame (laser_scan : sensor_msgs.LaserScan)
    (stamped_transform : StampedTransform) (i : Z) (r : float) : float * float :=
  let angle := single.add (sensor_msgs.angle_min laser_scan)
                          (single.mul (single.of_Z i) (sensor_msgs.angle_increment laser_scan)) in
  let x_position_laser_scan_frame := single.mul r (cosf angle) in
  let y_position_laser_scan_frame := single.mul r (sinf angle) in
  let x_position_robot_base_frame := x_position_laser_scan_frame + getX stamped_transform in
  let y_position_robot_base_frame := y_position_laser_scan_frame + getY stamped_transform in
  let yaw := yaw stamped_transform in
  let x_temp := x_position_robot_base_frame in
  let y_temp := y_position_robot_base_frame in
  (cos yaw * x_temp - sin yaw * y_temp, sin yaw * x_temp + cos yaw * y_temp).

(** The body of the loop over the samples, for sample [i] of range [r]. *)
Definition add_laser_scan_point (c : Costmap2D) (laser_scan : sensor_msgs.LaserScan)
    (stamped_transform : StampedTransform) (info : nav_msgs.MapMetaData)
    (i : Z) (r : float) (data : list Z) : result (list Z) :=
  if (sensor_msgs.range_min laser_scan <? r) && (r <? sensor_msgs.range_max laser_scan) then
    let '(x_position_robot_base_frame, y_position_robot_base_frame) :=
      position_robot_base_frame laser_scan stamped_transform i r in
    x ← double.to_int (double.round
           (((x_position_robot_base_frame
              - geometry_msgs.x (geometry_msgs.position (nav_msgs.origin info)))
             / getSizeInMetersX c) * double.of_Z (nav_msgs.width info) - 0.5));
    y ← double.to_int (double.round
           (((y_position_robot_base_frame
              - geometry_msgs.y (geometry_msgs.position (nav_msgs.origin info)))
             / getSizeInMetersY c) * double.of_Z (nav_msgs.height info) - 0.5));
    if ((0 <=? x) && (0 <=? y) && (x <? nav_msgs.width info) && (y <? nav_msgs.height info))%Z
    then vector_set data (add_u32 x (mul_u32 y (nav_msgs.width info))) 100%Z
    else Ok data
  else Ok data.

Fixpoint add_laser_scan_points (c : Costmap2D) (laser_scan : sensor_msgs.LaserScan)
    (stamped_transform : StampedTransform) (info : nav_msgs.MapMetaData)
    (i : Z) (ranges : list float) (data : list Z) : result (list Z) :=
  match ranges with
  | [] => Ok data
  | r :: ranges =>
      data ← add_laser_scan_point c laser_scan stamped_transform info i r data;
      add_laser_scan_points c laser_scan stamped_transform info (i + 1)%Z ranges data
  end.

(** *** 3. The global path *)

(** The [try] block of the first loop: [pose_robot_base_frame] is declared
    before the loop, and the handler of the exception only logs. *)
Definition transformed_pose (ros : Ros) (g : nav_msgs.OccupancyGrid)
    (pose_robot_base_frame it : geometry_msgs.PoseStamped) : geometry_msgs.PoseStamped :=
  let pose_fixed_frame := set_pose_stamp (std_msgs.stamp (nav_msgs.header g)) it in
  match transformPose (tf_ ros) (std_msgs.frame_id (nav_msgs.header g)) pose_fixed_frame with
  | Some q => q
  | None => pose_robot_base_frame
  end.

(** The first loop: the plan in costmap coordinates. *)
Fixpoint global_plan_map_coordinates (ros : Ros) (g : nav_msgs.OccupancyGrid)
    (pose_robot_base_frame : geometry_msgs.PoseStamped)
    (global_plan_map_coordinates_ : list geometry_msgs.Point)
    (global_plan_temp : list geometry_msgs.PoseStamped)
  : result (list geometry_msgs.Point) :=
  match global_plan_temp with
  | [] => Ok global_plan_map_coordinates_
  | it :: global_plan_temp =>
      let info := nav_msgs.info g in
      let pose_robot_base_frame := transformed_pose ros g pose_robot_base_frame it in
      x ← double.to_int (double.round
             (((geometry_msgs.x (geometry_msgs.position (geometry_msgs.pose pose_robot_base_frame))
                - geometry_msgs.x (geometry_msgs.position (nav_msgs.origin info)))
               / getSizeInMetersX (costmap_ ros)) * double.of_Z (nav_msgs.width info) - 0.5));
      y ← double.to_int (double.round
             (((geometry_msgs.y (geometry_msgs.position (geometry_msgs.pose pose_robot_base_frame))
                - geometry_msgs.y (geometry_msgs.position (nav_msgs.origin info)))
               / getSizeInMetersY (costmap_ ros)) * double.of_Z (nav_msgs.height info) - 0.5));
      let global_plan_map_coordinates_ :=
        if ((0 <=? x) && (0 <=? y) && (x <? nav_msgs.width info) && (y <? nav_msgs.height info))%Z
        then global_plan_map_coordinates_
             ++ [{| geometry_msgs.x := double.of_Z x; geometry_msgs.y := double.of_Z y;
                    geometry_msgs.z := 0 |}]
        else global_plan_map_coordinates_ in
      global_plan_map_coordinates ros g pose_robot_base_frame global_plan_map_coordinates_
        global_plan_temp
  end.

(** The value of pixel [counter] out of [total_plan_pixel_number], as a double. *)
Definition plan_pixel_value (total_plan_pixel_number counter : Z) : float :=
  50 - double.round (double.of_Z counter / double.of_Z (total_plan_pixel_number - 1) * 50).

(** The same as it is stored, an [int8_t]. *)
Definition plan_pixel (total_plan_pixel_number counter : Z) : result Z :=
  double.to_int8 (plan_pixel_value total_plan_pixel_number counter).

(** The subscript of a pixel, as a double. *)
Definition plan_pixel_subscript (info : nav_msgs.MapMetaData) (a : geometry_msgs.Point) : float :=
  geometry_msgs.x a + geometry_msgs.y a * double.of_Z (nav_msgs.width info).

(** The second loop: the pixels are written in the order of the plan. *)
Fixpoint write_plan_pixels (info : nav_msgs.MapMetaData) (total_plan_pixel_number counter : Z)
    (coordinates : list geometry_msgs.Point) (data : list Z) : result (list Z) :=
  match coordinates with
  | [] => Ok data
  | a :: coordinates =>
      i ← double.to_size_t (plan_pixel_subscript info a);
      v ← plan_pixel total_plan_pixel_number counter;
      data ← vector_set data i v;
      write_plan_pixels info total_plan_pixel_number (counter + 1)%Z coordinates data
  end.

Definition add_global_path (ros : Ros) (global_plan : list geometry_msgs.PoseStamped)
    (g : nav_msgs.OccupancyGrid) : result (list Z) :=
  coordinates ← global_plan_map_coordinates ros g PoseStamped_0 [] global_plan;
  let total_plan_pixel_number := wrap_s32 (Z.of_nat (length coordinates)) in
  write_plan_pixels (nav_msgs.info g) total_plan_pixel_number 0 coordinates (nav_msgs.data g).

(** *** 5. The buffer of consecutive costmaps *)
Definition buffer_costmap (t : Transition) (g : nav_msgs.OccupancyGrid)
  : Transition * list Publication :=
  if (Z.of_nat (length (state_representation t))
      =? mul_u32 (mul_u32 (width t) (height t)) (depth t))%Z
  then
    let m :=
      {| header := {| std_msgs.seq := std_msgs.seq (header t);
                      std_msgs.stamp := std_msgs.stamp (nav_msgs.header g);
                      std_msgs.frame_id := std_msgs.frame_id (nav_msgs.header g) |};
         width := width t; height := height t; depth := depth t;
         state_representation := state_representation t |} in
    ({| header := set_header_seq (add_u32 (std_msgs.seq (header m)) 1) (header m);
        width := width t; height := height t; depth := depth t;
        state_representation := [] |},
     [transition_pub m])
  else
    ({| header := header t;
        width := width t; height := height t; depth := depth t;
        state_representation := state_representation t ++ nav_msgs.data g |},
     []).

(** *** The callback of the laser scan *)
Definition getLaserScanPoints (ros : Ros) (p : NeuroLocalPlannerWrapper)
    (laser_scan : sensor_msgs.LaserScan)
  : result (NeuroLocalPlannerWrapper * list Publication) :=
  (* 1. clear the costmap *)
  let p := initialize_or_clear ros p in
  (* 2. laser scan points *)
  let laser_scan_source_frame := std_msgs.frame_id (sensor_msgs.header laser_scan) in
  let laser_scan_target_frame := std_msgs.frame_id (nav_msgs.header (customized_costmap_ p)) in
  let customized_costmap_stamp := std_msgs.stamp (sensor_msgs.header laser_scan) in
  let g := set_grid_header
             (set_header_stamp customized_costmap_stamp (nav_msgs.header (customized_costmap_ p)))
             (customized_costmap_ p) in
  let stamped_transform :=
    looked_up_transform ros laser_scan_target_frame laser_scan_source_frame in
  data ← add_laser_scan_points (costmap_ ros) laser_scan stamped_transform (nav_msgs.info g)
           0 (sensor_msgs.ranges laser_scan) (nav_msgs.data g);
  let g := set_grid_data data g in
  (* 3. the global path *)
  data ← add_global_path ros (global_plan_ p) g;
  let g := set_grid_data data g in
  (* 4. publish *)
  let published := customized_costmap_pub g in
  let g := set_grid_header
             (set_header_seq (add_u32 (std_msgs.seq (nav_msgs.header g)) 1) (nav_msgs.header g)) g in
  (* 5. buffer *)
  let '(t, transitions) := buffer_costmap (transition_msg_ p) g in
  Ok (set_transition_msg_ t (set_customized_costmap_ g p), published :: transitions).

End neuro_local_planner_wrapper.

(** The callback is invoked once per scan, one scan after the other: each scan
    comes with what the call reads from the outside. *)
Fixpoint getLaserScanPoints_each (cos sin : float -> float) (p : NeuroLocalPlannerWrapper)
    (scans : list (Ros * sensor_msgs.LaserScan))
  : result (NeuroLocalPlannerWrapper * list Publication) :=
  match scans with
  | [] => Ok (p, [])
  | (ros, laser_scan) :: scans =>
      '(p, published) ← getLaserScanPoints cos sin ros p laser_scan;
      '(p, published') ← getLaserScanPoints_each cos sin p scans;
      Ok (p, published ++ published')
  end.

(** The length at which the buffer counts as full, as the comparison computes it. *)
Definition full_length (t : Transition) : Z :=
  mul_u32 (mul_u32 (width t) (height t)) (depth t).

(** Step 5 alone, over a sequence of finished grids. *)
Fixpoint buffer_costmaps (t : Transition) (gs : list nav_msgs.OccupancyGrid)
  : Transition * list Publication :=
  match gs with
  | [] => (t, [])
  | g :: gs =>
      let '(t, published) := buffer_costmap t g in
      let '(t, published') := buffer_costmaps t gs in
      (t, published ++ published')
  end.

Definition transitions (l : list Publication) : list Transition :=
  omap (fun m => match m with transition_pub t => Some t | _ => None end) l.

Definition costmaps (l : list Publication) : list nav_msgs.OccupancyGrid :=
  omap (fun m => match m with customized_costmap_pub g => Some g | _ => None end) l.

(** The cells of the first grid that a call published. *)
Definition published_data (r : result (NeuroLocalPlannerWrapper * list Publication))
  : option (list Z) :=
  match r with
  | Ok (_, published) => nav_msgs.data <$> head (costmaps published)
  | _ => None
  end.

(** The planner that a call leaves, when it returns. *)
Definition planner_after {B : Type} (r : result (NeuroLocalPlannerWrapper * B))
  : option NeuroLocalPlannerWrapper :=
  match r with
  | Ok (p, _) => Some p
  | _ => None
  end.

(** The conversions to [int8_t] of line 457, for the 51 integers that [round]
    can return there: a check by evaluation. *)
Definition stored_values_exact : bool :=
  forallb (fun k => match double.to_int8 (50 - of_uint63 (Uint63.of_Z k)) with
                    | Ok v => (v =? 50 - k)%Z
                    | _ => false
                    end)
          (map Z.of_nat (seq 0 51)).

(** ** The values of binary64 numbers

    The exponent of the last place of a binary64 number, and the real number
    that a mantissa and an exponent denote. *)
Definition fexp64 (e : Z) : Z := fexp prec emax e.

Definition bpow2 (e : Z) : R := powerRZ 2 e.

Definition F2R (m : positive) (e : Z) : R := (IZR (Z.pos m) * bpow2 e)%R.

(** ** The grid model of the specification

    The world-to-cell mapping as section 4.1 of the specification words it,
    to be compared with what the two rasterizers compute. *)

Definition spec_cellX (info : nav_msgs.MapMetaData) (widthMeters : float) (x : float) : float :=
  double.round (((x - geometry_msgs.x (geometry_msgs.position (nav_msgs.origin info)))
                 / widthMeters) * double.of_Z (nav_msgs.width info) - 0.5)%float.

Definition spec_cellY (info : nav_msgs.MapMetaData) (heightMeters : float) (y : float) : float :=
  double.round (((y - geometry_msgs.y (geometry_msgs.position (nav_msgs.origin info)))
                 / heightMeters) * double.of_Z (nav_msgs.height info) - 0.5)%float.

(** [None] is the invalid result: an index outside [0, width) or [0, height). *)
Definition spec_worldToCell (info : nav_msgs.MapMetaData) (widthMeters heightMeters : float)
    (x y : float) : option (Z * Z) :=
  match double.truncate (spec_cellX info widthMeters x),
        double.truncate (spec_cellY info heightMeters y) with
  | Some cellX, Some cellY =>
      if decide (0 <= cellX < nav_msgs.width info /\ 0 <= cellY < nav_msgs.height info)
      then Some (cellX, cellY) else None
  | _, _ => None
  end.

(** ** Scenarios *)

Module scenario.

Local Open Scope float_scope.

(** A [cos] and a [sin] by their series up to the fourth power: exact at 0,
    the one argument the scenarios pass them. *)
Definition cos_series (a : float) : float := 1 - a * a / 2 + a * a * a * a / 24.
Definition sin_series (a : float) : float := a - a * a * a / 6.

(** An 80 x 80 costmap of 4 m x 4 m. *)
Definition costmap_80 : Costmap2D :=
  {| getSizeInCellsX := 80; getSizeInCellsY := 80; getResolution := 0.05;
     getSizeInMetersX := 4; getSizeInMetersY := 4 |}.

Definition identity : StampedTransform := {| getX := 0; getY := 0; yaw := 0 |}.

(** Every lookup succeeds with the identity. *)
Definition tf_identity : TransformListener :=
  {| lookupTransform := fun _ _ => Some identity;
     transformPose := fun _ pose => Some pose |}.

(** Poses of the frame "map" are transformed by the identity; for any other
    frame [transformPose] throws. *)
Definition tf_map_only : TransformListener :=
  {| lookupTransform := fun _ _ => Some identity;
     transformPose := fun _ pose =>
       if String.eqb (std_msgs.frame_id (geometry_msgs.header pose)) "map"
       then Some pose else None |}.

Definition ros_of (tf : TransformListener) (c : Costmap2D) : Ros :=
  {| tf_ := tf; costmap_ := c; now := 0; unassigned_transform := identity; tc_setPlan := true |}.

Definition ros_80 : Ros := ros_of tf_identity costmap_80.

(** A scan of the given ranges, valid within (0.1, 10), that starts at angle 0. *)
Definition scan (ranges : list float) : sensor_msgs.LaserScan :=
  {| sensor_msgs.header :=
       {| std_msgs.seq := 0; std_msgs.stamp := 1; std_msgs.frame_id := "base_laser_link" |};
     sensor_msgs.angle_min := 0;
     sensor_msgs.angle_increment := 0.0078125;
     sensor_msgs.range_min := single.of_double 0.1;
     sensor_msgs.range_max := 10;
     sensor_msgs.ranges := ranges |}.

Definition pose_at (frame : string) (px py : float) : geometry_msgs.PoseStamped :=
  {| geometry_msgs.header := {| std_msgs.seq := 0; std_msgs.stamp := 0; std_msgs.frame_id := frame |};
     geometry_msgs.pose :=
       {| geometry_msgs.position := {| geometry_msgs.x := px; geometry_msgs.y := py; geometry_msgs.z := 0 |};
          geometry_msgs.orientation :=
            {| geometry_msgs.qx := 0; geometry_msgs.qy := 0; geometry_msgs.qz := 0; geometry_msgs.qw := 1 |} |} |}.

(** The planner after its constructor and [initialize]. *)
Definition started : NeuroLocalPlannerWrapper := initialize constructed.

(** The same after [setPlan] of a plan. *)
Definition started_with (plan : list geometry_msgs.PoseStamped) : NeuroLocalPlannerWrapper :=
  default started (planner_after (setPlan ros_80 started plan)).

(** The grid of the 80 x 80 costmap, all background, as a scan finds it after
    step 1. *)
Definition grid_80 : nav_msgs.OccupancyGrid :=
  customized_costmap_ (initialize_or_clear ros_80 started).

(** A 2 x 2 costmap, for runs of several scans. *)
Definition costmap_2 : Costmap2D :=
  {| getSizeInCellsX := 2; getSizeInCellsY := 2; getResolution := 0.5;
     getSizeInMetersX := 1; getSizeInMetersY := 1 |}.

Definition ros_2 : Ros := ros_of tf_identity costmap_2.

(** The place of cell (x, y) in the buffer of the 80 x 80 grid. *)
Definition cell (x y : Z) : nat := Z.to_nat (x + y * 80).

Definition background : list Z := replicate (Z.to_nat 6400) 70%Z.

(** A plan whose first pose is in a frame that cannot be transformed. *)
Definition plan_with_failure : list geometry_msgs.PoseStamped :=
  [pose_at "odom" 0.5 0.5; pose_at "map" 1 0; pose_at "map" 0.5 0].

Definition plan_without_it : list geometry_msgs.PoseStamped :=
  [pose_at "map" 1 0; pose_at "map" 0.5 0].

(** A plan of three poses in three cells, and one whose last two poses share a
    cell. *)
Definition plan_three : list geometry_msgs.PoseStamped :=
  [pose_at "map" 0 0; pose_at "map" 0.5 0; pose_at "map" 1 0].


Definition point (px py : float) : geometry_msgs.Point :=
  {| geometry_msgs.x := px; geometry_msgs.y := py; geometry_msgs.z := 0 |}.

(** The subscript that the second loop of the Path Rasterizer computes for the
    cell (x, y) is x + y * 80, for every cell of the 80 x 80 grid: a check by
    evaluation. *)
Definition subscripts_80_exact : bool :=
  forallb (fun cy =>
     forallb (fun cx =>
        match double.to_size_t
                (plan_pixel_subscript (nav_msgs.info grid_80)
                   (point (double.of_Z cx) (double.of_Z cy))) with
        | Ok i => (i =? cx + cy * 80)%Z
        | _ => false
        end) (seqZ 0 80)) (seqZ 0 80).

(** The same costmap with the size in meters that costmap_2d itself reports
    for 80 cells of 0.05 m, (80 - 1 + 0.5) * 0.05. *)
Definition costmap_80_as_costmap_2d : Costmap2D :=
  {| getSizeInCellsX := 80; getSizeInCellsY := 80; getResolution := 0.05;
     getSizeInMetersX := 3.975; getSizeInMetersY := 3.975 |}.

(** The planner after a first scan with one sample at range 1. *)
Definition after_first_scan : NeuroLocalPlannerWrapper :=
  default started
    (planner_after (getLaserScanPoints cos_series sin_series ros_80 started (scan [1]))).

(** A buffer of depth 4 for grids of 2 x 2 cells, empty. *)
Definition buffer_2 : Transition :=
  {| header := Header_0; width := 2; height := 2; depth := 4; state_representation := [] |}.

Definition grid_2 (c : Z) : nav_msgs.OccupancyGrid :=
  {| nav_msgs.header := Header_0;
     nav_msgs.info := {| nav_msgs.resolution := 0.5; nav_msgs.width := 2; nav_msgs.height := 2;
                         nav_msgs.origin := Pose_0 |};
     nav_msgs.data := replicate 4 c |}.

End scenario.

(** ** Runs of the buffer in closed form

    What step 5 publishes over a run of grids, and what it holds after the
    run, read off its state machine: four consecutive grids make one stacked
    unit, and the grid of the call that publishes is left out. *)
Fixpoint stacked_units (gs : list nav_msgs.OccupancyGrid) : list (list Z) :=
  match gs with
  | g1 :: g2 :: g3 :: g4 :: _ :: gs =>
      (nav_msgs.data g1 ++ nav_msgs.data g2 ++ nav_msgs.data g3 ++ nav_msgs.data g4)
      :: stacked_units gs
  | _ => []
  end.

Fixpoint pending_layers (gs : list nav_msgs.OccupancyGrid) : list Z :=
  match gs with
  | _ :: _ :: _ :: _ :: _ :: gs => pending_layers gs
  | gs => concat (nav_msgs.data <$> gs)
  end.

(** ** The rest of the interface *)

(** [geometry_msgs::Vector3] and [geometry_msgs::Twist], declared by ROS. *)
Module geometry_msgs_Twist.
Record Vector3 := { x : float; y : float; z : float }.
Record Twist := { linear : Vector3; angular : Vector3 }.
End geometry_msgs_Twist.

Definition Twist_0 : geometry_msgs_Twist.Twist :=
  {| geometry_msgs_Twist.linear :=
       {| geometry_msgs_Twist.x := 0; geometry_msgs_Twist.y := 0; geometry_msgs_Twist.z := 0 |};
     geometry_msgs_Twist.angular :=
       {| geometry_msgs_Twist.x := 0; geometry_msgs_Twist.y := 0; geometry_msgs_Twist.z := 0 |} |}.

Definition set_angular_z (v : float) (t : geometry_msgs_Twist.Twist) : geometry_msgs_Twist.Twist :=
  {| geometry_msgs_Twist.linear := geometry_msgs_Twist.linear t;
     geometry_msgs_Twist.angular :=
       {| geometry_msgs_Twist.x := geometry_msgs_Twist.x (geometry_msgs_Twist.angular t);
          geometry_msgs_Twist.y := geometry_msgs_Twist.y (geometry_msgs_Twist.angular t);
          geometry_msgs_Twist.z := v |} |}.

Definition set_linear_x (v : float) (t : geometry_msgs_Twist.Twist) : geometry_msgs_Twist.Twist :=
  {| geometry_msgs_Twist.linear :=
       {| geometry_msgs_Twist.x := v;
          geometry_msgs_Twist.y := geometry_msgs_Twist.y (geometry_msgs_Twist.linear t);
          geometry_msgs_Twist.z := geometry_msgs_Twist.z (geometry_msgs_Twist.linear t) |};
     geometry_msgs_Twist.angular := geometry_msgs_Twist.angular t |}.

(** [computeVelocityCommands]: the command it leaves in [cmd_vel] and the flag
    it returns; no member of the planner is written.
    [tc_computeVelocityCommands] is [tc_->computeVelocityCommands]: from the
    command it is handed, the command it leaves and its flag. *)
Definition computeVelocityCommands
    (tc_computeVelocityCommands : geometry_msgs_Twist.Twist -> geometry_msgs_Twist.Twist * bool)
    (p : NeuroLocalPlannerWrapper) (cmd_vel : geometry_msgs_Twist.Twist)
  : geometry_msgs_Twist.Twist * bool :=
  if negb (existing_plugin_ p) then
    let cmd_vel := set_angular_z 0 cmd_vel in
    let cmd_vel := set_linear_x 0.5 cmd_vel in
    (cmd_vel, true)
  else
    let cmd := Twist_0 in
    let '(cmd, computed) := tc_computeVelocityCommands cmd in
    if computed then (cmd, true) else (cmd_vel, false).

(** A [tf::Stamped<tf::Pose>], through [getOrigin()]. *)
Module tf.
Record Pose := { getX : float; getY : float }.
End tf.

Section isGoalReached.

(** [pow] of <math.h>. *)
Variable pow : float -> float -> float.

Local Open Scope float_scope.

(** [isGoalReached]: the planner it leaves, what it publishes on [state_pub_],
    and the flag it returns.  [current_pose_] is the member of that name as
    [getRobotPose] leaves it; it is read nowhere else. *)
Definition isGoalReached (ros : Ros) (current_pose_ : tf.Pose) (p : NeuroLocalPlannerWrapper)
  : NeuroLocalPlannerWrapper * list bool * bool :=
  let dist :=
    PrimFloat.sqrt
      (pow (tf.getX current_pose_ - geometry_msgs.x (geometry_msgs.position (goal_ p))
            + getSizeInMetersX (costmap_ ros) / 2) 2
       + pow (tf.getY current_pose_ - geometry_msgs.y (geometry_msgs.position (goal_ p))
              + getSizeInMetersY (costmap_ ros) / 2) 2) in
  if dist <? 0.2 then
    let new_round := true in
    (set_global_plan_ [] p, [new_round], true)
  else (p, [], false).

End isGoalReached.

(** The planners that the node can be working on: the constructor leaves
    [initialized_] false, and then the functions of the interface are called in
    any order, the callback of the scans only once [initialize] has subscribed
    it.  A call that throws is the end of the run. *)
Inductive reachable (cos sin : float -> float) (pow : float -> float -> float)
  : NeuroLocalPlannerWrapper -> Prop :=
| reachable_constructed (p : NeuroLocalPlannerWrapper) :
    initialized_ p = false -> reachable cos sin pow p
| reachable_initialize (p : NeuroLocalPlannerWrapper) :
    reachable cos sin pow p -> reachable cos sin pow (initialize p)
| reachable_setPlan (ros : Ros) (p p' : NeuroLocalPlannerWrapper)
    (plan : list geometry_msgs.PoseStamped) (b : bool) :
    reachable cos sin pow p -> setPlan ros p plan = Ok (p', b) -> reachable cos sin pow p'
| reachable_isGoalReached (ros : Ros) (pose : tf.Pose) (p : NeuroLocalPlannerWrapper) :
    reachable cos sin pow p -> reachable cos sin pow (isGoalReached pow ros pose p).1.1
| reachable_getLaserScanPoints (ros : Ros) (p p' : NeuroLocalPlannerWrapper)
    (laser_scan : sensor_msgs.LaserScan) (published : list Publication) :
    reachable cos sin pow p -> initialized_ p = true ->
    getLaserScanPoints cos sin ros p laser_scan = Ok (p', published) ->
    reachable cos sin pow p'.

(** ** Integers in binary64

    The double [x] is the integer [n] in the form the conversions and the
    operations of the program produce it: +0, or a positive number with a
    mantissa of 53 digits. *)
Definition is_integer (x : float) (n : Z) : Prop :=
  (n = 0 /\ Prim2SF x = S754_zero false)
  \/ (0 < n
      /\ exists (m : positive) (e : Z),
           Prim2SF x = S754_finite false m e
           /\ 2 ^ 52 <= Z.pos m < 2 ^ 53 /\ -52 <= e <= 0 /\ Z.pos m = n * 2 ^ (- e)).

(** ** Runs *)

Module run.

Local Open Scope float_scope.

(** A scan with a time stamp of its own. *)
Definition scan_at (stamp : Z) (ranges : list float) : sensor_msgs.LaserScan :=
  {| sensor_msgs.header :=
       {| std_msgs.seq := 0; std_msgs.stamp := stamp; std_msgs.frame_id := "base_laser_link" |};
     sensor_msgs.angle_min := 0;
     sensor_msgs.angle_increment := 0.0078125;
     sensor_msgs.range_min := single.of_double 0.1;
     sensor_msgs.range_max := 10;
     sensor_msgs.ranges := ranges |}.

(** Six scans on the 2 x 2 costmap, stamped 11 to 16; the sample of the scans
    with an odd stamp falls into the cell (1, 1). *)
Definition six_scans : list (Ros * sensor_msgs.LaserScan) :=
  [(scenario.ros_2, scan_at 11 [0.25]); (scenario.ros_2, scan_at 12 []);
   (scenario.ros_2, scan_at 13 [0.25]); (scenario.ros_2, scan_at 14 []);
   (scenario.ros_2, scan_at 15 [0.25]); (scenario.ros_2, scan_at 16 [])].

Definition from_start (scans : list (Ros * sensor_msgs.LaserScan))
  : result (NeuroLocalPlannerWrapper * list Publication) :=
  getLaserScanPoints_each scenario.cos_series scenario.sin_series scenario.started scans.

Definition published_by (r : result (NeuroLocalPlannerWrapper * list Publication))
  : list Publication :=
  match r with
  | Ok (_, published) => published
  | _ => []
  end.

Definition planner_of (r : result (NeuroLocalPlannerWrapper * list Publication))
  : NeuroLocalPlannerWrapper :=
  default scenario.started (planner_after r).

(** No pose can be transformed. *)
Definition tf_none : TransformListener :=
  {| lookupTransform := fun _ _ => Some scenario.identity;
     transformPose := fun _ _ => None |}.

Definition ros_none : Ros := scenario.ros_of tf_none scenario.costmap_2.

(** The grid of the 2 x 2 costmap, all background. *)
Definition grid_2 : nav_msgs.OccupancyGrid :=
  customized_costmap_ (initialize_or_clear scenario.ros_2 scenario.started).

Definition plan_two : list geometry_msgs.PoseStamped :=
  [scenario.pose_at "map" 0.2 0.2; scenario.pose_at "map" (-0.2) (-0.2)].

(** A costmap of 2^16 x 2^16 cells: the number of its cells is 0 on 32 bits. *)
Definition costmap_wrapped : Costmap2D :=
  {| getSizeInCellsX := 65536; getSizeInCellsY := 65536; getResolution := 0.0625;
     getSizeInMetersX := 4096; getSizeInMetersY := 4096 |}.

Definition ros_wrapped : Ros := scenario.ros_of scenario.tf_identity costmap_wrapped.

(** A plan whose second pose has no number for its x. *)
Definition plan_nan : list geometry_msgs.PoseStamped :=
  [scenario.pose_at "map" 0.2 0.2; scenario.pose_at "map" nan 0;
   scenario.pose_at "map" (-0.2) (-0.2)].

End run.

(** * Properties *)

(** ** Results and machine integers *)

Lemma bind_Ok {A B : Type} (r : result A) (k : A -> result B) (b : B) :
  r ≫= k = Ok b -> exists a, r = Ok a /\ k a = Ok b.
Proof. destruct r as [a | e | ]; simpl; intros H; try discriminate. now exists a. Qed.

Lemma wrap_u32_small (z : Z) : 0 <= z < 2 ^ 32 -> wrap_u32 z = z.
Proof. intros H. unfold wrap_u32. now apply Z.mod_small. Qed.

Lemma wrap_u32_range (z : Z) : 0 <= wrap_u32 z < 2 ^ 32.
Proof. unfold wrap_u32. apply Z.mod_pos_bound. lia. Qed.

Lemma mul_u32_small (a b : Z) : 0 <= a * b < 2 ^ 32 -> mul_u32 a b = a * b.
Proof. apply wrap_u32_small. Qed.

(** A conversion yields an integer or is undefined; it throws nothing. *)
Lemma to_integer_defined_or_not (lo hi : Z) (x : float) :
  (exists z, double.to_integer lo hi x = Ok z) \/ double.to_integer lo hi x = Undefined.
Proof.
  unfold double.to_integer. destruct (double.truncate x) as [z |]; [| now right].
  destruct ((lo <=? z) && (z <=? hi)); [left; now exists z | now right].
Qed.

Lemma to_integer_Ok (lo hi : Z) (x : float) (z : Z) :
  double.to_integer lo hi x = Ok z <-> double.truncate x = Some z /\ lo <= z <= hi.
Proof.
  unfold double.to_integer. destruct (double.truncate x) as [z' |].
  - destruct (Z.leb_spec lo z'), (Z.leb_spec z' hi); simpl; split;
      try (intros [= <-]; split; [reflexivity | lia]);
      try (intros [[= ->] ?]; first [reflexivity | lia]); try discriminate.
  - split; [discriminate | intros [[=] _]].
Qed.

Example round_half_up : double.round 59.5 = 60%float.
Proof. reflexivity. Qed.

Example round_half_down : double.round (-2.5) = (-3)%float.
Proof. reflexivity. Qed.

Example round_below_half : PrimFloat.eqb (double.round 0x1.fffffffffffffp-2) 0 = true.
Proof. reflexivity. Qed.

Example round_half_away_from_zero :
  double.round 0.5 = 1%float /\ double.round (-0.5) = (-1)%float /\
  double.round 2.5 = 3%float /\ double.round 39.5 = 40%float /\
  double.round 79.5 = 80%float /\ double.round 1.4999 = 1%float.
Proof. repeat split. Qed.

Example round_of_an_integer :
  double.round 1e300 = 1e300%float /\ double.round (-7) = (-7)%float /\
  double.round 0 = 0%float.
Proof. repeat split. Qed.

Example of_Z_exact :
  double.of_Z 4294967295 = 4294967295%float /\ double.of_Z (-2147483648) = (-2147483648)%float /\
  double.truncate (double.of_Z 6399) = Some 6399.
Proof. repeat split. Qed.

Example single_arithmetic :
  single.of_double 0.1 = 0x1.99999ap-4%float /\
  single.mul (single.of_Z 725) (single.of_double 0.0043633231) = 0x1.94ea98p+1%float /\
  single.of_Z 16777217 = 16777216%float.
Proof. repeat split. Qed.

Example round_nan : PrimFloat.is_nan (double.round (0 / 0)) = true.
Proof. reflexivity. Qed.

Example to_int_nan : double.to_int (0 / 0) = Undefined.
Proof. reflexivity. Qed.

Example to_int_large : double.to_int 4294967296 = Undefined.
Proof. reflexivity. Qed.

Example to_int_toward_zero : double.to_int (-39.5) = Ok (-39).
Proof. reflexivity. Qed.

(** ** Step 1: the clear step *)

Lemma initialize_or_clear_running (ros : Ros) (p : NeuroLocalPlannerWrapper) :
  is_customized_costmap_initialized_ p = true ->
  initialize_or_clear ros p = set_customized_costmap_ (clear_costmap (customized_costmap_ p)) p.
Proof. intros H. unfold initialize_or_clear. now rewrite H. Qed.

(** C9: the clear step of a scan sets every cell of the buffer to the background
    value 70, leaves the geometry of the grid (width, height, resolution,
    origin) as it was, and leaves a buffer of width*height cells. *)
Theorem clear_costmap_background (ros : Ros) (p : NeuroLocalPlannerWrapper) :
  let g := customized_costmap_ p in
  let g' := customized_costmap_ (initialize_or_clear ros p) in
  is_customized_costmap_initialized_ p = true ->
  0 <= nav_msgs.width (nav_msgs.info g) * nav_msgs.height (nav_msgs.info g) < 2 ^ 32 ->
  g' = clear_costmap g /\
  nav_msgs.info g' = nav_msgs.info g /\
  Forall (fun c => c = 70) (nav_msgs.data g') /\
  Z.of_nat (length (nav_msgs.data g'))
  = nav_msgs.width (nav_msgs.info g') * nav_msgs.height (nav_msgs.info g').
Proof.
  intros g g' Hrun Hsize. subst g'.
  rewrite (initialize_or_clear_running ros p Hrun). simpl. fold g.
  repeat split.
  - apply Forall_replicate. reflexivity.
  - rewrite length_replicate, Z2Nat.id, mul_u32_small by (try apply wrap_u32_range; lia).
    reflexivity.
Qed.

(** ** Step 5: the buffer of consecutive costmaps *)

Lemma buffer_costmap_filling (t : Transition) (g : nav_msgs.OccupancyGrid) :
  Z.of_nat (length (state_representation t)) <> full_length t ->
  buffer_costmap t g
  = ({| header := header t; width := width t; height := height t; depth := depth t;
        state_representation := state_representation t ++ nav_msgs.data g |}, []).
Proof.
  intros H. unfold buffer_costmap. fold (full_length t).
  destruct (Z.eqb_spec (Z.of_nat (length (state_representation t))) (full_length t)); [lia | reflexivity].
Qed.

Lemma buffer_costmap_full (t : Transition) (g : nav_msgs.OccupancyGrid) :
  Z.of_nat (length (state_representation t)) = full_length t ->
  exists m t',
    buffer_costmap t g = (t', [transition_pub m]) /\
    state_representation m = state_representation t /\
    width m = width t /\ height m = height t /\ depth m = depth t /\
    std_msgs.stamp (header m) = std_msgs.stamp (nav_msgs.header g) /\
    state_representation t' = [] /\
    width t' = width t /\ height t' = height t /\ depth t' = depth t.
Proof.
  intros H. unfold buffer_costmap. fold (full_length t).
  destruct (Z.eqb_spec (Z.of_nat (length (state_representation t))) (full_length t)); [| lia].
  eexists _, _. split; [reflexivity |]. simpl. repeat split.
Qed.

(** A push publishes exactly when the buffer was full before it. *)
Lemma buffer_costmap_publishes (t : Transition) (g : nav_msgs.OccupancyGrid) :
  (buffer_costmap t g).2 <> [] <-> Z.of_nat (length (state_representation t)) = full_length t.
Proof.
  split.
  - intros H. destruct (decide (Z.of_nat (length (state_representation t)) = full_length t))
      as [| Hne]; [assumption |].
    rewrite (buffer_costmap_filling t g Hne) in H. now contradiction H.
  - intros H. destruct (buffer_costmap_full t g H) as (m & t' & -> & _). discriminate.
Qed.

(** One push into a buffer of depth 4 that holds [k] < 4 layers appends. *)
Lemma buffer_costmap_layer (t : Transition) (g : nav_msgs.OccupancyGrid) (k : Z) :
  depth t = 4 ->
  0 < width t * height t -> 4 * (width t * height t) < 2 ^ 32 ->
  Z.of_nat (length (state_representation t)) = k * (width t * height t) ->
  0 <= k < 4 ->
  buffer_costmap t g
  = ({| header := header t; width := width t; height := height t; depth := depth t;
        state_representation := state_representation t ++ nav_msgs.data g |}, []).
Proof.
  intros Hd Hpos Hfit Hlen Hk. apply buffer_costmap_filling.
  unfold full_length. rewrite Hd, (mul_u32_small (width t)), mul_u32_small by lia. nia.
Qed.

Lemma full_length_depth_4 (t : Transition) :
  depth t = 4 ->
  0 < width t * height t -> 4 * (width t * height t) < 2 ^ 32 ->
  full_length t = width t * height t * 4.
Proof.
  intros Hd Hpos Hfit. unfold full_length.
  rewrite Hd, (mul_u32_small (width t)), mul_u32_small by lia. reflexivity.
Qed.

(** C1, as the code has it: a push first compares the accumulated length with
    depth*width*height; when they are equal it publishes the accumulated
    sequence and clears it, and the grid of that push is not appended;
    otherwise it appends the grid's whole buffer.  So four pushes into an empty
    buffer of depth 4 publish nothing and leave the four layers accumulated,
    oldest first; the fifth push publishes exactly one stacked unit, those four
    layers, of length width*height*4, and leaves the accumulation empty; three
    pushes publish nothing. *)
Theorem buffer_publishes_on_the_push_after_the_fourth
    (t : Transition) (g1 g2 g3 g4 g5 : nav_msgs.OccupancyGrid) :
  depth t = 4 ->
  state_representation t = [] ->
  0 < width t * height t ->
  4 * (width t * height t) < 2 ^ 32 ->
  Forall (fun g => Z.of_nat (length (nav_msgs.data g)) = width t * height t) [g1; g2; g3; g4] ->
  let stacked := nav_msgs.data g1 ++ nav_msgs.data g2 ++ nav_msgs.data g3 ++ nav_msgs.data g4 in
  (forall (t' : Transition) (g : nav_msgs.OccupancyGrid),
      (buffer_costmap t' g).2 <> []
      <-> Z.of_nat (length (state_representation t')) = full_length t') /\
  (forall (t' : Transition) (g : nav_msgs.OccupancyGrid),
      Z.of_nat (length (state_representation t')) <> full_length t' ->
      state_representation (buffer_costmap t' g).1 = state_representation t' ++ nav_msgs.data g) /\
  (forall (t' : Transition) (g : nav_msgs.OccupancyGrid),
      Z.of_nat (length (state_representation t')) = full_length t' ->
      state_representation (buffer_costmap t' g).1 = [] /\
      exists m, (buffer_costmap t' g).2 = [transition_pub m]
                /\ state_representation m = state_representation t') /\
  (buffer_costmaps t [g1; g2; g3]).2 = [] /\
  (buffer_costmaps t [g1; g2; g3; g4]).2 = [] /\
  state_representation (buffer_costmaps t [g1; g2; g3; g4]).1 = stacked /\
  (exists m,
      (buffer_costmaps t [g1; g2; g3; g4; g5]).2 = [transition_pub m] /\
      state_representation m = stacked /\
      Z.of_nat (length (state_representation m)) = width t * height t * 4) /\
  state_representation (buffer_costmaps t [g1; g2; g3; g4; g5]).1 = [].
Proof.
  intros Hd Hempty Hpos Hfit Hall stacked.
  split; [exact buffer_costmap_publishes |].
  split; [intros t' g Hne; now rewrite (buffer_costmap_filling t' g Hne) |].
  split.
  { intros t' g Hfull.
    destruct (buffer_costmap_full t' g Hfull) as (m & t'' & -> & Hm & _ & _ & _ & _ & Ht'' & _).
    split; [exact Ht'' | now exists m]. }
  apply Forall_cons in Hall as [H1 Hall]. apply Forall_cons in Hall as [H2 Hall].
  apply Forall_cons in Hall as [H3 Hall]. apply Forall_cons in Hall as [H4 _].
  set (n := width t * height t) in *.
  (* the buffer after k pushes *)
  pose (layer := fun (d : list Z) =>
    {| header := header t; width := width t; height := height t; depth := depth t;
       state_representation := d |}).
  assert (P1 : buffer_costmap t g1 = (layer (nav_msgs.data g1), [])).
  { rewrite (buffer_costmap_layer t g1 0) by (rewrite ?Hempty; simpl; lia).
    now rewrite Hempty. }
  assert (P2 : buffer_costmap (layer (nav_msgs.data g1)) g2
               = (layer (nav_msgs.data g1 ++ nav_msgs.data g2), [])).
  { etransitivity; [apply (buffer_costmap_layer (layer (nav_msgs.data g1)) g2 1) | reflexivity];
      simpl; fold n; lia. }
  assert (P3 : buffer_costmap (layer (nav_msgs.data g1 ++ nav_msgs.data g2)) g3
               = (layer ((nav_msgs.data g1 ++ nav_msgs.data g2) ++ nav_msgs.data g3), [])).
  { etransitivity;
      [apply (buffer_costmap_layer (layer (nav_msgs.data g1 ++ nav_msgs.data g2)) g3 2)
      | reflexivity]; simpl; fold n; rewrite ?length_app; lia. }
  assert (P4 : buffer_costmap (layer ((nav_msgs.data g1 ++ nav_msgs.data g2) ++ nav_msgs.data g3)) g4
               = (layer (((nav_msgs.data g1 ++ nav_msgs.data g2) ++ nav_msgs.data g3)
                         ++ nav_msgs.data g4), [])).
  { etransitivity;
      [apply (buffer_costmap_layer
                (layer ((nav_msgs.data g1 ++ nav_msgs.data g2) ++ nav_msgs.data g3)) g4 3)
      | reflexivity]; simpl; fold n; rewrite ?length_app; lia. }
  assert (Hstacked : ((nav_msgs.data g1 ++ nav_msgs.data g2) ++ nav_msgs.data g3)
                     ++ nav_msgs.data g4 = stacked).
  { subst stacked. now rewrite <- !app_assoc. }
  rewrite Hstacked in P4.
  assert (Hlen : Z.of_nat (length stacked) = n * 4).
  { subst stacked. rewrite !length_app. lia. }
  destruct (buffer_costmap_full (layer stacked) g5) as (m & t' & P5 & Hm & _ & _ & _ & _ & Ht' & _).
  { rewrite full_length_depth_4; simpl; fold n; lia. }
  simpl in Hm.
  cbn [buffer_costmaps]. rewrite P1, P2, P3, P4, P5. simpl.
  repeat split; try assumption.
  exists m. rewrite Hm. repeat split. exact Hlen.
Qed.

(** ** An empty plan *)

Lemma add_global_path_empty (ros : Ros) (g : nav_msgs.OccupancyGrid) :
  add_global_path ros [] g = Ok (nav_msgs.data g).
Proof. reflexivity. Qed.

(** C5, at the failing input: [setPlan] of an initialized planner reads the last
    pose of the plan with [at(size() - 1)], which for an empty plan is
    [at(SIZE_MAX)] and throws [std::out_of_range]; rasterizing an empty plan
    writes nothing and fails nowhere. *)
Theorem setPlan_empty_plan_throws (ros : Ros) (p : NeuroLocalPlannerWrapper)
    (g : nav_msgs.OccupancyGrid) :
  setPlan ros p [] = (if initialized_ p then Throws out_of_range else Ok (p, false)) /\
  add_global_path ros [] g = Ok (nav_msgs.data g).
Proof.
  split; [| reflexivity].
  unfold setPlan. destruct (initialized_ p); reflexivity.
Qed.

(** ** A plan of one pixel *)

Lemma plan_pixel_value_single : PrimFloat.is_nan (plan_pixel_value 1 0) = true.
Proof. reflexivity. Qed.

Lemma plan_pixel_single : plan_pixel 1 0 = Undefined.
Proof. reflexivity. Qed.

Lemma write_plan_pixels_single (info : nav_msgs.MapMetaData) (a : geometry_msgs.Point)
    (data : list Z) :
  write_plan_pixels info 1 0 [a] data = Undefined.
Proof.
  cbn [write_plan_pixels]. rewrite plan_pixel_single.
  destruct (to_integer_defined_or_not 0 size_t_max (plan_pixel_subscript info a))
    as [(i & Hi) | Hi]; unfold double.to_size_t; rewrite Hi; reflexivity.
Qed.

(** C2, at the failing input: when exactly one pose of the plan falls into the
    grid, the value of its pixel is 50 - round(0.0/0.0*50.0), a NaN, whose
    conversion to the [int8_t] of the cell is undefined; no branch of the code
    sets a value of its own for that case. *)
Theorem single_plan_pixel_is_undefined (ros : Ros) (plan : list geometry_msgs.PoseStamped)
    (g : nav_msgs.OccupancyGrid) (a : geometry_msgs.Point) :
  global_plan_map_coordinates ros g PoseStamped_0 [] plan = Ok [a] ->
  PrimFloat.is_nan (plan_pixel_value 1 0) = true /\
  plan_pixel 1 0 = Undefined /\
  add_global_path ros plan g = Undefined.
Proof.
  intros H. split; [reflexivity |]. split; [reflexivity |].
  unfold add_global_path. rewrite H. cbn [mbind result_bind length].
  change (wrap_s32 (Z.of_nat 1)) with 1. apply write_plan_pixels_single.
Qed.

(** ** The world-to-cell mapping *)

Lemma to_int_of_truncate (v : float) (z : Z) :
  double.truncate v = Some z -> - 2 ^ 31 <= z < 2 ^ 31 -> double.to_int v = Ok z.
Proof. intros Ht Hz. apply to_integer_Ok. split; [assumption | lia]. Qed.

Lemma in_bounds_decide (w h x y : Z) :
  (0 <=? x) && (0 <=? y) && (x <? w) && (y <? h)
  = bool_decide (0 <= x < w /\ 0 <= y < h).
Proof.
  destruct (Z.leb_spec 0 x), (Z.leb_spec 0 y), (Z.ltb_spec x w), (Z.ltb_spec y h); simpl;
    symmetry; first [apply bool_decide_eq_true; lia | apply bool_decide_eq_false; lia].
Qed.

Lemma spec_worldToCell_of_truncate (info : nav_msgs.MapMetaData) (wm hm px py : float)
    (cellX cellY : Z) :
  double.truncate (spec_cellX info wm px) = Some cellX ->
  double.truncate (spec_cellY info hm py) = Some cellY ->
  spec_worldToCell info wm hm px py
  = if bool_decide (0 <= cellX < nav_msgs.width info /\ 0 <= cellY < nav_msgs.height info)
    then Some (cellX, cellY) else None.
Proof.
  intros Hx Hy. unfold spec_worldToCell. rewrite Hx, Hy.
  destruct (decide _) as [H | H].
  - now rewrite bool_decide_eq_true_2.
  - now rewrite bool_decide_eq_false_2.
Qed.

(** ** The pixels of the plan *)

Lemma to_size_t_nonneg (v : float) (i : Z) : double.to_size_t v = Ok i -> 0 <= i.
Proof. intros H. apply to_integer_Ok in H. lia. Qed.

Lemma vector_set_Ok {A : Type} (v v' : list A) (i : Z) (a : A) :
  vector_set v i a = Ok v' -> i < Z.of_nat (length v) /\ v' = <[Z.to_nat i := a]> v.
Proof.
  unfold vector_set. destruct (Z.ltb_spec i (Z.of_nat (length v))); [| discriminate].
  intros [= <-]. now split.
Qed.

Lemma vector_set_in_range {A : Type} (v : list A) (i : Z) (a : A) :
  i < Z.of_nat (length v) -> vector_set v i a = Ok (<[Z.to_nat i := a]> v).
Proof.
  intros H. unfold vector_set. destruct (Z.ltb_spec i (Z.of_nat (length v))); [reflexivity | lia].
Qed.

(** One turn of the second loop. *)
Lemma write_plan_pixels_cons (info : nav_msgs.MapMetaData) (total counter : Z)
    (a : geometry_msgs.Point) (coordinates : list geometry_msgs.Point) (data data' : list Z) :
  write_plan_pixels info total counter (a :: coordinates) data = Ok data' ->
  exists i v,
    double.to_size_t (plan_pixel_subscript info a) = Ok i /\
    plan_pixel total counter = Ok v /\
    i < Z.of_nat (length data) /\
    write_plan_pixels info total (counter + 1) coordinates (<[Z.to_nat i := v]> data) = Ok data'.
Proof.
  cbn [write_plan_pixels]. intros H.
  apply bind_Ok in H as (i & Hi & H). apply bind_Ok in H as (v & Hv & H).
  apply bind_Ok in H as (d & Hd & H). apply vector_set_Ok in Hd as [Hlt ->].
  now exists i, v.
Qed.

(** A cell that is the subscript of no pixel keeps its value, and the buffer
    keeps its length. *)
Lemma write_plan_pixels_untouched (info : nav_msgs.MapMetaData) (total : Z)
    (coordinates : list geometry_msgs.Point) :
  forall (counter : Z) (data data' : list Z),
    write_plan_pixels info total counter coordinates data = Ok data' ->
    length data' = length data /\
    forall i : Z,
      0 <= i ->
      (forall (k : nat) (a : geometry_msgs.Point),
          coordinates !! k = Some a -> double.to_size_t (plan_pixel_subscript info a) <> Ok i) ->
      data' !! Z.to_nat i = data !! Z.to_nat i.
Proof.
  induction coordinates as [| a coordinates IH]; intros counter data data' H.
  - injection H as <-. now split.
  - apply write_plan_pixels_cons in H as (i0 & v0 & Hi0 & Hv0 & Hlt & H).
    apply IH in H as [Hlen Hkeep]. rewrite length_insert in Hlen. split; [assumption |].
    intros i Hi Hnone. rewrite Hkeep.
    + apply list_lookup_insert_ne. intros Heq.
      apply (Hnone 0%nat a eq_refl). rewrite Hi0. f_equal.
      apply to_size_t_nonneg in Hi0. lia.
    + assumption.
    + intros k a' Hk. apply (Hnone (S k) a' Hk).
Qed.





(** On the 80 x 80 grid the subscript of a cell is x + y * 80, so that
    distinct cells have distinct subscripts. *)
Lemma plan_pixel_subscript_80 (cx cy : Z) :
  0 <= cx < 80 -> 0 <= cy < 80 ->
  double.to_size_t (plan_pixel_subscript (nav_msgs.info scenario.grid_80)
                      (scenario.point (double.of_Z cx) (double.of_Z cy)))
  = Ok (cx + cy * 80).
Proof.
  intros Hx Hy.
  assert (H : scenario.subscripts_80_exact = true) by (vm_compute; reflexivity).
  unfold scenario.subscripts_80_exact in H. rewrite forallb_forall in H.
  specialize (H cy). rewrite forallb_forall in H.
  assert (Hin : forall v, 0 <= v < 80 -> In v (seqZ 0 80)).
  { intros v Hv. apply list_elem_of_In, elem_of_seqZ. lia. }
  specialize (H (Hin cy Hy) cx (Hin cx Hx)).
  destruct (double.to_size_t _) as [i | |]; try discriminate.
  apply Z.eqb_eq in H. now subst.
Qed.

(** The subscript of the Scan Rasterizer is x + y * width as long as the grid
    has fewer than 2^32 cells. *)
Lemma scan_subscript (w h cx cy : Z) :
  0 <= cx < w -> 0 <= cy < h -> w * h <= 2 ^ 32 ->
  add_u32 cx (mul_u32 cy w) = cx + cy * w.
Proof.
  intros Hx Hy Hwh. unfold add_u32, mul_u32.
  assert (cy * w + cx < w * h) by nia.
  rewrite (wrap_u32_small (cy * w)) by nia. rewrite wrap_u32_small by nia. lia.
Qed.

(** The write of the Scan Rasterizer, [data[x + y*width] = 100]: the subscript is
    computed on 32 bits, and the cell is written when the buffer has it. *)
Lemma vector_set_scan_subscript {A : Type} (data : list A) (x y w : Z) (a : A) :
  vector_set data (add_u32 x (mul_u32 y w)) a
  = if bool_decide ((x + y * w) mod 2 ^ 32 < Z.of_nat (length data))
    then Ok (<[Z.to_nat ((x + y * w) mod 2 ^ 32) := a]> data)
    else Undefined.
Proof.
  unfold vector_set, add_u32, mul_u32, wrap_u32.
  rewrite Z.add_mod_idemp_r by (apply Z.pow_nonzero; lia).
  destruct (Z.ltb_spec ((x + y * w) mod 2 ^ 32) (Z.of_nat (length data))) as [H | H].
  - now rewrite bool_decide_eq_true_2.
  - rewrite bool_decide_eq_false_2 by lia. reflexivity.
Qed.

(** C6: for a point (px, py) of the grid frame whose two indices are values of
    the [int] that the code stores them in, both rasterizers take the cell of
    the point to be cellX = round(((px - origin.x) / widthMeters) * width - 0.5),
    cellY = round(((py - origin.y) / heightMeters) * height - 0.5), with [round]
    and the operations in this order, and drop the point exactly when cellX is
    outside [0, width) or cellY outside [0, height).  For a sample of the valid
    range the Scan Rasterizer leaves the buffer as it is when the point is
    dropped, and otherwise sets the cell of subscript cellX + cellY * width
    (computed on 32 bits) to 100, which is defined when the buffer has the
    cell; on a buffer of width * height <= 2^32 cells it sets the cell
    cellX + cellY * width.  The Path Rasterizer appends the cell of a pose to
    the cells of the plan, or nothing when the point is dropped. *)
Theorem both_rasterizers_map_world_to_cell
    (cos sin : float -> float) (ros : Ros) (g : nav_msgs.OccupancyGrid)
    (laser_scan : sensor_msgs.LaserScan) (stamped_transform : StampedTransform)
    (i : Z) (r : float) (data : list Z)
    (pose_robot_base_frame it : geometry_msgs.PoseStamped)
    (coordinates : list geometry_msgs.Point) (rest : list geometry_msgs.PoseStamped)
    (px py : float) (cellX cellY : Z) :
  let info := nav_msgs.info g in
  let widthMeters := getSizeInMetersX (costmap_ ros) in
  let heightMeters := getSizeInMetersY (costmap_ ros) in
  double.truncate (spec_cellX info widthMeters px) = Some cellX ->
  double.truncate (spec_cellY info heightMeters py) = Some cellY ->
  - 2 ^ 31 <= cellX < 2 ^ 31 ->
  - 2 ^ 31 <= cellY < 2 ^ 31 ->
  (* the mapping of the specification *)
  (spec_worldToCell info widthMeters heightMeters px py = None
   <-> ~ (0 <= cellX < nav_msgs.width info /\ 0 <= cellY < nav_msgs.height info)) /\
  (spec_worldToCell info widthMeters heightMeters px py <> None ->
   spec_worldToCell info widthMeters heightMeters px py = Some (cellX, cellY)) /\
  (* the Scan Rasterizer *)
  ((sensor_msgs.range_min laser_scan <? r)%float && (r <? sensor_msgs.range_max laser_scan)%float
   = true ->
   position_robot_base_frame cos sin laser_scan stamped_transform i r = (px, py) ->
   add_laser_scan_point cos sin (costmap_ ros) laser_scan stamped_transform info i r data
   = match spec_worldToCell info widthMeters heightMeters px py with
     | Some (x, y) =>
         if bool_decide ((x + y * nav_msgs.width info) mod 2 ^ 32 < Z.of_nat (length data))
         then Ok (<[Z.to_nat ((x + y * nav_msgs.width info) mod 2 ^ 32) := 100]> data)
         else Undefined
     | None => Ok data
     end) /\
  ((sensor_msgs.range_min laser_scan <? r)%float && (r <? sensor_msgs.range_max laser_scan)%float
   = true ->
   position_robot_base_frame cos sin laser_scan stamped_transform i r = (px, py) ->
   Z.of_nat (length data) = nav_msgs.width info * nav_msgs.height info ->
   nav_msgs.width info * nav_msgs.height info <= 2 ^ 32 ->
   add_laser_scan_point cos sin (costmap_ ros) laser_scan stamped_transform info i r data
   = Ok (if bool_decide (0 <= cellX < nav_msgs.width info /\ 0 <= cellY < nav_msgs.height info)
         then <[Z.to_nat (cellX + cellY * nav_msgs.width info) := 100]> data
         else data)) /\
  (* the Path Rasterizer *)
  (let q := transformed_pose ros g pose_robot_base_frame it in
   geometry_msgs.x (geometry_msgs.position (geometry_msgs.pose q)) = px ->
   geometry_msgs.y (geometry_msgs.position (geometry_msgs.pose q)) = py ->
   global_plan_map_coordinates ros g pose_robot_base_frame coordinates (it :: rest)
   = global_plan_map_coordinates ros g q
       (coordinates ++
        match spec_worldToCell info widthMeters heightMeters px py with
        | Some (x, y) => [{| geometry_msgs.x := double.of_Z x; geometry_msgs.y := double.of_Z y;
                             geometry_msgs.z := 0 |}]
        | None => []
        end) rest).
Proof.
  intros info widthMeters heightMeters Hx Hy Hxi Hyi.
  pose proof (spec_worldToCell_of_truncate info widthMeters heightMeters px py cellX cellY Hx Hy)
    as Hspec.
  pose proof (to_int_of_truncate _ _ Hx Hxi) as Hxint.
  pose proof (to_int_of_truncate _ _ Hy Hyi) as Hyint.
  unfold spec_cellX in Hxint. unfold spec_cellY in Hyint.
  assert (Hscan : (sensor_msgs.range_min laser_scan <? r)%float
                  && (r <? sensor_msgs.range_max laser_scan)%float = true ->
                  position_robot_base_frame cos sin laser_scan stamped_transform i r = (px, py) ->
                  add_laser_scan_point cos sin (costmap_ ros) laser_scan stamped_transform info
                    i r data
                  = if bool_decide (0 <= cellX < nav_msgs.width info
                                    /\ 0 <= cellY < nav_msgs.height info)
                    then vector_set data (add_u32 cellX (mul_u32 cellY (nav_msgs.width info))) 100
                    else Ok data).
  { intros Hrange Hpos. unfold add_laser_scan_point. rewrite Hrange, Hpos.
    cbv beta iota. fold widthMeters heightMeters.
    rewrite Hxint. cbn [mbind result_bind]. rewrite Hyint. cbn [mbind result_bind].
    now rewrite in_bounds_decide. }
  split; [| split; [| split; [| split]]].
  - rewrite Hspec. case_bool_decide; split; intros H'; first [discriminate | tauto].
  - rewrite Hspec. case_bool_decide; [reflexivity | intros H'; now contradiction H'].
  - intros Hrange Hpos. rewrite (Hscan Hrange Hpos), Hspec.
    case_bool_decide; [apply vector_set_scan_subscript | reflexivity].
  - intros Hrange Hpos Hlen Hwh. rewrite (Hscan Hrange Hpos).
    case_bool_decide as Hin; [| reflexivity].
    rewrite scan_subscript with (h := nav_msgs.height info) by lia.
    apply vector_set_in_range. nia.
  - intros q Hpx Hpy. cbn [global_plan_map_coordinates]. fold q info widthMeters heightMeters.
    rewrite Hpx, Hpy, Hxint. cbn [mbind result_bind]. rewrite Hyint. cbn [mbind result_bind].
    rewrite in_bounds_decide, Hspec. case_bool_decide; [reflexivity | now rewrite app_nil_r].
Qed.


(** ** Binary64 arithmetic of the plan values

    The value that line 457 stores, [50 - round(counter / (total - 1) * 50.0)],
    followed through the rounding of each operation. *)
Module binary64.

(** The number of binary digits of a mantissa. *)
Lemma digits2_pos_size (p : positive) : digits2_pos p = Pos.size p.
Proof. induction p; simpl; congruence. Qed.

Lemma digits2_pos_bounds (p : positive) :
  2 ^ (Z.pos (digits2_pos p) - 1) <= Z.pos p < 2 ^ Z.pos (digits2_pos p).
Proof.
  rewrite digits2_pos_size. split.
  - pose proof (Pos.size_le p) as H.
    assert (H' : 2 ^ Z.pos (Pos.size p) <= 2 * Z.pos p).
    { rewrite <- Pos2Z.inj_pow. change (2 * Z.pos p) with (Z.pos p~0). now apply Pos2Z.pos_le_pos. }
    replace (Z.pos (Pos.size p)) with (Z.pos (Pos.size p) - 1 + 1) in H' by lia.
    rewrite Z.pow_add_r in H' by lia. lia.
  - pose proof (Pos.size_gt p) as H. rewrite <- Pos2Z.inj_pow. now apply Pos2Z.pos_lt_pos.
Qed.

Lemma digits2_pos_unique (p : positive) (d : Z) :
  2 ^ (d - 1) <= Z.pos p < 2 ^ d -> Z.pos (digits2_pos p) = d.
Proof.
  intros [Hlo Hhi]. pose proof (digits2_pos_bounds p) as [Hlo' Hhi'].
  set (d' := Z.pos (digits2_pos p)) in *.
  assert (0 < d).
  { destruct d as [| d | d]; [| lia |].
    - rewrite Z.pow_0_r in Hhi. lia.
    - rewrite Z.pow_neg_r in Hhi by lia. lia. }
  destruct (Z.lt_trichotomy d d') as [Hlt | [Heq | Hgt]]; [| now symmetry |].
  - assert (2 ^ d <= 2 ^ (d' - 1)) by (apply Z.pow_le_mono_r; lia). lia.
  - assert (2 ^ d' <= 2 ^ (d - 1)) by (apply Z.pow_le_mono_r; lia). lia.
Qed.

(** A shift to the right halves the mantissa. *)
Lemma shr_1_m (mrs : shr_record) :
  0 <= shr_m mrs -> shr_m (shr_1 mrs) = shr_m mrs / 2 /\ 0 <= shr_m (shr_1 mrs).
Proof.
  destruct mrs as [m r s]. simpl. intros H. destruct m as [| p | p]; [now simpl | | lia].
  destruct p as [p | p |]; simpl.
  - split; [| lia]. rewrite Pos2Z.inj_xI. apply Z.div_unique with 1; lia.
  - split; [| lia]. rewrite Pos2Z.inj_xO. apply Z.div_unique with 0; lia.
  - split; [reflexivity | lia].
Qed.

Lemma iter_shr_1_m (n : positive) :
  forall mrs : shr_record,
    0 <= shr_m mrs ->
    shr_m (SpecFloat.iter_pos shr_1 n mrs) = shr_m mrs / 2 ^ Z.pos n /\
    0 <= shr_m (SpecFloat.iter_pos shr_1 n mrs).
Proof.
  induction n as [n IH | n IH |]; intros mrs H; cbn [SpecFloat.iter_pos].
  - destruct (shr_1_m mrs H) as [E1 H1].
    destruct (IH _ H1) as [E2 H2]. destruct (IH _ H2) as [E3 H3].
    split; [| assumption]. rewrite E3, E2, E1.
    rewrite !Zdiv.Zdiv_Zdiv by (try apply Z.pow_nonneg; lia).
    f_equal. rewrite Pos2Z.inj_xI. rewrite <- Z.pow_add_r by lia.
    change 2 with (2 ^ 1) at 1. rewrite <- Z.pow_add_r by lia. f_equal. lia.
  - destruct (IH _ H) as [E2 H2]. destruct (IH _ H2) as [E3 H3].
    split; [| assumption]. rewrite E3, E2.
    rewrite !Zdiv.Zdiv_Zdiv by (try apply Z.pow_nonneg; lia).
    f_equal. rewrite Pos2Z.inj_xO. rewrite <- Z.pow_add_r by lia. f_equal. lia.
  - destruct (shr_1_m mrs H) as [E1 H1]. split; [exact E1 | exact H1].
Qed.

(** Rounding to nearest keeps the truncated mantissa or adds one. *)
Lemma round_nearest_even_cases (m : Z) (l : location) :
  round_nearest_even m l = m \/ round_nearest_even m l = m + 1.
Proof.
  destruct l as [| c]; simpl; [now left |].
  destruct c; [destruct (Z.even m) | |]; auto.
Qed.

Lemma shr_record_of_loc_m (m : Z) (l : location) : shr_m (shr_record_of_loc m l) = m.
Proof. destruct l as [| []]; reflexivity. Qed.

(** The exponent of the last place, in the normal range. *)
Lemma fexp64_normal (e : Z) : -1074 <= e - 53 -> fexp64 e = e - 53.
Proof. intros H. unfold fexp64, fexp, SpecFloat.emin, prec, emax. lia. Qed.

(** The first shift of [binary_round_aux] on a mantissa of [d >= 53] digits. *)
Lemma shr_fexp_normal (mx : positive) (ex : Z) (lx : location) (d : Z) :
  Z.pos (digits2_pos mx) = d -> 53 <= d -> -1074 <= d + ex - 53 ->
  exists mrs,
    shr_fexp prec emax (Z.pos mx) ex lx = (mrs, ex + (d - 53)) /\
    shr_m mrs = Z.pos mx / 2 ^ (d - 53) /\
    (d = 53 -> mrs = shr_record_of_loc (Z.pos mx) lx).
Proof.
  intros Hd H53 Hmin. unfold shr_fexp. cbn [Zdigits2]. rewrite Hd.
  change (fexp prec emax (d + ex)) with (fexp64 (d + ex)). rewrite fexp64_normal by lia.
  replace (d + ex - 53 - ex) with (d - 53) by lia.
  destruct (d - 53) as [| n | n] eqn:Hn; [| | lia].
  - eexists. split; [unfold shr; f_equal; lia |]. split.
    + now rewrite shr_record_of_loc_m, Z.pow_0_r, Z.div_1_r.
    + reflexivity.
  - eexists. split; [unfold shr; reflexivity |]. split.
    + destruct (iter_shr_1_m n (shr_record_of_loc (Z.pos mx) lx)) as [E _].
      { rewrite shr_record_of_loc_m. lia. }
      now rewrite E, shr_record_of_loc_m.
    + lia.
Qed.

Lemma div_pow2_bounds (m n : Z) :
  0 <= n -> m / 2 ^ n * 2 ^ n <= m < (m / 2 ^ n + 1) * 2 ^ n.
Proof.
  intros Hn. assert (0 < 2 ^ n) by (apply Z.pow_pos_nonneg; lia).
  pose proof (Z.mul_div_le m (2 ^ n) ltac:(lia)).
  pose proof (Z.mul_succ_div_gt m (2 ^ n) ltac:(lia)). lia.
Qed.

(** Rounding a mantissa of [d >= 53] digits in the normal range: 53 digits,
    within one unit of the dropped digits, and exact when nothing is dropped. *)
Lemma binary_round_aux_normal (mx : positive) (ex : Z) (lx : location) (d : Z) :
  Z.pos (digits2_pos mx) = d -> 53 <= d -> -1074 <= d + ex - 53 -> d + ex - 53 + 1 <= 971 ->
  exists (mz : positive) (ez : Z),
    binary_round_aux prec emax false (Z.pos mx) ex lx = S754_finite false mz ez /\
    2 ^ 52 <= Z.pos mz < 2 ^ 53 /\
    ex + (d - 53) <= ez <= ex + (d - 53) + 1 /\
    Z.pos mx - 2 ^ (d - 53) < Z.pos mz * 2 ^ (ez - ex) <= Z.pos mx + 2 ^ (d - 53) /\
    (d = 53 -> lx = loc_Exact -> mz = mx /\ ez = ex).
Proof.
  intros Hd H53 Hmin Hmax.
  destruct (shr_fexp_normal mx ex lx d Hd H53 Hmin) as (mrs & E & Hm & Hexact).
  unfold binary_round_aux. rewrite E.
  set (n := d - 53) in *. assert (Hn : 0 <= n) by lia.
  assert (Hpn : 0 < 2 ^ n) by (apply Z.pow_pos_nonneg; lia).
  pose proof (digits2_pos_bounds mx) as Hdig. rewrite Hd in Hdig.
  assert (Hsplit : 2 ^ (d - 1) = 2 ^ 52 * 2 ^ n /\ 2 ^ d = 2 ^ 53 * 2 ^ n).
  { split; rewrite <- Z.pow_add_r by lia; f_equal; lia. }
  destruct Hsplit as [Hlo Hhi]. rewrite Hlo, Hhi in Hdig.
  pose proof (div_pow2_bounds (Z.pos mx) n Hn) as Hdiv. rewrite <- Hm in Hdiv.
  set (m1 := shr_m mrs) in *.
  assert (Hm1 : 2 ^ 52 <= m1 < 2 ^ 53) by nia.
  remember (round_nearest_even m1 (loc_of_shr_record mrs)) as m2 eqn:Ep2.
  assert (Hm2 : m2 = m1 \/ m2 = m1 + 1) by (subst m2; apply round_nearest_even_cases).
  assert (Hm2pos : 0 < m2) by lia.
  destruct m2 as [| p2 | p2]; try lia.
  destruct (Z.eq_dec (Z.pos p2) (2 ^ 53)) as [Hover | Hnorm].
  - (* the rounding carried into a 54th digit *)
    assert (Hd2 : Z.pos (digits2_pos p2) = 54).
    { apply digits2_pos_unique. rewrite Hover. split; [reflexivity | reflexivity]. }
    destruct (shr_fexp_normal p2 (ex + n) loc_Exact 54 Hd2 ltac:(lia) ltac:(lia))
      as (mrs2 & E2 & Hm2' & _).
    rewrite E2. rewrite Hm2', Hover. change (2 ^ 53 / 2 ^ (54 - 53)) with (Z.pos 4503599627370496).
    cbv beta iota.
    destruct (Z.leb_spec (ex + n + (54 - 53)) (emax - prec)) as [_ | Hbad];
      [| unfold emax, prec in Hbad; lia].
    eexists _, _. split; [reflexivity |]. split; [split; reflexivity || (now compute) |].
    split; [lia |]. split.
    + replace (ex + n + (54 - 53) - ex) with (n + 1) by lia.
      rewrite Z.pow_add_r by lia.
      change (Z.pos 4503599627370496) with (2 ^ 52). change (2 ^ 1) with 2.
      assert (2 ^ 53 = 2 ^ 52 * 2) by reflexivity. nia.
    + intros Hd53 Hlx. exfalso. subst lx. unfold m1 in Ep2, Hm1.
      rewrite (Hexact Hd53) in Ep2, Hm1. simpl in Ep2, Hm1. lia.
  - assert (Hd2 : Z.pos (digits2_pos p2) = 53).
    { apply digits2_pos_unique. change (2 ^ (53 - 1)) with (2 ^ 52). lia. }
    destruct (shr_fexp_normal p2 (ex + n) loc_Exact 53 Hd2 ltac:(lia) ltac:(lia))
      as (mrs2 & E2 & Hm2' & _).
    rewrite E2. rewrite Hm2'. change (2 ^ (53 - 53)) with 1. rewrite Z.div_1_r.
    cbv beta iota.
    destruct (Z.leb_spec (ex + n + (53 - 53)) (emax - prec)) as [_ | Hbad];
      [| unfold emax, prec in Hbad; lia].
    eexists _, _. split; [reflexivity |]. split; [lia |].
    split; [lia |]. split.
    + replace (ex + n + (53 - 53) - ex) with n by lia. nia.
    + intros Hd53 Hlx. subst lx. unfold m1 in Ep2. rewrite (Hexact Hd53) in Ep2.
      simpl in Ep2. injection Ep2 as ->. split; [reflexivity | lia].
Qed.

(** A shift to the left. *)
Lemma Pos_iter_xO (m d : positive) : Z.pos (Pos.iter xO m d) = Z.pos m * 2 ^ Z.pos d.
Proof.
  revert m. induction d as [| d IH] using Pos.peano_ind; intros m.
  - simpl. lia.
  - rewrite Pos.iter_succ, Pos2Z.inj_xO, IH, Pos2Z.inj_succ, Z.pow_succ_r by lia. lia.
Qed.

(** A product of two 53-bit mantissas, rounded. *)
Lemma SFmul_normal (mx my : positive) (ex ey : Z) :
  2 ^ 52 <= Z.pos mx < 2 ^ 53 -> 2 ^ 52 <= Z.pos my < 2 ^ 53 ->
  -1074 <= ex + ey + 52 -> ex + ey + 54 <= 971 ->
  exists (mz : positive) (ez : Z),
    SFmul prec emax (S754_finite false mx ex) (S754_finite false my ey) = S754_finite false mz ez /\
    2 ^ 52 <= Z.pos mz < 2 ^ 53 /\
    ex + ey + 52 <= ez <= ex + ey + 54 /\
    Z.pos mx * Z.pos my - 2 ^ (ez - (ex + ey)) <= Z.pos mz * 2 ^ (ez - (ex + ey))
    <= Z.pos mx * Z.pos my + 2 ^ (ez - (ex + ey)).
Proof.
  intros Hx Hy Hmin Hmax. unfold SFmul. cbn [xorb].
  assert (Hprod : 2 ^ 104 <= Z.pos (mx * my) < 2 ^ 106).
  { rewrite Pos2Z.inj_mul. change (2 ^ 104) with (2 ^ 52 * 2 ^ 52).
    change (2 ^ 106) with (2 ^ 53 * 2 ^ 53). nia. }
  assert (Hd : Z.pos (digits2_pos (mx * my)) = 105 \/ Z.pos (digits2_pos (mx * my)) = 106).
  { destruct (Z.lt_ge_cases (Z.pos (mx * my)) (2 ^ 105)).
    - left. apply digits2_pos_unique. change (2 ^ (105 - 1)) with (2 ^ 104). lia.
    - right. apply digits2_pos_unique. change (2 ^ (106 - 1)) with (2 ^ 105). lia. }
  destruct Hd as [Hd | Hd];
    destruct (binary_round_aux_normal (mx * my) (ex + ey) loc_Exact _ Hd
                ltac:(lia) ltac:(lia) ltac:(lia))
      as (mz & ez & E & Hmz & Hez & Hb & _);
    exists mz, ez; (split; [exact E |]); (split; [exact Hmz |]); (split; [lia |]);
    rewrite <- Pos2Z.inj_mul.
  - assert (2 ^ (105 - 53) <= 2 ^ (ez - (ex + ey))) by (apply Z.pow_le_mono_r; lia). lia.
  - assert (2 ^ (106 - 53) <= 2 ^ (ez - (ex + ey))) by (apply Z.pow_le_mono_r; lia). lia.
Qed.

(** A quotient of two 53-bit mantissas, rounded: [q] is the integer quotient
    that the division computes before it rounds. *)
Lemma SFdiv_normal (mx my : positive) (ex ey : Z) :
  2 ^ 52 <= Z.pos mx < 2 ^ 53 -> 2 ^ 52 <= Z.pos my < 2 ^ 53 ->
  -1074 <= ex - ey - 53 -> ex - ey - 51 <= 971 ->
  exists (mz : positive) (ez q : Z),
    SFdiv prec emax (S754_finite false mx ex) (S754_finite false my ey) = S754_finite false mz ez /\
    2 ^ 52 <= Z.pos mz < 2 ^ 53 /\
    ex - ey - 53 <= ez <= ex - ey - 51 /\
    q * Z.pos my <= Z.pos mx * 2 ^ 53 < (q + 1) * Z.pos my /\
    q - 2 ^ (ez - (ex - ey - 53)) <= Z.pos mz * 2 ^ (ez - (ex - ey - 53))
    <= q + 2 ^ (ez - (ex - ey - 53)).
Proof.
  intros Hx Hy Hmin Hmax. unfold SFdiv, SFdiv_core_binary. cbn [xorb Zdigits2].
  rewrite (digits2_pos_unique mx 53), (digits2_pos_unique my 53)
    by (change (2 ^ (53 - 1)) with (2 ^ 52); assumption).
  replace (53 + ex - (53 + ey)) with (ex - ey) by lia.
  change (fexp prec emax (ex - ey)) with (fexp64 (ex - ey)). rewrite fexp64_normal by lia.
  rewrite Z.min_l by lia.
  replace (ex - ey - (ex - ey - 53)) with 53 by lia.
  rewrite Z.shiftl_mul_pow2 by lia.
  pose proof (Z_div_mod (Z.pos mx * 2 ^ 53) (Z.pos my) ltac:(lia)) as Hdm.
  destruct (Z.div_eucl (Z.pos mx * 2 ^ 53) (Z.pos my)) as [q r]. destruct Hdm as [Hq Hr].
  assert (Hqr : 2 ^ 52 <= q < 2 ^ 54).
  { assert (2 ^ 53 = 2 * 2 ^ 52) by reflexivity. assert (2 ^ 54 = 4 * 2 ^ 52) by reflexivity.
    assert (0 < 2 ^ 52) by reflexivity. split; nia. }
  destruct q as [| pq | pq]; try lia.
  assert (Hd : Z.pos (digits2_pos pq) = 53 \/ Z.pos (digits2_pos pq) = 54).
  { destruct (Z.lt_ge_cases (Z.pos pq) (2 ^ 53)).
    - left. apply digits2_pos_unique. change (2 ^ (53 - 1)) with (2 ^ 52). lia.
    - right. apply digits2_pos_unique. change (2 ^ (54 - 1)) with (2 ^ 53). lia. }
  destruct Hd as [Hd | Hd];
    match goal with
    | |- context [binary_round_aux _ _ _ _ _ ?l] =>
        destruct (binary_round_aux_normal pq (ex - ey - 53) l _ Hd
                    ltac:(lia) ltac:(lia) ltac:(lia))
          as (mz & ez & E & Hmz & Hez & Hb & _)
    end;
    exists mz, ez, (Z.pos pq); (split; [exact E |]); (split; [exact Hmz |]); (split; [lia |]);
    (split; [nia |]).
  - assert (2 ^ (53 - 53) <= 2 ^ (ez - (ex - ey - 53))) by (apply Z.pow_le_mono_r; lia). lia.
  - assert (2 ^ (54 - 53) <= 2 ^ (ez - (ex - ey - 53))) by (apply Z.pow_le_mono_r; lia). lia.
Qed.

(** The conversion of a positive integer below 2^53 is exact. *)
Lemma binary_normalize_small (c : positive) :
  Z.pos c < 2 ^ 53 ->
  exists (mz : positive) (ez : Z),
    binary_normalize prec emax (Z.pos c) 0 false = S754_finite false mz ez /\
    2 ^ 52 <= Z.pos mz < 2 ^ 53 /\
    -52 <= ez <= 0 /\
    Z.pos mz = Z.pos c * 2 ^ (- ez).
Proof.
  intros Hc. unfold binary_normalize, binary_round.
  pose proof (digits2_pos_bounds c) as Hdig.
  set (d := Z.pos (digits2_pos c)) in *.
  assert (Hd : 1 <= d <= 53).
  { split; [lia |]. destruct (Z.le_gt_cases d 53) as [| Hgt]; [assumption |].
    assert (2 ^ 53 <= 2 ^ (d - 1)) by (apply Z.pow_le_mono_r; lia). lia. }
  replace (d + 0) with d by lia.
  change (fexp prec emax d) with (fexp64 d). rewrite fexp64_normal by lia.
  unfold shl_align. replace (d - 53 - 0) with (d - 53) by lia.
  destruct (d - 53) as [| n | n] eqn:Hn; try lia.
  - assert (Hd53 : d = 53) by lia. rewrite Hd53 in Hdig.
    destruct (binary_round_aux_normal c 0 loc_Exact 53 Hd53 ltac:(lia) ltac:(lia) ltac:(lia))
      as (mz & ez & E & Hmz & Hez & _ & Hexact).
    destruct (Hexact eq_refl eq_refl) as [-> ->].
    exists c, 0. split; [exact E |]. split; [exact Hmz |]. split; [lia |]. simpl. lia.
  - assert (Hm : Z.pos (Pos.iter xO c n) = Z.pos c * 2 ^ (53 - d)).
    { rewrite Pos_iter_xO. f_equal. f_equal. lia. }
    assert (Hpow : 2 ^ (d - 1) * 2 ^ (53 - d) = 2 ^ 52 /\ 2 ^ d * 2 ^ (53 - d) = 2 ^ 53).
    { split; rewrite <- Z.pow_add_r by lia; f_equal; lia. }
    assert (0 < 2 ^ (53 - d)) by (apply Z.pow_pos_nonneg; lia).
    assert (Hbnd : 2 ^ 52 <= Z.pos (Pos.iter xO c n) < 2 ^ 53) by (rewrite Hm; nia).
    assert (Hd53 : Z.pos (digits2_pos (Pos.iter xO c n)) = 53).
    { apply digits2_pos_unique. change (2 ^ (53 - 1)) with (2 ^ 52). exact Hbnd. }
    destruct (binary_round_aux_normal (Pos.iter xO c n) (Z.neg n) loc_Exact 53 Hd53
                ltac:(lia) ltac:(lia) ltac:(lia))
      as (mz & ez & E & Hmz & Hez & _ & Hexact).
    destruct (Hexact eq_refl eq_refl) as [-> ->].
    eexists _, _. split; [exact E |]. split; [exact Hbnd |]. split; [lia |].
    rewrite Hm. f_equal. f_equal. lia.
Qed.

(** ** Values *)

Lemma bpow2_pos (e : Z) : (0 < bpow2 e)%R.
Proof. apply powerRZ_lt. lra. Qed.

Lemma bpow2_add (a b : Z) : bpow2 (a + b) = (bpow2 a * bpow2 b)%R.
Proof. apply powerRZ_add. lra. Qed.

Lemma bpow2_IZR (n : Z) : 0 <= n -> bpow2 n = IZR (2 ^ n).
Proof.
  intros Hn. unfold bpow2. rewrite <- (Z2Nat.id n Hn) at 1 2.
  rewrite <- pow_powerRZ, pow_IZR. reflexivity.
Qed.

Lemma F2R_pos (m : positive) (e : Z) : (0 < F2R m e)%R.
Proof.
  unfold F2R. apply Rmult_lt_0_compat; [apply IZR_lt; lia | apply bpow2_pos].
Qed.

(** A mantissa at a higher exponent, in the units of a lower one. *)
Lemma F2R_shift (m : positive) (e e0 : Z) :
  e0 <= e -> F2R m e = (IZR (Z.pos m * 2 ^ (e - e0)) * bpow2 e0)%R.
Proof.
  intros H. unfold F2R. rewrite mult_IZR, <- bpow2_IZR by lia.
  replace e with ((e - e0) + e0) at 1 by lia. rewrite bpow2_add. ring.
Qed.

Local Open Scope R_scope.

(** The rounded product is the product up to a relative 2^-52. *)
Lemma SFmul_value (mx my : positive) (ex ey : Z) :
  (2 ^ 52 <= Z.pos mx < 2 ^ 53)%Z -> (2 ^ 52 <= Z.pos my < 2 ^ 53)%Z ->
  (-1074 <= ex + ey + 52)%Z -> (ex + ey + 54 <= 971)%Z ->
  exists (mz : positive) (ez : Z),
    SFmul prec emax (S754_finite false mx ex) (S754_finite false my ey) = S754_finite false mz ez /\
    (2 ^ 52 <= Z.pos mz < 2 ^ 53)%Z /\
    (ex + ey + 52 <= ez <= ex + ey + 54)%Z /\
    F2R mz ez * (1 - / 4503599627370496) <= F2R mx ex * F2R my ey
    <= F2R mz ez * (1 + / 4503599627370496).
Proof.
  intros Hx Hy Hmin Hmax.
  destruct (SFmul_normal mx my ex ey Hx Hy Hmin Hmax) as (mz & ez & E & Hmz & Hez & Hb).
  exists mz, ez. split; [exact E |]. split; [exact Hmz |]. split; [exact Hez |].
  set (e := (ex + ey)%Z) in *. set (P := (2 ^ (ez - e))%Z) in *.
  assert (HP : (1 <= P)%Z).
  { pose proof (Z.pow_pos_nonneg 2 (ez - e) ltac:(lia) ltac:(lia)). subst P. lia. }
  assert (HT : (4503599627370496 * P <= Z.pos mz * P)%Z).
  { change 4503599627370496%Z with (2 ^ 52)%Z. nia. }
  rewrite (F2R_shift mz ez e) by lia. fold P.
  replace (F2R mx ex * F2R my ey) with (IZR (Z.pos mx * Z.pos my) * bpow2 e).
  2:{ unfold F2R, e. rewrite bpow2_add, mult_IZR. ring. }
  pose proof (bpow2_pos e) as Hw.
  apply IZR_le in HP, HT. destruct Hb as [Hb1 Hb2]. apply IZR_le in Hb1, Hb2.
  rewrite ?minus_IZR, ?plus_IZR, ?mult_IZR in *.
  set (T := IZR (Z.pos mz) * IZR P) in *. set (X := IZR (Z.pos mx) * IZR (Z.pos my)) in *.
  assert (T * (1 - / 4503599627370496) <= X <= T * (1 + / 4503599627370496)) as [H1 H2] by lra.
  split.
  - replace (T * bpow2 e * (1 - / 4503599627370496))
      with (T * (1 - / 4503599627370496) * bpow2 e) by ring.
    now apply Rmult_le_compat_r; [lra |].
  - replace (T * bpow2 e * (1 + / 4503599627370496))
      with (T * (1 + / 4503599627370496) * bpow2 e) by ring.
    now apply Rmult_le_compat_r; [lra |].
Qed.

(** The rounded quotient is the quotient up to a relative 2^-51. *)
Lemma SFdiv_value (mx my : positive) (ex ey : Z) :
  (2 ^ 52 <= Z.pos mx < 2 ^ 53)%Z -> (2 ^ 52 <= Z.pos my < 2 ^ 53)%Z ->
  (-1074 <= ex - ey - 53)%Z -> (ex - ey - 51 <= 971)%Z ->
  exists (mz : positive) (ez : Z),
    SFdiv prec emax (S754_finite false mx ex) (S754_finite false my ey) = S754_finite false mz ez /\
    (2 ^ 52 <= Z.pos mz < 2 ^ 53)%Z /\
    (ex - ey - 53 <= ez <= ex - ey - 51)%Z /\
    F2R mz ez * (1 - / 2251799813685248) <= F2R mx ex / F2R my ey
    <= F2R mz ez * (1 + / 2251799813685248).
Proof.
  intros Hx Hy Hmin Hmax.
  destruct (SFdiv_normal mx my ex ey Hx Hy Hmin Hmax) as (mz & ez & q & E & Hmz & Hez & Hq & Hb).
  exists mz, ez. split; [exact E |]. split; [exact Hmz |]. split; [exact Hez |].
  set (e := (ex - ey - 53)%Z) in *. set (P := (2 ^ (ez - e))%Z) in *.
  assert (HP : (1 <= P)%Z).
  { pose proof (Z.pow_pos_nonneg 2 (ez - e) ltac:(lia) ltac:(lia)). subst P. lia. }
  assert (HT : (4503599627370496 * P <= Z.pos mz * P)%Z).
  { change 4503599627370496%Z with (2 ^ 52)%Z. nia. }
  rewrite (F2R_shift mz ez e) by lia. fold P.
  pose proof (bpow2_pos e) as Hw. pose proof (bpow2_pos ey) as Hwy.
  assert (Hmy : 0 < IZR (Z.pos my)) by (apply IZR_lt; lia).
  set (rho := IZR (Z.pos mx) * 9007199254740992 / IZR (Z.pos my)).
  assert (Hrho : F2R mx ex / F2R my ey = rho * bpow2 e).
  { unfold F2R, rho. replace ex with (e + 53 + ey)%Z by lia.
    rewrite !bpow2_add, (bpow2_IZR 53) by lia.
    change (2 ^ 53)%Z with 9007199254740992%Z. field. split; lra. }
  rewrite Hrho.
  destruct Hq as [Hq1 Hq2]. apply IZR_le in Hq1. apply IZR_lt in Hq2.
  change (2 ^ 53)%Z with 9007199254740992%Z in Hq1, Hq2.
  rewrite mult_IZR in Hq1. rewrite !mult_IZR, plus_IZR in Hq2.
  rewrite mult_IZR in Hq1.
  assert (Hrq : IZR q <= rho < IZR q + 1).
  { unfold rho. set (A := IZR (Z.pos mx)) in *. set (B := IZR (Z.pos my)) in *.
    set (Q := IZR q) in *.
    assert (HAB : A * 9007199254740992 / B * B = A * 9007199254740992) by (field; lra).
    split.
    - apply Rmult_le_reg_r with B; [assumption |]. rewrite HAB. lra.
    - apply Rmult_lt_reg_r with B; [assumption |]. rewrite HAB. lra. }
  apply IZR_le in HP, HT. destruct Hb as [Hb1 Hb2]. apply IZR_le in Hb1, Hb2.
  rewrite ?minus_IZR, ?plus_IZR, ?mult_IZR in *.
  set (T := IZR (Z.pos mz) * IZR P) in *.
  assert (T * (1 - / 2251799813685248) <= rho <= T * (1 + / 2251799813685248)) as [H1 H2]
    by lra.
  split.
  - replace (T * bpow2 e * (1 - / 2251799813685248))
      with (T * (1 - / 2251799813685248) * bpow2 e) by ring.
    now apply Rmult_le_compat_r; [lra |].
  - replace (T * bpow2 e * (1 + / 2251799813685248))
      with (T * (1 + / 2251799813685248) * bpow2 e) by ring.
    now apply Rmult_le_compat_r; [lra |].
Qed.

(** ** The conversions and operations of the program *)

(** The constant 50.0. *)
Lemma Prim2SF_50 : Prim2SF 50 = S754_finite false 7036874417766400 (-47).
Proof. reflexivity. Qed.

(** [(double)c] is exact for 0 < c < 2^53. *)
Lemma of_Z_value (c : Z) :
  (0 < c < 2 ^ 53)%Z ->
  exists (mz : positive) (ez : Z),
    Prim2SF (double.of_Z c) = S754_finite false mz ez /\
    (2 ^ 52 <= Z.pos mz < 2 ^ 53)%Z /\
    (-52 <= ez <= 0)%Z /\
    Z.pos mz = (c * 2 ^ (- ez))%Z /\
    F2R mz ez = IZR c.
Proof.
  intros Hc. destruct c as [| p | p]; try lia. cbn [double.of_Z].
  rewrite of_uint63_spec, Uint63.of_Z_spec, Z.mod_small.
  2:{ split; [lia |]. apply Z.lt_trans with (2 ^ 53)%Z; [lia | reflexivity]. }
  destruct (binary_normalize_small p ltac:(lia)) as (mz & ez & E & Hmz & Hez & Hval).
  exists mz, ez. split; [exact E |]. split; [exact Hmz |]. split; [exact Hez |].
  split; [exact Hval |].
  unfold F2R. rewrite Hval, mult_IZR, <- bpow2_IZR by lia.
  rewrite Rmult_assoc, <- bpow2_add. replace (- ez + ez)%Z with 0%Z by lia.
  unfold bpow2. simpl. ring.
Qed.

(** The larger integer has the larger exponent. *)
Lemma exponent_le (c m : Z) (mc mm : positive) (ec em : Z) :
  (0 < c <= m)%Z ->
  (2 ^ 52 <= Z.pos mc < 2 ^ 53)%Z -> (2 ^ 52 <= Z.pos mm < 2 ^ 53)%Z ->
  (ec <= 0)%Z -> (em <= 0)%Z ->
  Z.pos mc = (c * 2 ^ (- ec))%Z -> Z.pos mm = (m * 2 ^ (- em))%Z ->
  (ec <= em)%Z.
Proof.
  intros Hcm Hmc Hmm Hec Hem Ec Em.
  destruct (Z.le_gt_cases ec em) as [| Hgt]; [assumption | exfalso].
  assert (Hp : (2 ^ (- em) = 2 ^ (- ec) * 2 ^ (ec - em))%Z).
  { rewrite <- Z.pow_add_r by lia. f_equal. lia. }
  assert (H2 : (2 <= 2 ^ (ec - em))%Z).
  { change 2%Z with (2 ^ 1)%Z at 1. apply Z.pow_le_mono_r; lia. }
  assert (0 < 2 ^ (- ec))%Z by (apply Z.pow_pos_nonneg; lia).
  assert (2 ^ 53 = 2 * 2 ^ 52)%Z by reflexivity.
  rewrite Hp in Em. nia.
Qed.

Lemma F2R_50 : F2R 7036874417766400 (-47) = 50.
Proof.
  unfold F2R. change (Z.pos 7036874417766400) with (50 * 2 ^ 47)%Z.
  rewrite mult_IZR. rewrite <- (bpow2_IZR 47) by lia.
  rewrite Rmult_assoc, <- bpow2_add.
  change (47 + -47)%Z with 0%Z. unfold bpow2. simpl. ring.
Qed.

(** [(double)c / (double)m * 50.0] for 1 <= c <= m: a positive double with a
    fraction part, within two roundings of 50*c/m. *)
Lemma scaled_quotient (m c : Z) :
  (1 <= c <= m)%Z -> (m < 2 ^ 53)%Z ->
  exists (mE : positive) (eE : Z) (D : R),
    Prim2SF (double.of_Z c / double.of_Z m * 50) = S754_finite false mE eE /\
    (eE < 0)%Z /\
    F2R mE eE * (1 - / 4503599627370496) <= D * 50 <= F2R mE eE * (1 + / 4503599627370496) /\
    D * (1 - / 2251799813685248) <= IZR c / IZR m <= D * (1 + / 2251799813685248).
Proof.
  intros Hc Hm.
  assert (Hc' : (0 < c < 2 ^ 53)%Z) by lia.
  assert (Hm' : (0 < m < 2 ^ 53)%Z) by lia.
  destruct (of_Z_value c Hc') as (mc & ec & Ec & Hmc & Hec & Zc & Rc).
  destruct (of_Z_value m Hm') as (mm & em & Em & Hmm & Hem & Zm & Rm).
  assert (Hle : (ec <= em)%Z).
  { apply (exponent_le c m mc mm ec em); try assumption; lia. }
  destruct (SFdiv_value mc mm ec em Hmc Hmm) as (mD & eD & ED & HmD & HeD & HD); [lia | lia |].
  assert (H50 : (2 ^ 52 <= Z.pos 7036874417766400 < 2 ^ 53)%Z).
  { change (2 ^ 52)%Z with 4503599627370496%Z.
    change (2 ^ 53)%Z with 9007199254740992%Z. lia. }
  destruct (SFmul_value mD 7036874417766400 eD (-47) HmD H50)
    as (mE & eE & EE & HmE & HeE & HE); [lia | lia |].
  exists mE, eE, (F2R mD eD). split.
  - rewrite FloatAxioms.mul_spec.
    rewrite FloatAxioms.div_spec.
    rewrite Ec, Em.
    rewrite Prim2SF_50.
    unfold SF64mul, SF64div.
    rewrite ED. exact EE.
  - split; [lia |]. split.
    + rewrite F2R_50 in HE. exact HE.
    + rewrite Rc, Rm in HD. exact HD.
Qed.

(** [round] of a positive double below 2^52: the integer nearest to its value,
    halves upward. *)
Lemma round_value (x : float) (mE : positive) (eE : Z) :
  Prim2SF x = S754_finite false mE eE -> (eE < 0)%Z ->
  exists k : Z,
    double.round x = of_uint63 (Uint63.of_Z k) /\
    (0 <= k)%Z /\
    IZR k - / 2 <= F2R mE eE < IZR k + / 2.
Proof.
  intros Hx He. unfold double.round. rewrite Hx.
  destruct (Z.leb_spec 0 eE) as [| _]; [lia |].
  set (d := (2 ^ (- eE))%Z).
  assert (Hd : (0 < d)%Z) by (apply Z.pow_pos_nonneg; lia).
  pose proof (Z.div_mod (Z.pos mE) d ltac:(lia)) as Hdm.
  pose proof (Z.mod_pos_bound (Z.pos mE) d Hd) as Hr.
  set (q := (Z.pos mE / d)%Z) in *. set (r := (Z.pos mE mod d)%Z) in *.
  assert (Hq : (0 <= q)%Z) by (apply Z.div_pos; lia).
  assert (Hone : bpow2 eE * IZR d = 1).
  { unfold d. rewrite <- bpow2_IZR by lia. rewrite <- bpow2_add.
    replace (eE + - eE)%Z with 0%Z by lia. reflexivity. }
  assert (HV : F2R mE eE * IZR d = IZR q * IZR d + IZR r).
  { unfold F2R. rewrite Rmult_assoc, Hone, Rmult_1_r.
    rewrite Hdm at 1. rewrite plus_IZR, mult_IZR. ring. }
  assert (HdR : 0 < IZR d) by (apply IZR_lt; lia).
  assert (HrR : 0 <= IZR r < IZR d) by (split; [apply IZR_le | apply IZR_lt]; lia).
  set (V := F2R mE eE) in *. set (Q := IZR q) in *. set (Rr := IZR r) in *. set (Dd := IZR d) in *.
  destruct (Z.leb_spec d (2 * r)) as [Hhalf | Hhalf].
  - exists (q + 1)%Z. split; [reflexivity |]. split; [lia |].
    apply IZR_le in Hhalf. rewrite mult_IZR in Hhalf. fold Rr Dd in Hhalf.
    rewrite plus_IZR. fold Q. split.
    + apply Rmult_le_reg_r with Dd; [assumption |]. nra.
    + apply Rmult_lt_reg_r with Dd; [assumption |]. nra.
  - exists q. split; [reflexivity |]. split; [lia |].
    apply IZR_lt in Hhalf. rewrite mult_IZR in Hhalf. fold Rr Dd in Hhalf. fold Q. split.
    + apply Rmult_le_reg_r with Dd; [assumption |]. nra.
    + apply Rmult_lt_reg_r with Dd; [assumption |]. nra.
Qed.

(** The subtraction from 50 and the conversion to [int8_t] are exact on the
    integers 0..50. *)
Lemma stored_value (k : Z) :
  (0 <= k <= 50)%Z -> double.to_int8 (50 - of_uint63 (Uint63.of_Z k)) = Ok (50 - k)%Z.
Proof.
  intros Hk. assert (H : stored_values_exact = true) by (vm_compute; reflexivity).
  unfold stored_values_exact in H. rewrite forallb_forall in H.
  specialize (H k). destruct (double.to_int8 _) as [v | |].
  - f_equal. apply Z.eqb_eq. apply H.
    rewrite <- (Z2Nat.id k) by lia. apply in_map, in_seq. lia.
  - discriminate H. rewrite <- (Z2Nat.id k) by lia. apply in_map, in_seq. lia.
  - discriminate H. rewrite <- (Z2Nat.id k) by lia. apply in_map, in_seq. lia.
Qed.

(** The first pixel: 0/m*50 is 0. *)
Lemma scaled_quotient_0 (m : Z) :
  (0 < m < 2 ^ 53)%Z -> (double.of_Z 0 / double.of_Z m * 50)%float = 0%float.
Proof.
  intros Hm. destruct (of_Z_value m Hm) as (mm & em & Em & _).
  apply Prim2SF_inj. rewrite FloatAxioms.mul_spec, FloatAxioms.div_spec, Em. reflexivity.
Qed.

(** What a pixel stores: 50 - k, for the integer k nearest to a double V that
    is 50*c/m up to two roundings. *)
Lemma plan_pixel_spec (total c : Z) :
  (2 <= total < 2 ^ 31)%Z -> (0 <= c < total)%Z ->
  exists (k : Z) (V D : R),
    plan_pixel total c = Ok (50 - k)%Z /\
    (0 <= k <= 50)%Z /\
    IZR k - / 2 <= V < IZR k + / 2 /\
    V * (1 - / 4503599627370496) <= D * 50 <= V * (1 + / 4503599627370496) /\
    D * (1 - / 2251799813685248) <= IZR c / IZR (total - 1) <= D * (1 + / 2251799813685248).
Proof.
  intros Ht Hc. set (m := (total - 1)%Z).
  assert (Hm : (0 < m < 2 ^ 53)%Z).
  { split; [lia |]. apply Z.lt_trans with (2 ^ 31)%Z; [lia | reflexivity]. }
  unfold plan_pixel, plan_pixel_value. fold m.
  destruct (Z.eq_dec c 0%Z) as [-> | Hc0].
  - exists 0%Z, 0, 0. rewrite (scaled_quotient_0 m Hm).
    split; [reflexivity |]. split; [lia |]. unfold Rdiv. rewrite !Rmult_0_l. lra.
  - destruct (scaled_quotient m c ltac:(lia) ltac:(lia)) as (mE & eE & D & EE & HeE & HE & HD).
    destruct (round_value _ mE eE EE HeE) as (k & Hround & Hk0 & HkV).
    assert (Hq : 0 <= IZR c / IZR m <= 1).
    { assert (0 < IZR m) by (apply IZR_lt; lia).
      assert (0 <= IZR c <= IZR m) by (split; apply IZR_le; lia).
      split.
      - apply Rmult_le_reg_r with (IZR m); [assumption |].
        replace (IZR c / IZR m * IZR m) with (IZR c) by (field; lra). lra.
      - apply Rmult_le_reg_r with (IZR m); [assumption |].
        replace (IZR c / IZR m * IZR m) with (IZR c) by (field; lra). lra. }
    set (q := IZR c / IZR m) in *. set (V := F2R mE eE) in *.
    assert (Hk50 : (k <= 50)%Z).
    { assert (IZR k < 51) by lra. apply lt_IZR in H. lia. }
    exists k, V, D. rewrite Hround, (stored_value k) by lia.
    split; [reflexivity |]. split; [lia |]. split; [exact HkV |]. split; [exact HE | exact HD].
Qed.


End binary64.


(** ** The callback *)

(** The grid that the two rasterizers of a call work on: after step 1, with the
    stamp of the scan. *)
Lemma getLaserScanPoints_Ok (cos sin : float -> float) (ros : Ros)
    (p : NeuroLocalPlannerWrapper) (laser_scan : sensor_msgs.LaserScan) (data1 data2 : list Z) :
  let p1 := initialize_or_clear ros p in
  let g1 := set_grid_header
              (set_header_stamp (std_msgs.stamp (sensor_msgs.header laser_scan))
                                (nav_msgs.header (customized_costmap_ p1)))
              (customized_costmap_ p1) in
  add_laser_scan_points cos sin (costmap_ ros) laser_scan
    (looked_up_transform ros (std_msgs.frame_id (nav_msgs.header (customized_costmap_ p1)))
                         (std_msgs.frame_id (sensor_msgs.header laser_scan)))
    (nav_msgs.info g1) 0 (sensor_msgs.ranges laser_scan) (nav_msgs.data g1) = Ok data1 ->
  add_global_path ros (global_plan_ p1) (set_grid_data data1 g1) = Ok data2 ->
  let g3 := set_grid_data data2 (set_grid_data data1 g1) in
  let g4 := set_grid_header
              (set_header_seq (add_u32 (std_msgs.seq (nav_msgs.header g3)) 1) (nav_msgs.header g3))
              g3 in
  getLaserScanPoints cos sin ros p laser_scan
  = Ok (set_transition_msg_ (buffer_costmap (transition_msg_ p1) g4).1
          (set_customized_costmap_ g4 p1),
        customized_costmap_pub g3 :: (buffer_costmap (transition_msg_ p1) g4).2).
Proof.
  intros p1 g1 Hscan Hpath g3 g4. unfold getLaserScanPoints. fold p1. fold g1.
  rewrite Hscan. cbn [mbind result_bind]. rewrite Hpath. cbn [mbind result_bind].
  fold g3. fold g4. now destruct (buffer_costmap (transition_msg_ p1) g4).
Qed.

(** The Path Rasterizer reads the stamp, the frame, the geometry and the cells
    of the grid, and nothing else of it. *)
Lemma global_plan_map_coordinates_ext (ros : Ros) (g g' : nav_msgs.OccupancyGrid)
    (plan : list geometry_msgs.PoseStamped) :
  std_msgs.stamp (nav_msgs.header g) = std_msgs.stamp (nav_msgs.header g') ->
  std_msgs.frame_id (nav_msgs.header g) = std_msgs.frame_id (nav_msgs.header g') ->
  nav_msgs.info g = nav_msgs.info g' ->
  forall (pose : geometry_msgs.PoseStamped) (coordinates : list geometry_msgs.Point),
    global_plan_map_coordinates ros g pose coordinates plan
    = global_plan_map_coordinates ros g' pose coordinates plan.
Proof.
  intros Hs Hf Hi. induction plan as [| it plan IH]; intros pose coordinates; [reflexivity |].
  cbn [global_plan_map_coordinates]. unfold transformed_pose. rewrite Hs, Hf, Hi.
  destruct (double.to_int _) as [x | |]; cbn [mbind result_bind]; try reflexivity.
  destruct (double.to_int _) as [y | |]; cbn [mbind result_bind]; try reflexivity.
  apply IH.
Qed.

Lemma add_global_path_ext (ros : Ros) (g g' : nav_msgs.OccupancyGrid)
    (plan : list geometry_msgs.PoseStamped) :
  std_msgs.stamp (nav_msgs.header g) = std_msgs.stamp (nav_msgs.header g') ->
  std_msgs.frame_id (nav_msgs.header g) = std_msgs.frame_id (nav_msgs.header g') ->
  nav_msgs.info g = nav_msgs.info g' ->
  nav_msgs.data g = nav_msgs.data g' ->
  add_global_path ros plan g = add_global_path ros plan g'.
Proof.
  intros Hs Hf Hi Hd. unfold add_global_path.
  rewrite (global_plan_map_coordinates_ext ros g g' plan Hs Hf Hi), Hi, Hd. reflexivity.
Qed.

(** C10: on the first scan the grid is initialized, with the geometry of the
    costmap and every cell at 70, and the same call rasterizes that scan and
    the plan into it and publishes the grid; a later scan that finds the same
    geometry is handled the same way, the clear step standing where the
    initialization stood, and publishes the same cells. *)
Theorem first_scan_is_rasterized_and_published (cos sin : float -> float) (ros : Ros)
    (p : NeuroLocalPlannerWrapper) (laser_scan : sensor_msgs.LaserScan) (data1 data2 : list Z) :
  let c := costmap_ ros in
  let g0 := customized_costmap_ (initializeCustomizedCostmap ros p) in
  let g1 := set_grid_header
              (set_header_stamp (std_msgs.stamp (sensor_msgs.header laser_scan))
                                (nav_msgs.header g0)) g0 in
  is_customized_costmap_initialized_ p = false ->
  add_laser_scan_points cos sin c laser_scan
    (looked_up_transform ros "/base_footprint" (std_msgs.frame_id (sensor_msgs.header laser_scan)))
    (nav_msgs.info g0) 0 (sensor_msgs.ranges laser_scan) (nav_msgs.data g0) = Ok data1 ->
  add_global_path ros (global_plan_ p) (set_grid_data data1 g1) = Ok data2 ->
  (* the initialization *)
  (nav_msgs.width (nav_msgs.info g0) = getSizeInCellsX c /\
   nav_msgs.height (nav_msgs.info g0) = getSizeInCellsY c /\
   nav_msgs.resolution (nav_msgs.info g0) = single.of_double (getResolution c) /\
   geometry_msgs.x (geometry_msgs.position (nav_msgs.origin (nav_msgs.info g0)))
   = (- getSizeInMetersX c / 2)%float /\
   geometry_msgs.y (geometry_msgs.position (nav_msgs.origin (nav_msgs.info g0)))
   = (- getSizeInMetersY c / 2)%float /\
   nav_msgs.data g0
   = replicate (Z.to_nat (mul_u32 (getSizeInCellsX c) (getSizeInCellsY c))) 70) /\
  (* the first scan *)
  (exists p' g published,
      getLaserScanPoints cos sin ros p laser_scan = Ok (p', customized_costmap_pub g :: published) /\
      nav_msgs.info g = nav_msgs.info g0 /\
      nav_msgs.data g = data2 /\
      is_customized_costmap_initialized_ p' = true) /\
  (* any other scan *)
  (forall q : NeuroLocalPlannerWrapper,
      is_customized_costmap_initialized_ q = true ->
      nav_msgs.info (customized_costmap_ q) = nav_msgs.info g0 ->
      std_msgs.frame_id (nav_msgs.header (customized_costmap_ q)) = "/base_footprint" ->
      global_plan_ q = global_plan_ p ->
      exists q' g published,
        getLaserScanPoints cos sin ros q laser_scan = Ok (q', customized_costmap_pub g :: published) /\
        nav_msgs.info g = nav_msgs.info g0 /\
        nav_msgs.data g = data2).
Proof.
  intros c g0 g1 Hfirst Hscan Hpath.
  split; [repeat split |]. split.
  - assert (Hp1 : initialize_or_clear ros p
                  = set_is_customized_costmap_initialized_ true (initializeCustomizedCostmap ros p)).
    { unfold initialize_or_clear. now rewrite Hfirst. }
    eexists _, _, _. split.
    + apply (getLaserScanPoints_Ok cos sin ros p laser_scan data1 data2);
        rewrite Hp1; [exact Hscan | exact Hpath].
    + rewrite Hp1. repeat split.
  - intros q Hrun Hinfo Hframe Hplan.
    pose proof (initialize_or_clear_running ros q Hrun) as Hq1.
    set (h1 := set_grid_header
                 (set_header_stamp (std_msgs.stamp (sensor_msgs.header laser_scan))
                    (nav_msgs.header (clear_costmap (customized_costmap_ q))))
                 (clear_costmap (customized_costmap_ q))).
    assert (Hdata : nav_msgs.data h1 = nav_msgs.data g0).
    { subst h1. simpl. now rewrite Hinfo. }
    eexists _, _, _. split.
    + apply (getLaserScanPoints_Ok cos sin ros q laser_scan data1 data2); rewrite Hq1.
      * cbn [customized_costmap_ set_customized_costmap_]. fold h1.
        change (nav_msgs.header (clear_costmap (customized_costmap_ q)))
          with (nav_msgs.header (customized_costmap_ q)).
        rewrite Hframe, Hdata.
        change (nav_msgs.info h1) with (nav_msgs.info (customized_costmap_ q)).
        rewrite Hinfo. exact Hscan.
      * cbn [customized_costmap_ set_customized_costmap_ global_plan_]. fold h1.
        rewrite Hplan, <- Hpath. apply add_global_path_ext; try reflexivity.
        -- simpl. exact Hframe.
        -- simpl. exact Hinfo.
    + rewrite Hq1. split; [simpl; exact Hinfo | reflexivity].
Qed.

(** ** The scenarios of a single sample *)

Lemma initialize_or_clear_global_plan (ros : Ros) (p : NeuroLocalPlannerWrapper) :
  global_plan_ (initialize_or_clear ros p) = global_plan_ p.
Proof. unfold initialize_or_clear. now destruct (is_customized_costmap_initialized_ p). Qed.

(** With a [cos] and a [sin] that are exact at 0, a sample whose angle is 0
    under a transform whose yaw is 0 is placed as [cos = 1] and [sin = 0] place it. *)
Lemma add_laser_scan_point_at_angle_0 (cos sin : float -> float) (c : Costmap2D)
    (laser_scan : sensor_msgs.LaserScan) (t : StampedTransform) (info : nav_msgs.MapMetaData)
    (i : Z) (r : float) (data : list Z) :
  cos 0%float = 1%float -> sin 0%float = 0%float ->
  single.add (sensor_msgs.angle_min laser_scan)
             (single.mul (single.of_Z i) (sensor_msgs.angle_increment laser_scan)) = 0%float ->
  yaw t = 0%float ->
  add_laser_scan_point cos sin c laser_scan t info i r data
  = add_laser_scan_point (fun _ => 1%float) (fun _ => 0%float) c laser_scan t info i r data.
Proof.
  intros Hcos Hsin Hangle Hyaw.
  unfold add_laser_scan_point, position_robot_base_frame, cosf, sinf.
  now rewrite Hangle, Hyaw, Hcos, Hsin.
Qed.

(** The grid of the 80 x 80 costmap after step 1, whether step 1 initializes or
    clears. *)
Lemma initialize_or_clear_80 (p : NeuroLocalPlannerWrapper) :
  is_customized_costmap_initialized_ p = false
  \/ nav_msgs.info (customized_costmap_ p) = nav_msgs.info scenario.grid_80 ->
  nav_msgs.info (customized_costmap_ (initialize_or_clear scenario.ros_80 p))
  = nav_msgs.info scenario.grid_80 /\
  nav_msgs.data (customized_costmap_ (initialize_or_clear scenario.ros_80 p))
  = scenario.background.
Proof.
  intros H. unfold initialize_or_clear.
  destruct (is_customized_costmap_initialized_ p); simpl.
  - destruct H as [H | H]; [discriminate |]. rewrite H. split; reflexivity.
  - split; reflexivity.
Qed.

(** A scan of one sample at angle 0, with the identity as transform and no
    plan: the published cells are those the Scan Rasterizer leaves. *)
Lemma single_sample_scan (cos sin : float -> float) (p : NeuroLocalPlannerWrapper)
    (r : float) (data1 : list Z) :
  cos 0%float = 1%float -> sin 0%float = 0%float ->
  global_plan_ p = [] ->
  is_customized_costmap_initialized_ p = false
  \/ nav_msgs.info (customized_costmap_ p) = nav_msgs.info scenario.grid_80 ->
  add_laser_scan_point (fun _ => 1%float) (fun _ => 0%float) scenario.costmap_80
    (scenario.scan [r]) scenario.identity (nav_msgs.info scenario.grid_80) 0 r
    scenario.background = Ok data1 ->
  exists p' g published,
    getLaserScanPoints cos sin scenario.ros_80 p (scenario.scan [r])
    = Ok (p', customized_costmap_pub g :: published) /\
    nav_msgs.info g = nav_msgs.info scenario.grid_80 /\
    nav_msgs.data g = data1 /\
    nav_msgs.data (customized_costmap_ p') = data1.
Proof.
  intros Hcos Hsin Hplan Hgrid Hpoint.
  destruct (initialize_or_clear_80 p Hgrid) as [Hinfo Hdata].
  eexists _, _, _. split.
  - apply (getLaserScanPoints_Ok cos sin scenario.ros_80 p (scenario.scan [r]) data1 data1).
    + cbn [set_grid_header nav_msgs.info nav_msgs.data]. rewrite Hinfo, Hdata.
      change (sensor_msgs.ranges (scenario.scan [r])) with [r].
      cbn [add_laser_scan_points].
      rewrite (add_laser_scan_point_at_angle_0 cos sin) by (assumption || reflexivity).
      change (looked_up_transform scenario.ros_80 _ _) with scenario.identity.
      change (costmap_ scenario.ros_80) with scenario.costmap_80.
      rewrite Hpoint. reflexivity.
    + rewrite initialize_or_clear_global_plan, Hplan. reflexivity.
  - cbn [set_grid_data set_grid_header nav_msgs.info nav_msgs.data
         set_transition_msg_ set_customized_costmap_ customized_costmap_].
    rewrite Hinfo. repeat split.
Qed.

(** C8: a single sample at range 2.0, within (0.1, 10.0), at angle 0 under the
    identity, on the 80 x 80 grid of 4 m x 4 m: its cell is (80, 40), outside
    the grid; the sample is dropped without an error and every cell of the
    published grid is at the background value 70. *)
Theorem sample_at_range_2_is_dropped (cos sin : float -> float) (p : NeuroLocalPlannerWrapper) :
  cos 0%float = 1%float -> sin 0%float = 0%float ->
  global_plan_ p = [] ->
  is_customized_costmap_initialized_ p = false
  \/ nav_msgs.info (customized_costmap_ p) = nav_msgs.info scenario.grid_80 ->
  spec_worldToCell (nav_msgs.info scenario.grid_80) 4 4 2 0 = None /\
  double.to_int (spec_cellX (nav_msgs.info scenario.grid_80) 4 2) = Ok 80 /\
  exists p' g published,
    getLaserScanPoints cos sin scenario.ros_80 p (scenario.scan [2%float])
    = Ok (p', customized_costmap_pub g :: published) /\
    nav_msgs.data g = replicate (Z.to_nat 6400) 70 /\
    nav_msgs.data (customized_costmap_ p') = replicate (Z.to_nat 6400) 70.
Proof.
  intros Hcos Hsin Hplan Hgrid. split; [reflexivity |]. split; [reflexivity |].
  destruct (single_sample_scan cos sin p 2%float scenario.background Hcos Hsin Hplan Hgrid)
    as (p' & g & published & Hrun & _ & Hg & Hp'); [vm_compute; reflexivity |].
  now exists p', g, published.
Qed.

(** C3, as the code has it: a single sample at range 1.0, within (0.1, 10.0),
    at angle 0 under the identity, on the 80 x 80 grid of resolution 0.05 with
    origin (-2.0, -2.0): the Scan Rasterizer sets the cell
    (round(59.5), round(39.5)) = (60, 40) to 100, [round] taking the halfway
    cases away from zero, and leaves every other cell at 70. *)
Theorem sample_at_range_1_marks_cell_60_40 (cos sin : float -> float)
    (p : NeuroLocalPlannerWrapper) :
  cos 0%float = 1%float -> sin 0%float = 0%float ->
  global_plan_ p = [] ->
  is_customized_costmap_initialized_ p = false
  \/ nav_msgs.info (customized_costmap_ p) = nav_msgs.info scenario.grid_80 ->
  ((1 - -2) / 4 * 80 - 0.5 = 59.5)%float /\
  ((0 - -2) / 4 * 80 - 0.5 = 39.5)%float /\
  spec_worldToCell (nav_msgs.info scenario.grid_80) 4 4 1 0 = Some (60, 40) /\
  exists p' g published,
    getLaserScanPoints cos sin scenario.ros_80 p (scenario.scan [1%float])
    = Ok (p', customized_costmap_pub g :: published) /\
    nav_msgs.data g = <[scenario.cell 60 40 := 100]> (replicate (Z.to_nat 6400) 70).
Proof.
  intros Hcos Hsin Hplan Hgrid. do 3 (split; [reflexivity |]).
  destruct (single_sample_scan cos sin p 1%float
              (<[scenario.cell 60 40 := 100]> scenario.background) Hcos Hsin Hplan Hgrid)
    as (p' & g & published & Hrun & _ & Hg & _); [vm_compute; reflexivity |].
  now exists p', g, published.
Qed.

(** A pose whose transformation throws is rasterized as the pose before it. *)
Lemma transformed_pose_failure (ros : Ros) (g : nav_msgs.OccupancyGrid)
    (pose_robot_base_frame it : geometry_msgs.PoseStamped) :
  transformPose (tf_ ros) (std_msgs.frame_id (nav_msgs.header g))
    (set_pose_stamp (std_msgs.stamp (nav_msgs.header g)) it) = None ->
  transformed_pose ros g pose_robot_base_frame it = pose_robot_base_frame.
Proof. intros H. unfold transformed_pose. now rewrite H. Qed.

(** The two samples with the size in meters that costmap_2d reports for this
    grid, 3.975 m: the same cells. *)
Example sample_at_range_1_as_costmap_2d :
  let c := scenario.costmap_80_as_costmap_2d in
  published_data (getLaserScanPoints scenario.cos_series scenario.sin_series
                    (scenario.ros_of scenario.tf_identity c) scenario.started
                    (scenario.scan [1%float]))
  = Some (<[scenario.cell 60 40 := 100]> scenario.background).
Proof. vm_compute. reflexivity. Qed.

Example sample_at_range_2_as_costmap_2d :
  let c := scenario.costmap_80_as_costmap_2d in
  published_data (getLaserScanPoints scenario.cos_series scenario.sin_series
                    (scenario.ros_of scenario.tf_identity c) scenario.started
                    (scenario.scan [2%float]))
  = Some scenario.background.
Proof. vm_compute. reflexivity. Qed.

(** C4, at the failing input: the first pose of the plan is in a frame for
    which [transformPose] throws.  The handler logs and the loop goes on with
    [pose_robot_base_frame] as it was, here the pose at (0, 0) that the
    constructor left: the cell (40, 40) in the middle of the grid is written
    with 50 and the two poses behind it get 25 and 0.  Without that pose in
    the plan the cell (40, 40) keeps its 70 and the two poses get 50 and 0. *)
Theorem failed_transform_is_rasterized (cos sin : float -> float) :
  let ros := scenario.ros_of scenario.tf_map_only scenario.costmap_80 in
  let cells plan :=
    published_data (getLaserScanPoints cos sin ros (scenario.started_with plan) (scenario.scan [])) in
  transformPose (tf_ ros) "/base_footprint" (set_pose_stamp 1 (scenario.pose_at "odom" 0.5 0.5))
  = None /\
  (cells scenario.plan_with_failure ≫= (.!! scenario.cell 40 40) = Some 50 /\
   cells scenario.plan_with_failure ≫= (.!! scenario.cell 60 40) = Some 25 /\
   cells scenario.plan_with_failure ≫= (.!! scenario.cell 50 40) = Some 0) /\
  (cells scenario.plan_without_it ≫= (.!! scenario.cell 40 40) = Some 70 /\
   cells scenario.plan_without_it ≫= (.!! scenario.cell 60 40) = Some 50 /\
   cells scenario.plan_without_it ≫= (.!! scenario.cell 50 40) = Some 0).
Proof.
  intros ros cells. split; [reflexivity |].
  split; repeat split; vm_compute; reflexivity.
Qed.

(** * Further properties of the code *)

(** ** [setPlan] *)

(** [at] of the last subscript of a vector that is not empty. *)
Lemma vector_at_last {A : Type} (v : list A) (a : A) :
  last v = Some a -> Z.of_nat (length v) <= 2 ^ 64 ->
  vector_at v (wrap_size_t (Z.of_nat (length v) - 1)) = Ok a.
Proof.
  intros Hlast Hlen.
  assert (Hpos : (0 < length v)%nat).
  { destruct v; [discriminate Hlast | simpl; lia]. }
  unfold vector_at, wrap_size_t. rewrite Z.mod_small by lia.
  destruct (Z.ltb_spec (Z.of_nat (length v) - 1) (Z.of_nat (length v))); [| lia].
  replace (Z.to_nat (Z.of_nat (length v) - 1)) with (pred (length v)) by lia.
  rewrite <- last_lookup, Hlast. reflexivity.
Qed.

(** [at] of some subscript below the size never throws. *)
Lemma vector_at_nonempty {A : Type} (v : list A) :
  v <> [] -> exists a, vector_at v (wrap_size_t (Z.of_nat (length v) - 1)) = Ok a.
Proof.
  intros Hv. assert (Hpos : (0 < length v)%nat).
  { destruct v; [congruence | simpl; lia]. }
  unfold vector_at, wrap_size_t.
  assert (Hm : 0 <= (Z.of_nat (length v) - 1) mod 2 ^ 64 <= Z.of_nat (length v) - 1).
  { split; [apply Z.mod_pos_bound; lia | apply Z.mod_le; lia]. }
  destruct (Z.ltb_spec ((Z.of_nat (length v) - 1) mod 2 ^ 64) (Z.of_nat (length v))); [| lia].
  destruct (lookup_lt_is_Some_2 v (Z.to_nat ((Z.of_nat (length v) - 1) mod 2 ^ 64))) as [a Ha];
    [lia |].
  exists a. now rewrite Ha.
Qed.

(** X1: [setPlan] throws exactly when the planner is initialized and the plan
    is empty; it has no undefined behaviour, and on a planner that is not
    initialized it returns false and leaves the planner as it was, whatever
    the plan. *)
Theorem setPlan_throws_exactly_on_an_empty_plan (ros : Ros) (p : NeuroLocalPlannerWrapper)
    (plan : list geometry_msgs.PoseStamped) :
  (setPlan ros p plan = Throws out_of_range <-> initialized_ p = true /\ plan = []) /\
  setPlan ros p plan <> Undefined /\
  (initialized_ p = false -> setPlan ros p plan = Ok (p, false)).
Proof.
  unfold setPlan. destruct (initialized_ p); cbn [negb].
  - destruct plan as [| q plan].
    + split; [split; [now split | reflexivity] |]. split; [discriminate | discriminate].
    + destruct (vector_at_nonempty (q :: plan)) as [a Ha]; [discriminate |].
      cbv zeta. rewrite Ha. cbn [mbind result_bind].
      cbn [existing_plugin_ set_goal_ set_global_plan_].
      split; [| split; [| discriminate]].
      * split; [| intros [_ [=]]].
        destruct (existing_plugin_ p); [destruct (tc_setPlan ros) |]; discriminate.
      * destruct (existing_plugin_ p); [destruct (tc_setPlan ros) |]; discriminate.
  - split; [| split; [discriminate | reflexivity]].
    split; [discriminate | intros [[=] _]].
Qed.

(** X2: on an initialized planner, [setPlan] of a plan that is not empty stores
    the plan and takes the x and y of the goal from its last pose; z and the
    orientation of the goal, the grid, the buffer and the flags stay as they
    were.  It returns true, or with a plugin the flag of the plugin: the plan
    and the goal are replaced also when that flag is false. *)
Theorem setPlan_stores_the_plan_and_its_last_pose (ros : Ros) (p : NeuroLocalPlannerWrapper)
    (plan : list geometry_msgs.PoseStamped) (q : geometry_msgs.PoseStamped) :
  initialized_ p = true ->
  last plan = Some q ->
  Z.of_nat (length plan) <= 2 ^ 64 ->
  exists p',
    setPlan ros p plan = Ok (p', if existing_plugin_ p then tc_setPlan ros else true) /\
    global_plan_ p' = plan /\
    geometry_msgs.x (geometry_msgs.position (goal_ p'))
    = geometry_msgs.x (geometry_msgs.position (geometry_msgs.pose q)) /\
    geometry_msgs.y (geometry_msgs.position (goal_ p'))
    = geometry_msgs.y (geometry_msgs.position (geometry_msgs.pose q)) /\
    geometry_msgs.z (geometry_msgs.position (goal_ p'))
    = geometry_msgs.z (geometry_msgs.position (goal_ p)) /\
    geometry_msgs.orientation (goal_ p') = geometry_msgs.orientation (goal_ p) /\
    customized_costmap_ p' = customized_costmap_ p /\
    transition_msg_ p' = transition_msg_ p /\
    initialized_ p' = true /\
    existing_plugin_ p' = existing_plugin_ p /\
    is_customized_costmap_initialized_ p' = is_customized_costmap_initialized_ p.
Proof.
  intros Hinit Hlast Hlen. unfold setPlan. rewrite Hinit. cbn [negb]. cbv zeta.
  rewrite (vector_at_last plan q Hlast Hlen). cbn [mbind result_bind].
  cbn [existing_plugin_ set_goal_ set_global_plan_].
  eexists. split.
  - destruct (existing_plugin_ p); [destruct (tc_setPlan ros) |]; reflexivity.
  - cbn. rewrite Hinit. repeat split.
Qed.

(** ** [initialize] *)

(** X3: [initialize] is idempotent: the second call changes nothing.  The
    first sets the three flags and leaves the plan, the goal, the grid and the
    buffer as they were. *)
Theorem initialize_twice (p : NeuroLocalPlannerWrapper) :
  initialize (initialize p) = initialize p /\
  initialized_ (initialize p) = true /\
  (initialized_ p = false ->
   existing_plugin_ (initialize p) = false /\
   is_customized_costmap_initialized_ (initialize p) = false) /\
  (initialized_ p = true -> initialize p = p) /\
  global_plan_ (initialize p) = global_plan_ p /\
  goal_ (initialize p) = goal_ p /\
  customized_costmap_ (initialize p) = customized_costmap_ p /\
  transition_msg_ (initialize p) = transition_msg_ p.
Proof.
  unfold initialize. destruct (initialized_ p) eqn:E; cbn [negb initialized_].
  - rewrite E. cbn [negb]. repeat split; congruence.
  - repeat split; discriminate.
Qed.

(** ** The Scan Rasterizer *)

(** Comparisons of doubles, through their specification. *)
Lemma SFcompare_antisym (x y : spec_float) :
  SFcompare y x = option_map CompOpp (SFcompare x y).
Proof.
  destruct x as [sx | sx | | sx mx ex], y as [sy | sy | | sy my ey]; simpl;
    try reflexivity; try (destruct sx; reflexivity); try (destruct sy; reflexivity);
    try (destruct sx, sy; reflexivity).
  destruct sx, sy; try reflexivity; f_equal;
    rewrite (Z.compare_antisym ey ex); destruct (ey ?= ex) eqn:E; simpl; try reflexivity;
    rewrite (Pos.compare_cont_antisym mx my Eq); simpl; now rewrite ?CompOpp_involutive.
Qed.

Lemma ltb_false_of_leb (x y : float) : (x <=? y)%float = true -> (y <? x)%float = false.
Proof.
  rewrite FloatAxioms.leb_spec, FloatAxioms.ltb_spec. unfold SFleb, SFltb.
  rewrite (SFcompare_antisym (Prim2SF x) (Prim2SF y)).
  destruct (SFcompare (Prim2SF x) (Prim2SF y)) as [[| |] |]; simpl; congruence.
Qed.

Lemma SFcompare_nan_l (x y : spec_float) : x = S754_nan -> SFcompare x y = None.
Proof. intros ->. reflexivity. Qed.

Lemma SFcompare_refl (x : spec_float) : x <> S754_nan -> SFcompare x x = Some Eq.
Proof.
  destruct x as [s | s | | s m e]; intros H; simpl; try reflexivity; try (now destruct s).
  - congruence.
  - destruct s; rewrite Z.compare_refl, Pos.compare_cont_refl; reflexivity.
Qed.

Lemma is_nan_Prim2SF (x : float) : is_nan x = true -> Prim2SF x = S754_nan.
Proof.
  unfold is_nan. rewrite FloatAxioms.eqb_spec. unfold SFeqb. intros H.
  destruct (Prim2SF x) as [s | s | | s m e] eqn:E; try reflexivity; exfalso;
    rewrite SFcompare_refl in H by discriminate; discriminate.
Qed.

Lemma ltb_nan_l (x y : float) : is_nan x = true -> (x <? y)%float = false.
Proof.
  intros H. rewrite FloatAxioms.ltb_spec, (is_nan_Prim2SF x H). reflexivity.
Qed.

Lemma ltb_nan_r (x y : float) : is_nan y = true -> (x <? y)%float = false.
Proof.
  intros H. rewrite FloatAxioms.ltb_spec, (is_nan_Prim2SF y H). unfold SFltb.
  now destruct (Prim2SF x).
Qed.

(** A sample that fails the test of line 376 leaves the grid as it is. *)
Lemma add_laser_scan_point_ignored (cos sin : float -> float) (c : Costmap2D)
    (laser_scan : sensor_msgs.LaserScan) (t : StampedTransform) (info : nav_msgs.MapMetaData)
    (i : Z) (r : float) (data : list Z) :
  (sensor_msgs.range_min laser_scan <? r)%float && (r <? sensor_msgs.range_max laser_scan)%float
  = false ->
  add_laser_scan_point cos sin c laser_scan t info i r data = Ok data.
Proof. intros H. unfold add_laser_scan_point. now rewrite H. Qed.

(** A scan whose samples all fail the test leaves the grid as it is. *)
Lemma add_laser_scan_points_ignored (cos sin : float -> float) (c : Costmap2D)
    (laser_scan : sensor_msgs.LaserScan) (t : StampedTransform) (info : nav_msgs.MapMetaData)
    (ranges : list float) :
  Forall (fun r => (r <=? sensor_msgs.range_min laser_scan)%float = true
                   \/ (sensor_msgs.range_max laser_scan <=? r)%float = true
                   \/ is_nan r = true
                   \/ is_nan (sensor_msgs.range_min laser_scan) = true
                   \/ is_nan (sensor_msgs.range_max laser_scan) = true) ranges ->
  forall (i : Z) (data : list Z),
    add_laser_scan_points cos sin c laser_scan t info i ranges data = Ok data.
Proof.
  induction 1 as [| r ranges Hr _ IH]; intros i data; [reflexivity |].
  cbn [add_laser_scan_points]. rewrite add_laser_scan_point_ignored.
  - cbn [mbind result_bind]. apply IH.
  - destruct Hr as [H | [H | [H | [H | H]]]].
    + now rewrite (ltb_false_of_leb _ _ H).
    + rewrite (ltb_false_of_leb _ _ H). apply andb_false_r.
    + now rewrite (ltb_nan_r _ _ H).
    + now rewrite (ltb_nan_l _ _ H).
    + rewrite (ltb_nan_r _ _ H). apply andb_false_r.
Qed.

(** X4: both bounds of the valid range are exclusive, and a NaN is never in it:
    a scan whose samples are all at or below [range_min], at or above
    [range_max], or NaN (or whose bounds are NaN) leaves the grid as it is,
    at whatever angle and under whatever transform, with no conversion tried. *)
Theorem samples_outside_the_valid_range_are_ignored (cos sin : float -> float) (c : Costmap2D)
    (laser_scan : sensor_msgs.LaserScan) (t : StampedTransform) (info : nav_msgs.MapMetaData)
    (ranges : list float) (i : Z) (data : list Z) :
  Forall (fun r => (r <=? sensor_msgs.range_min laser_scan)%float = true
                   \/ (sensor_msgs.range_max laser_scan <=? r)%float = true
                   \/ is_nan r = true
                   \/ is_nan (sensor_msgs.range_min laser_scan) = true
                   \/ is_nan (sensor_msgs.range_max laser_scan) = true) ranges ->
  add_laser_scan_points cos sin c laser_scan t info i ranges data = Ok data.
Proof. intros H. now apply add_laser_scan_points_ignored. Qed.

(** One sample writes at most one cell, and writes 100. *)
Lemma add_laser_scan_point_marks (cos sin : float -> float) (c : Costmap2D)
    (laser_scan : sensor_msgs.LaserScan) (t : StampedTransform) (info : nav_msgs.MapMetaData)
    (i : Z) (r : float) (data data' : list Z) :
  add_laser_scan_point cos sin c laser_scan t info i r data = Ok data' ->
  data' = data \/ exists j : nat, (j < length data)%nat /\ data' = <[j := 100]> data.
Proof.
  unfold add_laser_scan_point.
  destruct (_ && _); [| intros [= <-]; now left].
  destruct (position_robot_base_frame _ _ _ _ _ _) as [px py].
  intros H. apply bind_Ok in H as (x & _ & H). apply bind_Ok in H as (y & _ & H).
  destruct (_ && _) eqn:E; [| injection H as <-; now left].
  apply vector_set_Ok in H as [Hlt ->]. right.
  exists (Z.to_nat (add_u32 x (mul_u32 y (nav_msgs.width info)))). split; [| reflexivity].
  pose proof (wrap_u32_range (x + mul_u32 y (nav_msgs.width info))). unfold add_u32 in *. lia.
Qed.

(** The loop over the samples keeps the length of the buffer, and every cell
    holds what it held before or 100. *)
Lemma add_laser_scan_points_marks (cos sin : float -> float) (c : Costmap2D)
    (laser_scan : sensor_msgs.LaserScan) (t : StampedTransform) (info : nav_msgs.MapMetaData)
    (ranges : list float) :
  forall (i : Z) (data data' : list Z),
    add_laser_scan_points cos sin c laser_scan t info i ranges data = Ok data' ->
    length data' = length data /\
    forall j : nat, data' !! j = data !! j \/ ((j < length data)%nat /\ data' !! j = Some 100).
Proof.
  induction ranges as [| r ranges IH]; intros i data data' H.
  - injection H as <-. split; [reflexivity | now left].
  - cbn [add_laser_scan_points] in H. apply bind_Ok in H as (d & Hd & H).
    apply IH in H as [Hlen Hcells].
    apply add_laser_scan_point_marks in Hd as [-> | (k & Hk & ->)]; [now split |].
    rewrite length_insert in Hlen, Hcells. split; [exact Hlen |].
    intros j. destruct (Hcells j) as [Hj | Hj]; [| now right].
    destruct (decide (j = k)) as [-> | Hne].
    + right. split; [exact Hk |]. rewrite Hj. now apply list_lookup_insert_eq.
    + left. rewrite Hj. now apply list_lookup_insert_ne.
Qed.

(** X5: the Scan Rasterizer only marks cells: when the loop over the samples
    returns, the buffer has the length it had and every cell holds what it
    held before or 100. *)
Theorem scan_rasterizer_only_marks_cells (cos sin : float -> float) (c : Costmap2D)
    (laser_scan : sensor_msgs.LaserScan) (t : StampedTransform) (info : nav_msgs.MapMetaData)
    (ranges : list float) (i : Z) (data data' : list Z) :
  add_laser_scan_points cos sin c laser_scan t info i ranges data = Ok data' ->
  length data' = length data /\
  forall j : nat, data' !! j = data !! j \/ ((j < length data)%nat /\ data' !! j = Some 100).
Proof. apply add_laser_scan_points_marks. Qed.

(** X6: a sample of the valid range whose two indices are values of [int] never
    makes the Scan Rasterizer write outside the buffer: on a grid of at most
    2^32 cells whose buffer has width*height cells, the sample is dropped
    when an index is outside the grid and otherwise sets the cell
    x + y * width to 100. *)
Theorem scan_rasterizer_writes_inside_the_buffer (cos sin : float -> float) (c : Costmap2D)
    (laser_scan : sensor_msgs.LaserScan) (t : StampedTransform) (info : nav_msgs.MapMetaData)
    (i : Z) (r : float) (data : list Z) (px py : float) (cellX cellY : Z) :
  nav_msgs.width info * nav_msgs.height info <= 2 ^ 32 ->
  Z.of_nat (length data) = nav_msgs.width info * nav_msgs.height info ->
  (sensor_msgs.range_min laser_scan <? r)%float && (r <? sensor_msgs.range_max laser_scan)%float
  = true ->
  position_robot_base_frame cos sin laser_scan t i r = (px, py) ->
  double.to_int (spec_cellX info (getSizeInMetersX c) px) = Ok cellX ->
  double.to_int (spec_cellY info (getSizeInMetersY c) py) = Ok cellY ->
  add_laser_scan_point cos sin c laser_scan t info i r data
  = Ok (if bool_decide (0 <= cellX < nav_msgs.width info /\ 0 <= cellY < nav_msgs.height info)
        then <[Z.to_nat (cellX + cellY * nav_msgs.width info) := 100]> data
        else data).
Proof.
  intros Hwh Hlen Hrange Hpos Hx Hy. unfold add_laser_scan_point. rewrite Hrange, Hpos.
  unfold spec_cellX in Hx. unfold spec_cellY in Hy.
  rewrite Hx. cbn [mbind result_bind]. rewrite Hy. cbn [mbind result_bind].
  rewrite in_bounds_decide. case_bool_decide as Hin; [| reflexivity].
  rewrite scan_subscript with (h := nav_msgs.height info) by lia.
  apply vector_set_in_range. nia.
Qed.

(** ** The Path Rasterizer *)

(** A cell of the grid, as the first loop of the Path Rasterizer keeps it. *)
Lemma global_plan_map_coordinates_cells (ros : Ros) (g : nav_msgs.OccupancyGrid)
    (plan : list geometry_msgs.PoseStamped) :
  forall (pose : geometry_msgs.PoseStamped) (kept coordinates : list geometry_msgs.Point),
    global_plan_map_coordinates ros g pose kept plan = Ok coordinates ->
    exists new : list geometry_msgs.Point,
      coordinates = kept ++ new /\
      (length new <= length plan)%nat /\
      Forall (fun a => exists x y : Z,
                  a = {| geometry_msgs.x := double.of_Z x; geometry_msgs.y := double.of_Z y;
                         geometry_msgs.z := 0 |}
                  /\ 0 <= x < nav_msgs.width (nav_msgs.info g)
                  /\ 0 <= y < nav_msgs.height (nav_msgs.info g)) new.
Proof.
  induction plan as [| it plan IH]; intros pose kept coordinates H.
  - injection H as <-. exists []. rewrite app_nil_r. repeat split; [reflexivity | constructor].
  - cbn [global_plan_map_coordinates] in H.
    apply bind_Ok in H as (x & _ & H). apply bind_Ok in H as (y & _ & H).
    apply IH in H as (new & -> & Hlen & Hall).
    rewrite in_bounds_decide. case_bool_decide as Hin.
    + eexists (_ :: new). rewrite <- app_assoc. split; [reflexivity |].
      split; [simpl; lia |]. constructor; [| exact Hall]. now exists x, y.
    + exists new. split; [reflexivity |]. split; [simpl; lia | exact Hall].
Qed.

(** X7: the first loop of the Path Rasterizer keeps at most one cell per pose
    of the plan, and every cell it keeps is a cell of the grid: its x and y
    are the doubles of two integers within [0, width) and [0, height), and
    its z is 0. *)
Theorem plan_cells_are_cells_of_the_grid (ros : Ros) (g : nav_msgs.OccupancyGrid)
    (plan : list geometry_msgs.PoseStamped) (pose : geometry_msgs.PoseStamped)
    (kept coordinates : list geometry_msgs.Point) :
  global_plan_map_coordinates ros g pose kept plan = Ok coordinates ->
  exists new : list geometry_msgs.Point,
    coordinates = kept ++ new /\
    (length new <= length plan)%nat /\
    Forall (fun a => exists x y : Z,
                a = {| geometry_msgs.x := double.of_Z x; geometry_msgs.y := double.of_Z y;
                       geometry_msgs.z := 0 |}
                /\ 0 <= x < nav_msgs.width (nav_msgs.info g)
                /\ 0 <= y < nav_msgs.height (nav_msgs.info g)) new.
Proof. apply global_plan_map_coordinates_cells. Qed.

(** ** The values of the plan *)

(** Every pixel of a plan of at least two gets a value within 0..50. *)
Lemma plan_pixel_range (total c : Z) :
  2 <= total < 2 ^ 31 -> 0 <= c < total ->
  exists v, plan_pixel total c = Ok v /\ 0 <= v <= 50.
Proof.
  intros Ht Hc. destruct (binary64.plan_pixel_spec total c Ht Hc) as (k & _ & _ & E & Hk & _).
  exists (50 - k). split; [exact E | lia].
Qed.

(** The first pixel of a plan gets 50 and the last one 0. *)
Lemma plan_pixel_first (total : Z) : 2 <= total < 2 ^ 31 -> plan_pixel total 0 = Ok 50.
Proof.
  intros Ht.
  destruct (binary64.plan_pixel_spec total 0 Ht ltac:(lia))
    as (k & V & D & E & Hk & HkV & HV & HD).
  unfold Rdiv in HD. rewrite Rmult_0_l in HD.
  assert (HD0 : (D = 0)%R) by lra. rewrite HD0 in HV.
  assert (HV0 : (V = 0)%R) by lra. rewrite HV0 in HkV.
  assert (H1 : (IZR k < 1)%R) by lra. assert (H2 : (-1 < IZR k)%R) by lra.
  apply lt_IZR in H1, H2. replace k with 0 in E by lia. exact E.
Qed.

Lemma plan_pixel_last (total : Z) : 2 <= total < 2 ^ 31 -> plan_pixel total (total - 1) = Ok 0.
Proof.
  intros Ht.
  destruct (binary64.plan_pixel_spec total (total - 1) Ht ltac:(lia))
    as (k & V & D & E & Hk & HkV & HV & HD).
  assert (Hm : (0 < IZR (total - 1))%R) by (apply IZR_lt; lia).
  replace (IZR (total - 1) / IZR (total - 1))%R with 1%R in HD by (field; lra).
  assert (H1 : (IZR k < 51)%R) by lra. assert (H2 : (49 < IZR k)%R) by lra.
  apply lt_IZR in H1, H2. replace k with 50 in E by lia. exact E.
Qed.

(** X8: whatever the number of pixels of a plan (two or more, a value of
    [int]), its first pixel gets 50 and its last pixel gets 0. *)
Theorem plan_starts_at_50_and_ends_at_0 (total : Z) :
  2 <= total < 2 ^ 31 ->
  plan_pixel total 0 = Ok 50 /\ plan_pixel total (total - 1) = Ok 0.
Proof. intros Ht. split; [now apply plan_pixel_first | now apply plan_pixel_last]. Qed.

(** X9: the values of a plan follow the ramp from 50 down to 0: pixel c of a
    plan of N pixels gets an integer within 0..50 that differs from
    50 - 50*c/(N-1) by at most 1/2 + 2^-40, the two roundings of the division
    and the product included. *)
Theorem plan_values_follow_the_ramp (total c : Z) :
  2 <= total < 2 ^ 31 -> 0 <= c < total ->
  exists v : Z,
    plan_pixel total c = Ok v /\ 0 <= v <= 50 /\
    (50 - 50 * IZR c / IZR (total - 1) - / 2 - / 1099511627776 <= IZR v
     <= 50 - 50 * IZR c / IZR (total - 1) + / 2 + / 1099511627776)%R.
Proof.
  intros Ht Hc.
  destruct (binary64.plan_pixel_spec total c Ht Hc) as (k & V & D & E & Hk & HkV & HV & HD).
  exists (50 - k). split; [exact E |]. split; [lia |].
  assert (Hm : (0 < IZR (total - 1))%R) by (apply IZR_lt; lia).
  assert (Hq : (0 <= IZR c / IZR (total - 1) <= 1)%R).
  { assert (0 <= IZR c <= IZR (total - 1))%R by (split; apply IZR_le; lia).
    split.
    - apply Rmult_le_reg_r with (IZR (total - 1)); [assumption |].
      replace (IZR c / IZR (total - 1) * IZR (total - 1))%R with (IZR c) by (field; lra). lra.
    - apply Rmult_le_reg_r with (IZR (total - 1)); [assumption |].
      replace (IZR c / IZR (total - 1) * IZR (total - 1))%R with (IZR c) by (field; lra). lra. }
  replace (50 * IZR c / IZR (total - 1))%R with (50 * (IZR c / IZR (total - 1)))%R
    by (unfold Rdiv; ring).
  set (q := (IZR c / IZR (total - 1))%R) in *.
  rewrite minus_IZR.
  assert (HD1 : (q - / 1125899906842624 <= D <= q + / 1125899906842624)%R) by lra.
  assert (HV1 : (50 * D - / 17592186044416 <= V <= 50 * D + / 17592186044416)%R) by lra.
  lra.
Qed.

(** ** The callback as a whole *)

Lemma wrap_s32_small (z : Z) : 0 <= z < 2 ^ 31 -> wrap_s32 z = z.
Proof. intros H. unfold wrap_s32. rewrite Z.mod_small; lia. Qed.

(** What a call that returns has done. *)
Lemma getLaserScanPoints_inv (cos sin : float -> float) (ros : Ros)
    (p p' : NeuroLocalPlannerWrapper) (laser_scan : sensor_msgs.LaserScan)
    (published : list Publication) :
  getLaserScanPoints cos sin ros p laser_scan = Ok (p', published) ->
  let p1 := initialize_or_clear ros p in
  let g1 := set_grid_header
              (set_header_stamp (std_msgs.stamp (sensor_msgs.header laser_scan))
                                (nav_msgs.header (customized_costmap_ p1)))
              (customized_costmap_ p1) in
  exists data1 data2 : list Z,
    add_laser_scan_points cos sin (costmap_ ros) laser_scan
      (looked_up_transform ros (std_msgs.frame_id (nav_msgs.header (customized_costmap_ p1)))
                           (std_msgs.frame_id (sensor_msgs.header laser_scan)))
      (nav_msgs.info g1) 0 (sensor_msgs.ranges laser_scan) (nav_msgs.data g1) = Ok data1 /\
    add_global_path ros (global_plan_ p1) (set_grid_data data1 g1) = Ok data2 /\
    let g3 := set_grid_data data2 (set_grid_data data1 g1) in
    let g4 := set_grid_header
                (set_header_seq (add_u32 (std_msgs.seq (nav_msgs.header g3)) 1)
                                (nav_msgs.header g3)) g3 in
    p' = set_transition_msg_ (buffer_costmap (transition_msg_ p1) g4).1
           (set_customized_costmap_ g4 p1) /\
    published = customized_costmap_pub g3 :: (buffer_costmap (transition_msg_ p1) g4).2.
Proof.
  intros H p1 g1. pose proof H as H'. unfold getLaserScanPoints in H'. fold p1 in H'. fold g1 in H'.
  apply bind_Ok in H' as (data1 & H1 & H'). apply bind_Ok in H' as (data2 & H2 & _).
  exists data1, data2. split; [exact H1 |]. split; [exact H2 |].
  rewrite (getLaserScanPoints_Ok cos sin ros p laser_scan data1 data2 H1 H2) in H.
  injection H as <- <-. split; reflexivity.
Qed.

(** Step 1 leaves a buffer of width*height cells, on 32 bits, all at 70. *)
Lemma initialize_or_clear_data (ros : Ros) (p : NeuroLocalPlannerWrapper) :
  let g := customized_costmap_ (initialize_or_clear ros p) in
  nav_msgs.data g
  = replicate (Z.to_nat (mul_u32 (nav_msgs.width (nav_msgs.info g))
                                 (nav_msgs.height (nav_msgs.info g)))) 70.
Proof. unfold initialize_or_clear. now destruct (is_customized_costmap_initialized_ p). Qed.

(** Step 5 publishes no grid. *)
Lemma costmaps_buffer_costmap (t : Transition) (g : nav_msgs.OccupancyGrid) :
  costmaps (buffer_costmap t g).2 = [].
Proof. unfold buffer_costmap. now destruct (_ =? _). Qed.

Lemma costmaps_cons (g : nav_msgs.OccupancyGrid) (l : list Publication) :
  costmaps (customized_costmap_pub g :: l) = g :: costmaps l.
Proof. reflexivity. Qed.

(** The values that the second loop of the Path Rasterizer writes. *)
Lemma write_plan_pixels_values (P : Z -> Prop) (info : nav_msgs.MapMetaData) (total : Z)
    (coordinates : list geometry_msgs.Point) :
  forall (counter : Z) (data data' : list Z),
    (forall k v, counter <= k < counter + Z.of_nat (length coordinates) ->
                 plan_pixel total k = Ok v -> P v) ->
    Forall P data ->
    write_plan_pixels info total counter coordinates data = Ok data' ->
    Forall P data'.
Proof.
  induction coordinates as [| a coordinates IH]; intros counter data data' Hv Hdata H.
  - now injection H as <-.
  - apply write_plan_pixels_cons in H as (i & v & _ & Hpix & _ & H).
    apply (IH (counter + 1) _ _) in H; [exact H | |].
    + intros k w Hk. apply Hv. cbn [length]. lia.
    + apply Forall_insert; [exact Hdata |]. apply (Hv counter); [cbn [length]; lia | exact Hpix].
Qed.

(** The cells of the grid that a returning call keeps. *)
Lemma getLaserScanPoints_cells (cos sin : float -> float) (ros : Ros)
    (p p' : NeuroLocalPlannerWrapper) (laser_scan : sensor_msgs.LaserScan)
    (published : list Publication) :
  Z.of_nat (length (global_plan_ p)) < 2 ^ 31 ->
  getLaserScanPoints cos sin ros p laser_scan = Ok (p', published) ->
  Forall (fun c => c = 70 \/ c = 100 \/ 0 <= c <= 50) (nav_msgs.data (customized_costmap_ p')).
Proof.
  intros Hplan H. apply getLaserScanPoints_inv in H as (data1 & data2 & H1 & H2 & -> & ->).
  cbv zeta.
  cbn [customized_costmap_ set_transition_msg_ set_customized_costmap_ nav_msgs.data
       set_grid_header set_grid_data].
  (* the scan *)
  apply add_laser_scan_points_marks in H1 as [Hlen1 Hcells1].
  cbn [nav_msgs.data set_grid_header] in Hlen1, Hcells1.
  rewrite initialize_or_clear_data in Hcells1.
  assert (Hd1 : Forall (fun c => c = 70 \/ c = 100 \/ 0 <= c <= 50) data1).
  { apply Forall_lookup. intros j c Hj. destruct (Hcells1 j) as [E | [_ E]].
    - rewrite Hj in E. symmetry in E. apply lookup_replicate in E as [-> _]. now left.
    - rewrite Hj in E. injection E as ->. right. now left. }
  (* the plan *)
  unfold add_global_path in H2. apply bind_Ok in H2 as (coordinates & Hc & H2).
  apply global_plan_map_coordinates_cells in Hc as (new & -> & Hlen & _).
  rewrite initialize_or_clear_global_plan in Hlen. cbn [app] in H2.
  rewrite wrap_s32_small in H2 by lia.
  revert H2. apply write_plan_pixels_values; [| exact Hd1].
  intros k v Hk Hpix. cbn [Z.add] in Hk.
  destruct (decide (Z.of_nat (length new) = 1)) as [Hone | Hne].
  + rewrite Hone in Hk, Hpix. replace k with 0 in Hpix by lia.
    rewrite plan_pixel_single in Hpix. discriminate.
  + destruct (plan_pixel_range (Z.of_nat (length new)) k) as (w & Hw & Hrange); [lia | lia |].
    rewrite Hw in Hpix. injection Hpix as <-. right. now right.
Qed.

(** X10: whenever the callback returns, every cell of the grid it publishes,
    which is also the grid it keeps, holds 70 (background), 100 (a sample of
    the scan) or a value of the plan within 0..50; for every plan shorter than
    2^31 poses, the range of the [int] that counts its pixels. *)
Theorem published_cells_are_70_100_or_a_plan_value (cos sin : float -> float) (ros : Ros)
    (p p' : NeuroLocalPlannerWrapper) (laser_scan : sensor_msgs.LaserScan)
    (published : list Publication) :
  Z.of_nat (length (global_plan_ p)) < 2 ^ 31 ->
  getLaserScanPoints cos sin ros p laser_scan = Ok (p', published) ->
  Forall (fun c => c = 70 \/ c = 100 \/ 0 <= c <= 50) (nav_msgs.data (customized_costmap_ p')) /\
  exists g, costmaps published = [g] /\ nav_msgs.data g = nav_msgs.data (customized_costmap_ p').
Proof.
  intros Hplan H. split; [now apply (getLaserScanPoints_cells _ _ _ _ _ _ _ Hplan H) |].
  apply getLaserScanPoints_inv in H as (data1 & data2 & _ & _ & -> & ->). cbv zeta.
  eexists. rewrite costmaps_cons, costmaps_buffer_costmap. split; reflexivity.
Qed.

Lemma initialize_or_clear_frame (ros : Ros) (p : NeuroLocalPlannerWrapper) :
  let p1 := initialize_or_clear ros p in
  global_plan_ p1 = global_plan_ p /\ goal_ p1 = goal_ p /\
  initialized_ p1 = initialized_ p /\ existing_plugin_ p1 = existing_plugin_ p /\
  is_customized_costmap_initialized_ p1 = true.
Proof.
  unfold initialize_or_clear.
  destruct (is_customized_costmap_initialized_ p) eqn:E; cbn; repeat split. exact E.
Qed.

Lemma buffer_costmap_dimensions (t : Transition) (g : nav_msgs.OccupancyGrid) :
  width (buffer_costmap t g).1 = width t /\
  height (buffer_costmap t g).1 = height t /\
  depth (buffer_costmap t g).1 = depth t.
Proof. unfold buffer_costmap. destruct (_ =? _); repeat split. Qed.

(** What a call that returns leaves, relative to the planner after step 1. *)
Lemma getLaserScanPoints_step (cos sin : float -> float) (ros : Ros)
    (p p' : NeuroLocalPlannerWrapper) (laser_scan : sensor_msgs.LaserScan)
    (published : list Publication) :
  getLaserScanPoints cos sin ros p laser_scan = Ok (p', published) ->
  let p1 := initialize_or_clear ros p in
  global_plan_ p' = global_plan_ p /\
  goal_ p' = goal_ p /\
  initialized_ p' = initialized_ p /\
  existing_plugin_ p' = existing_plugin_ p /\
  is_customized_costmap_initialized_ p' = true /\
  nav_msgs.info (customized_costmap_ p') = nav_msgs.info (customized_costmap_ p1) /\
  std_msgs.frame_id (nav_msgs.header (customized_costmap_ p'))
  = std_msgs.frame_id (nav_msgs.header (customized_costmap_ p1)) /\
  std_msgs.stamp (nav_msgs.header (customized_costmap_ p'))
  = std_msgs.stamp (sensor_msgs.header laser_scan) /\
  length (nav_msgs.data (customized_costmap_ p'))
  = Z.to_nat (mul_u32 (nav_msgs.width (nav_msgs.info (customized_costmap_ p')))
                      (nav_msgs.height (nav_msgs.info (customized_costmap_ p')))) /\
  transition_msg_ p' = (buffer_costmap (transition_msg_ p1) (customized_costmap_ p')).1 /\
  transitions published
  = transitions (buffer_costmap (transition_msg_ p1) (customized_costmap_ p')).2 /\
  exists g, costmaps published = [g] /\ nav_msgs.data g = nav_msgs.data (customized_costmap_ p').
Proof.
  intros H. apply getLaserScanPoints_inv in H as (data1 & data2 & H1 & H2 & -> & ->).
  cbv zeta.
  destruct (initialize_or_clear_frame ros p) as (Hplan & Hgoal & Hinit & Hplug & Hcci).
  cbn [global_plan_ goal_ initialized_ existing_plugin_ is_customized_costmap_initialized_
       customized_costmap_ transition_msg_ set_transition_msg_ set_customized_costmap_
       nav_msgs.data nav_msgs.info nav_msgs.header set_grid_header set_grid_data
       set_header_seq set_header_stamp std_msgs.frame_id].
  do 5 (split; [assumption |]). do 3 (split; [reflexivity |]). split.
  - apply add_laser_scan_points_marks in H1 as [Hlen1 _].
    unfold add_global_path in H2. apply bind_Ok in H2 as (coordinates & _ & H2).
    apply write_plan_pixels_untouched in H2 as [Hlen2 _].
    cbn [nav_msgs.data nav_msgs.info set_grid_data set_grid_header] in Hlen1, Hlen2.
    rewrite Hlen2, Hlen1, initialize_or_clear_data. apply length_replicate.
  - split; [reflexivity |]. split; [reflexivity |].
    eexists. rewrite costmaps_cons, costmaps_buffer_costmap. split; reflexivity.
Qed.

(** X11: the callback writes the grid and the buffer and nothing else of the
    planner: when it returns, the plan, the goal and the flags of [initialize]
    are as they were; on a planner whose grid was initialized before, the
    geometry and the frame of the grid and the dimensions of the buffer are
    as they were, too.  The buffer of the grid has width*height cells (on 32
    bits) again. *)
Theorem getLaserScanPoints_writes_grid_and_buffer_only (cos sin : float -> float) (ros : Ros)
    (p p' : NeuroLocalPlannerWrapper) (laser_scan : sensor_msgs.LaserScan)
    (published : list Publication) :
  getLaserScanPoints cos sin ros p laser_scan = Ok (p', published) ->
  global_plan_ p' = global_plan_ p /\
  goal_ p' = goal_ p /\
  initialized_ p' = initialized_ p /\
  existing_plugin_ p' = existing_plugin_ p /\
  is_customized_costmap_initialized_ p' = true /\
  length (nav_msgs.data (customized_costmap_ p'))
  = Z.to_nat (mul_u32 (nav_msgs.width (nav_msgs.info (customized_costmap_ p')))
                      (nav_msgs.height (nav_msgs.info (customized_costmap_ p')))) /\
  (is_customized_costmap_initialized_ p = true ->
   nav_msgs.info (customized_costmap_ p') = nav_msgs.info (customized_costmap_ p) /\
   std_msgs.frame_id (nav_msgs.header (customized_costmap_ p'))
   = std_msgs.frame_id (nav_msgs.header (customized_costmap_ p)) /\
   width (transition_msg_ p') = width (transition_msg_ p) /\
   height (transition_msg_ p') = height (transition_msg_ p) /\
   depth (transition_msg_ p') = depth (transition_msg_ p)).
Proof.
  intros H. apply getLaserScanPoints_step in H
    as (Hplan & Hgoal & Hinit & Hplug & Hcci & Hinfo & Hframe & _ & Hlen & Ht & _).
  do 5 (split; [assumption |]). split; [exact Hlen |].
  intros Hrun. rewrite (initialize_or_clear_running ros p Hrun) in Hinfo, Hframe, Ht.
  split; [exact Hinfo |]. split; [exact Hframe |]. rewrite Ht.
  apply buffer_costmap_dimensions.
Qed.

(** The grid that one call publishes. *)
Lemma getLaserScanPoints_published (cos sin : float -> float) (ros : Ros)
    (p p' : NeuroLocalPlannerWrapper) (laser_scan : sensor_msgs.LaserScan)
    (published : list Publication) :
  getLaserScanPoints cos sin ros p laser_scan = Ok (p', published) ->
  exists g,
    costmaps published = [g] /\
    std_msgs.stamp (nav_msgs.header g) = std_msgs.stamp (sensor_msgs.header laser_scan) /\
    std_msgs.seq (nav_msgs.header g)
    = (if is_customized_costmap_initialized_ p
       then std_msgs.seq (nav_msgs.header (customized_costmap_ p)) else 0) /\
    is_customized_costmap_initialized_ p' = true /\
    std_msgs.seq (nav_msgs.header (customized_costmap_ p'))
    = add_u32 (std_msgs.seq (nav_msgs.header g)) 1.
Proof.
  intros H. apply getLaserScanPoints_inv in H as (data1 & data2 & _ & _ & -> & ->).
  cbv zeta. eexists. rewrite costmaps_cons, costmaps_buffer_costmap.
  split; [reflexivity |]. split; [reflexivity |]. split.
  - unfold initialize_or_clear. now destruct (is_customized_costmap_initialized_ p).
  - split; [| reflexivity]. apply initialize_or_clear_frame.
Qed.

Lemma costmaps_app (l l' : list Publication) : costmaps (l ++ l') = costmaps l ++ costmaps l'.
Proof. apply omap_app. Qed.

(** The grids of a run that starts where the next grid gets the number [s]. *)
Lemma getLaserScanPoints_each_numbered (cos sin : float -> float)
    (scans : list (Ros * sensor_msgs.LaserScan)) :
  forall (p p' : NeuroLocalPlannerWrapper) (published : list Publication) (s : Z),
    0 <= s < 2 ^ 32 ->
    (if is_customized_costmap_initialized_ p
     then std_msgs.seq (nav_msgs.header (customized_costmap_ p)) else 0) = s ->
    getLaserScanPoints_each cos sin p scans = Ok (p', published) ->
    length (costmaps published) = length scans /\
    forall (k : nat) (g : nav_msgs.OccupancyGrid),
      costmaps published !! k = Some g ->
      std_msgs.seq (nav_msgs.header g) = wrap_u32 (s + Z.of_nat k) /\
      exists (ros : Ros) (laser_scan : sensor_msgs.LaserScan),
        scans !! k = Some (ros, laser_scan) /\
        std_msgs.stamp (nav_msgs.header g) = std_msgs.stamp (sensor_msgs.header laser_scan).
Proof.
  induction scans as [| [ros laser_scan] scans IH]; intros p p' published s Hs Hp H.
  - injection H as <- <-. split; [reflexivity | intros k g Hk; discriminate Hk].
  - cbn [getLaserScanPoints_each] in H.
    apply bind_Ok in H as ([p1 pub1] & H1 & H). apply bind_Ok in H as ([p2 pub2] & H2 & H).
    injection H as <- <-.
    apply getLaserScanPoints_published in H1 as (g1 & Hg1 & Hstamp & Hseq & Hrun & Hnext).
    rewrite Hp in Hseq.
    apply (IH p1 p2 pub2 (add_u32 s 1)) in H2 as [Hlen Hrest].
    2:{ apply wrap_u32_range. }
    2:{ now rewrite Hrun, Hnext, Hseq. }
    rewrite costmaps_app, Hg1. split; [simpl; now rewrite Hlen |].
    intros [| k] g Hk.
    + injection Hk as <-. rewrite Hseq, Z.add_0_r, wrap_u32_small by lia.
      split; [reflexivity |]. now exists ros, laser_scan.
    + destruct (Hrest k g Hk) as [Hk1 Hk2]. split; [| exact Hk2].
      rewrite Hk1. unfold add_u32, wrap_u32. rewrite Zplus_mod_idemp_l. f_equal. lia.
Qed.

(** X12: over any run of scans from the first one, each call that returns
    publishes exactly one grid; the grids are numbered 0, 1, 2, ... in their
    header (modulo 2^32), and each carries the time stamp of its scan. *)
Theorem grids_are_numbered_from_0 (cos sin : float -> float)
    (scans : list (Ros * sensor_msgs.LaserScan)) (p p' : NeuroLocalPlannerWrapper)
    (published : list Publication) :
  is_customized_costmap_initialized_ p = false ->
  getLaserScanPoints_each cos sin p scans = Ok (p', published) ->
  length (costmaps published) = length scans /\
  forall (k : nat) (g : nav_msgs.OccupancyGrid),
    costmaps published !! k = Some g ->
    std_msgs.seq (nav_msgs.header g) = wrap_u32 (Z.of_nat k) /\
    exists (ros : Ros) (laser_scan : sensor_msgs.LaserScan),
      scans !! k = Some (ros, laser_scan) /\
      std_msgs.stamp (nav_msgs.header g) = std_msgs.stamp (sensor_msgs.header laser_scan).
Proof.
  intros Hfirst H.
  apply (getLaserScanPoints_each_numbered cos sin scans p p' published 0) in H;
    [exact H | lia | now rewrite Hfirst].
Qed.

(** ** Runs of the buffer *)

Lemma buffer_costmaps_app (gs gs' : list nav_msgs.OccupancyGrid) :
  forall t : Transition,
    buffer_costmaps t (gs ++ gs')
    = let '(t1, published) := buffer_costmaps t gs in
      let '(t2, published') := buffer_costmaps t1 gs' in
      (t2, published ++ published').
Proof.
  induction gs as [| g gs IH]; intros t.
  - cbn. now destruct (buffer_costmaps t gs').
  - cbn [app buffer_costmaps]. destruct (buffer_costmap t g) as [t0 pub0].
    rewrite IH. destruct (buffer_costmaps t0 gs) as [t1 pub1].
    destruct (buffer_costmaps t1 gs') as [t2 pub2]. now rewrite app_assoc.
Qed.

Lemma transitions_cons (m : Transition) (l : list Publication) :
  transitions (transition_pub m :: l) = m :: transitions l.
Proof. reflexivity. Qed.

(** Grids pushed while the buffer holds fewer than four layers are appended. *)
Lemma buffer_costmaps_filling (gs : list nav_msgs.OccupancyGrid) :
  forall (t : Transition) (k : Z),
    depth t = 4 ->
    0 < width t * height t -> 4 * (width t * height t) < 2 ^ 32 ->
    Z.of_nat (length (state_representation t)) = k * (width t * height t) ->
    0 <= k -> k + Z.of_nat (length gs) <= 4 ->
    Forall (fun g => Z.of_nat (length (nav_msgs.data g)) = width t * height t) gs ->
    buffer_costmaps t gs
    = ({| header := header t; width := width t; height := height t; depth := depth t;
          state_representation := state_representation t ++ concat (nav_msgs.data <$> gs) |},
       []).
Proof.
  induction gs as [| g gs IH]; intros t k Hd Hpos Hfit Hlen Hk Hroom Hall.
  - cbn. rewrite app_nil_r. now destruct t.
  - apply Forall_cons in Hall as [Hg Hall]. cbn [length] in Hroom. cbn [buffer_costmaps].
    rewrite (buffer_costmap_layer t g k) by (try assumption; lia).
    rewrite (IH _ (k + 1)); cbn [header width height depth state_representation];
      try assumption; try lia.
    + cbn [fmap list_fmap concat]. now rewrite <- app_assoc.
    + rewrite length_app. lia.
Qed.

(** Five pushes into an empty buffer: one stacked unit, and an empty buffer
    again. *)
Lemma buffer_costmaps_five (t : Transition) (g1 g2 g3 g4 g5 : nav_msgs.OccupancyGrid) :
  depth t = 4 -> state_representation t = [] ->
  0 < width t * height t -> 4 * (width t * height t) < 2 ^ 32 ->
  Forall (fun g => Z.of_nat (length (nav_msgs.data g)) = width t * height t) [g1; g2; g3; g4] ->
  exists (t' m : Transition),
    buffer_costmaps t [g1; g2; g3; g4; g5] = (t', [transition_pub m]) /\
    state_representation m
    = nav_msgs.data g1 ++ nav_msgs.data g2 ++ nav_msgs.data g3 ++ nav_msgs.data g4 /\
    std_msgs.stamp (header m) = std_msgs.stamp (nav_msgs.header g5) /\
    std_msgs.frame_id (header m) = std_msgs.frame_id (nav_msgs.header g5) /\
    std_msgs.seq (header m) = std_msgs.seq (header t) /\
    width m = width t /\ height m = height t /\ depth m = depth t /\
    state_representation t' = [] /\
    width t' = width t /\ height t' = height t /\ depth t' = depth t /\
    std_msgs.seq (header t') = add_u32 (std_msgs.seq (header t)) 1.
Proof.
  intros Hd Hempty Hpos Hfit Hall.
  change [g1; g2; g3; g4; g5] with ([g1; g2; g3; g4] ++ [g5]). rewrite buffer_costmaps_app.
  rewrite (buffer_costmaps_filling [g1; g2; g3; g4] t 0); try assumption;
    [| rewrite Hempty; reflexivity | lia | cbn [length]; lia].
  rewrite Hempty. cbn [app fmap list_fmap concat buffer_costmaps]. rewrite app_nil_r.
  unfold buffer_costmap. cbn [header width height depth state_representation].
  assert (Hlen : Z.of_nat (length (nav_msgs.data g1 ++ nav_msgs.data g2
                                   ++ nav_msgs.data g3 ++ nav_msgs.data g4))
                 = mul_u32 (mul_u32 (width t) (height t)) (depth t)).
  { apply Forall_cons in Hall as [H1 Hall]. apply Forall_cons in Hall as [H2 Hall].
    apply Forall_cons in Hall as [H3 Hall]. apply Forall_cons in Hall as [H4 _].
    rewrite !length_app, Hd, (mul_u32_small (width t)), mul_u32_small by lia. lia. }
  apply Z.eqb_eq in Hlen. rewrite Hlen.
  eexists _, _. split; [reflexivity |]. cbn. repeat split.
Qed.

(** A run of step 5 from an empty buffer, by groups of five pushes. *)
Lemma buffer_costmaps_run (n : nat) :
  forall (gs : list nav_msgs.OccupancyGrid) (t : Transition),
    (length gs <= n)%nat ->
    depth t = 4 -> state_representation t = [] ->
    0 < width t * height t -> 4 * (width t * height t) < 2 ^ 32 ->
    Forall (fun g => Z.of_nat (length (nav_msgs.data g)) = width t * height t) gs ->
    state_representation <$> transitions (buffer_costmaps t gs).2 = stacked_units gs /\
    state_representation (buffer_costmaps t gs).1 = pending_layers gs /\
    costmaps (buffer_costmaps t gs).2 = [] /\
    Forall (fun unit => Z.of_nat (length unit) = width t * height t * 4) (stacked_units gs).
Proof.
  induction n as [| n IH]; intros gs t Hn Hd Hempty Hpos Hfit Hall.
  - destruct gs; [| simpl in Hn; lia]. cbn. rewrite Hempty. repeat split. constructor.
  - destruct gs as [| g1 [| g2 [| g3 [| g4 [| g5 rest]]]]].
    1-5: rewrite (buffer_costmaps_filling _ t 0); try assumption;
      [| rewrite Hempty; reflexivity | lia | cbn [length]; lia];
      cbn [fst snd state_representation transitions costmaps omap fmap list_fmap];
      rewrite Hempty; repeat split; constructor.
    change (g1 :: g2 :: g3 :: g4 :: g5 :: rest) with ([g1; g2; g3; g4; g5] ++ rest).
    rewrite buffer_costmaps_app.
    assert (Hfour : Forall (fun g => Z.of_nat (length (nav_msgs.data g)) = width t * height t)
                           [g1; g2; g3; g4]
                    /\ Forall (fun g => Z.of_nat (length (nav_msgs.data g))
                                        = width t * height t) rest).
    { apply Forall_cons in Hall as [H1 Hall]. apply Forall_cons in Hall as [H2 Hall].
      apply Forall_cons in Hall as [H3 Hall]. apply Forall_cons in Hall as [H4 Hall].
      apply Forall_cons in Hall as [_ Hall]. split; [| exact Hall].
      repeat constructor; assumption. }
    destruct Hfour as [Hfour Hrest].
    destruct (buffer_costmaps_five t g1 g2 g3 g4 g5 Hd Hempty Hpos Hfit Hfour)
      as (t' & m & -> & Hm & _ & _ & _ & _ & _ & _ & Ht' & Hw & Hh & Hd' & _).
    destruct (IH rest t') as (Hunits & Hpending & Hgrids & Hlens).
    { cbn [length] in Hn. lia. }
    { congruence. } { exact Ht'. } { rewrite Hw, Hh. exact Hpos. }
    { rewrite Hw, Hh. exact Hfit. } { rewrite Hw, Hh. exact Hrest. }
    destruct (buffer_costmaps t' rest) as [t2 pub2].
    cbn [fst snd app] in *. cbn [stacked_units pending_layers].
    split; [| split; [| split]].
    + rewrite transitions_cons, fmap_cons. f_equal; assumption.
    + exact Hpending.
    + exact Hgrids.
    + constructor.
      * apply Forall_cons in Hfour as [H1 Hfour]. apply Forall_cons in Hfour as [H2 Hfour].
        apply Forall_cons in Hfour as [H3 Hfour]. apply Forall_cons in Hfour as [H4 _].
        rewrite !length_app. lia.
      * rewrite Hw, Hh in Hlens. exact Hlens.
Qed.

(** X13: over any run of grids of width*height cells pushed into an empty
    buffer of depth 4, with at least one cell and fewer than 2^30, step 5
    publishes exactly the stacked units of the closed form: the grids 1 to 4
    make the first unit, the grids 6 to 9 the second, and so on, each unit
    of length width*height*4, and every fifth grid is part of no unit; what
    the buffer holds after the run are the grids behind the last multiple
    of five. *)
Theorem buffer_stacks_four_grids_out_of_five (t : Transition)
    (gs : list nav_msgs.OccupancyGrid) :
  depth t = 4 -> state_representation t = [] ->
  0 < width t * height t -> 4 * (width t * height t) < 2 ^ 32 ->
  Forall (fun g => Z.of_nat (length (nav_msgs.data g)) = width t * height t) gs ->
  state_representation <$> transitions (buffer_costmaps t gs).2 = stacked_units gs /\
  state_representation (buffer_costmaps t gs).1 = pending_layers gs /\
  costmaps (buffer_costmaps t gs).2 = [] /\
  Forall (fun unit => Z.of_nat (length unit) = width t * height t * 4) (stacked_units gs).
Proof. intros. now apply (buffer_costmaps_run (length gs)). Qed.

(** ** Runs of the callback *)

Lemma transitions_app (l l' : list Publication) :
  transitions (l ++ l') = transitions l ++ transitions l'.
Proof. apply omap_app. Qed.

Lemma transitions_cons_costmap (g : nav_msgs.OccupancyGrid) (l : list Publication) :
  transitions (customized_costmap_pub g :: l) = transitions l.
Proof. reflexivity. Qed.

Lemma stacked_units_data (gs gs' : list nav_msgs.OccupancyGrid) :
  nav_msgs.data <$> gs = nav_msgs.data <$> gs' -> stacked_units gs = stacked_units gs'.
Proof.
  assert (Hmain : forall (n : nat) (gs gs' : list nav_msgs.OccupancyGrid),
            (length gs <= n)%nat ->
            nav_msgs.data <$> gs = nav_msgs.data <$> gs' -> stacked_units gs = stacked_units gs').
  { clear gs gs'. induction n as [| n IH]; intros gs gs' Hn H.
    - destruct gs; [| simpl in Hn; lia]. destruct gs'; [reflexivity | discriminate H].
    - destruct gs as [| g1 [| g2 [| g3 [| g4 [| g5 gs]]]]],
               gs' as [| h1 [| h2 [| h3 [| h4 [| h5 gs']]]]];
        try discriminate H; try reflexivity.
      cbn [fmap list_fmap] in H. injection H as H1 H2 H3 H4 _ H.
      cbn [stacked_units]. rewrite H1, H2, H3, H4. f_equal. apply IH; [| exact H].
      cbn [length] in Hn. lia. }
  apply (Hmain (length gs)). lia.
Qed.

Lemma pending_layers_data (gs gs' : list nav_msgs.OccupancyGrid) :
  nav_msgs.data <$> gs = nav_msgs.data <$> gs' -> pending_layers gs = pending_layers gs'.
Proof.
  assert (Hmain : forall (n : nat) (gs gs' : list nav_msgs.OccupancyGrid),
            (length gs <= n)%nat ->
            nav_msgs.data <$> gs = nav_msgs.data <$> gs' -> pending_layers gs = pending_layers gs').
  { clear gs gs'. induction n as [| n IH]; intros gs gs' Hn H.
    - destruct gs; [| simpl in Hn; lia]. destruct gs'; [reflexivity | discriminate H].
    - destruct gs as [| g1 [| g2 [| g3 [| g4 [| g5 gs]]]]],
               gs' as [| h1 [| h2 [| h3 [| h4 [| h5 gs']]]]];
        try discriminate H; try reflexivity;
        try (cbn [pending_layers]; now rewrite H).
      cbn [fmap list_fmap] in H. injection H as _ _ _ _ _ H.
      cbn [pending_layers]. apply IH; [| exact H].
      cbn [length] in Hn. lia. }
  apply (Hmain (length gs)). lia.
Qed.

(** A run of the callback as a run of step 5 over the grids it keeps, from the
    buffer that step 1 of its first call leaves. *)
Lemma getLaserScanPoints_each_buffer (cos sin : float -> float)
    (scans : list (Ros * sensor_msgs.LaserScan)) :
  forall (ros : Ros) (laser_scan : sensor_msgs.LaserScan)
         (p p' : NeuroLocalPlannerWrapper) (published : list Publication),
    getLaserScanPoints_each cos sin p ((ros, laser_scan) :: scans) = Ok (p', published) ->
    let p1 := initialize_or_clear ros p in
    exists gs : list nav_msgs.OccupancyGrid,
      nav_msgs.data <$> gs = nav_msgs.data <$> costmaps published /\
      (fun g => std_msgs.stamp (nav_msgs.header g)) <$> gs
      = (fun s => std_msgs.stamp (sensor_msgs.header s.2)) <$> ((ros, laser_scan) :: scans) /\
      Forall (fun g => nav_msgs.info g = nav_msgs.info (customized_costmap_ p1)
                       /\ std_msgs.frame_id (nav_msgs.header g)
                          = std_msgs.frame_id (nav_msgs.header (customized_costmap_ p1))
                       /\ length (nav_msgs.data g)
                          = Z.to_nat (mul_u32 (nav_msgs.width (nav_msgs.info g))
                                              (nav_msgs.height (nav_msgs.info g)))) gs /\
      transitions published = transitions (buffer_costmaps (transition_msg_ p1) gs).2 /\
      transition_msg_ p' = (buffer_costmaps (transition_msg_ p1) gs).1.
Proof.
  induction scans as [| [ros' laser_scan'] scans IH]; intros ros laser_scan p p' published H p1.
  - cbn [getLaserScanPoints_each] in H.
    apply bind_Ok in H as ([q pub1] & H1 & H). cbn [mbind result_bind] in H.
    injection H as <- <-. rewrite app_nil_r.
    apply getLaserScanPoints_step in H1
      as (_ & _ & _ & _ & _ & Hinfo & Hframe & Hstamp & Hlen & Ht & Htr & g & Hg & Hgdata).
    fold p1 in Hinfo, Hframe, Ht, Htr.
    exists [customized_costmap_ q]. rewrite Hg. cbn [fmap list_fmap buffer_costmaps snd].
    split; [now rewrite Hgdata |]. split; [now rewrite Hstamp |].
    split; [repeat constructor; assumption |].
    rewrite Htr, Ht. destruct (buffer_costmap _ _) as [t1 pubs1]. cbn [fst snd].
    now rewrite app_nil_r.
  - remember ((ros', laser_scan') :: scans) as rest eqn:Erest.
    cbn [getLaserScanPoints_each] in H.
    apply bind_Ok in H as ([q pub1] & H1 & H). apply bind_Ok in H as ([q2 pub2] & H2 & H).
    injection H as <- <-. subst rest.
    apply getLaserScanPoints_step in H1
      as (_ & _ & _ & _ & Hrun & Hinfo & Hframe & Hstamp & Hlen & Ht & Htr & g & Hg & Hgdata).
    fold p1 in Hinfo, Hframe, Ht, Htr.
    apply IH in H2 as (gs & Hdata & Hstamps & Hall & Htrans & Hlast).
    rewrite (initialize_or_clear_running ros' q Hrun) in Hall, Htrans, Hlast.
    cbn [customized_costmap_ transition_msg_ set_customized_costmap_ clear_costmap
         set_grid_data nav_msgs.info nav_msgs.header] in Hall, Htrans, Hlast.
    exists (customized_costmap_ q :: gs).
    split; [| split; [| split; [| split]]].
    + rewrite costmaps_app, Hg. cbn [app fmap list_fmap]. now rewrite Hgdata, Hdata.
    + rewrite fmap_cons, Hstamps, Hstamp. reflexivity.
    + constructor; [split; [exact Hinfo | split; [exact Hframe | exact Hlen]] |].
      eapply Forall_impl; [exact Hall |]. intros g' (Hg1 & Hg2 & Hg3).
      split; [congruence | split; [congruence | exact Hg3]].
    + rewrite transitions_app, Htrans, Htr, Ht. cbn [buffer_costmaps].
      destruct (buffer_costmap _ _) as [t1 pubs1]. cbn [fst snd].
      destruct (buffer_costmaps t1 gs) as [t2 pubs2]. cbn [snd]. symmetry. apply transitions_app.
    + rewrite Hlast, Ht. cbn [buffer_costmaps].
      destruct (buffer_costmap _ _) as [t1 pubs1]. cbn [fst].
      now destruct (buffer_costmaps t1 gs).
Qed.

(** X14: over any run of scans from the first one, on a costmap of at least one
    cell and fewer than 2^30, the stacked units that the callback publishes
    are made of the grids it publishes, four consecutive grids to a unit:
    the grids of the calls 1 to 4, then 6 to 9, and so on.  The grid of every
    fifth call is published but is part of no unit. *)
Theorem transitions_stack_four_published_grids_out_of_five (cos sin : float -> float)
    (ros : Ros) (laser_scan : sensor_msgs.LaserScan)
    (scans : list (Ros * sensor_msgs.LaserScan)) (p p' : NeuroLocalPlannerWrapper)
    (published : list Publication) :
  is_customized_costmap_initialized_ p = false ->
  state_representation (transition_msg_ p) = [] ->
  0 < getSizeInCellsX (costmap_ ros) * getSizeInCellsY (costmap_ ros) ->
  4 * (getSizeInCellsX (costmap_ ros) * getSizeInCellsY (costmap_ ros)) < 2 ^ 32 ->
  getLaserScanPoints_each cos sin p ((ros, laser_scan) :: scans) = Ok (p', published) ->
  state_representation <$> transitions published = stacked_units (costmaps published) /\
  state_representation (transition_msg_ p') = pending_layers (costmaps published).
Proof.
  intros Hfirst Hempty Hpos Hfit H.
  apply getLaserScanPoints_each_buffer in H as (gs & Hdata & _ & Hall & Htrans & Hlast).
  set (t := transition_msg_ (initialize_or_clear ros p)) in *.
  assert (Ht : depth t = 4 /\ state_representation t = []
               /\ width t = getSizeInCellsX (costmap_ ros)
               /\ height t = getSizeInCellsY (costmap_ ros)).
  { subst t. unfold initialize_or_clear. rewrite Hfirst. cbn. now rewrite Hempty. }
  destruct Ht as (Hd & He & Hw & Hh).
  destruct (buffer_costmaps_run (length gs) gs t) as (Hunits & Hpending & _ & _);
    try assumption; try (rewrite Hw, Hh; assumption); [lia | |].
  { eapply Forall_impl; [exact Hall |]. intros g (Hinfo & _ & Hlen).
    rewrite Hlen, Hinfo, Hw, Hh. unfold initialize_or_clear. rewrite Hfirst. cbn.
    rewrite Z2Nat.id, mul_u32_small by (try apply wrap_u32_range; lia). reflexivity. }
  split.
  - rewrite Htrans, Hunits. now apply stacked_units_data.
  - rewrite Hlast, Hpending. now apply pending_layers_data.
Qed.

(** ** The planner in use *)

(** [setPlan] writes the plan and the goal only. *)
Lemma setPlan_flags (ros : Ros) (p p' : NeuroLocalPlannerWrapper)
    (plan : list geometry_msgs.PoseStamped) (b : bool) :
  setPlan ros p plan = Ok (p', b) ->
  initialized_ p' = initialized_ p /\ existing_plugin_ p' = existing_plugin_ p /\
  is_customized_costmap_initialized_ p' = is_customized_costmap_initialized_ p /\
  customized_costmap_ p' = customized_costmap_ p /\
  transition_msg_ p' = transition_msg_ p.
Proof.
  unfold setPlan. destruct (initialized_ p) eqn:E; cbn [negb].
  - cbv zeta. intros H. apply bind_Ok in H as (px & _ & H). apply bind_Ok in H as (py & _ & H).
    cbn [existing_plugin_ set_goal_ set_global_plan_] in H.
    destruct (existing_plugin_ p) eqn:Ep; [destruct (tc_setPlan ros) |];
      injection H as <- <-; cbn; rewrite ?E, ?Ep; repeat split.
  - intros [= <- <-]. repeat split. exact E.
Qed.

Lemma isGoalReached_flags (pow : float -> float -> float) (ros : Ros) (pose : tf.Pose)
    (p : NeuroLocalPlannerWrapper) :
  let p' := (isGoalReached pow ros pose p).1.1 in
  initialized_ p' = initialized_ p /\ existing_plugin_ p' = existing_plugin_ p /\
  is_customized_costmap_initialized_ p' = is_customized_costmap_initialized_ p /\
  customized_costmap_ p' = customized_costmap_ p /\
  transition_msg_ p' = transition_msg_ p /\
  goal_ p' = goal_ p.
Proof. unfold isGoalReached. cbv zeta. destruct (_ <? _)%float; repeat split. Qed.

(** [initialize] is the only function that writes [existing_plugin_], and it
    writes false. *)
Lemma reachable_existing_plugin_ (cos sin : float -> float) (pow : float -> float -> float)
    (p : NeuroLocalPlannerWrapper) :
  reachable cos sin pow p -> initialized_ p = true -> existing_plugin_ p = false.
Proof.
  induction 1 as [p Hp | p _ IH | ros p p' plan b _ IH Hset | ros pose p _ IH
                  | ros p p' laser_scan published _ IH _ Hscan]; intros Hinit.
  - congruence.
  - unfold initialize in *. destruct (initialized_ p); cbn [negb] in *; [now apply IH | reflexivity].
  - apply setPlan_flags in Hset as (Hi & He & _). rewrite He. apply IH. congruence.
  - destruct (isGoalReached_flags pow ros pose p) as (Hi & He & _).
    rewrite He. apply IH. congruence.
  - apply getLaserScanPoints_step in Hscan as (_ & _ & Hi & He & _).
    rewrite He. apply IH. congruence.
Qed.

(** X15: in a planner in use the plugin is never consulted: once the planner is
    initialized, whatever was called since, [computeVelocityCommands] returns
    true and commands 0.5 forward and no rotation, leaving the four other
    components of [cmd_vel] as the caller passed them, and [setPlan] of a plan
    that is not empty returns true. *)
Theorem the_plugin_is_never_used (cos sin : float -> float) (pow : float -> float -> float)
    (p : NeuroLocalPlannerWrapper) :
  reachable cos sin pow p -> initialized_ p = true ->
  existing_plugin_ p = false /\
  (forall (tc_computeVelocityCommands :
             geometry_msgs_Twist.Twist -> geometry_msgs_Twist.Twist * bool)
          (cmd_vel : geometry_msgs_Twist.Twist),
      computeVelocityCommands tc_computeVelocityCommands p cmd_vel
      = ({| geometry_msgs_Twist.linear :=
              {| geometry_msgs_Twist.x := 0.5;
                 geometry_msgs_Twist.y := geometry_msgs_Twist.y (geometry_msgs_Twist.linear cmd_vel);
                 geometry_msgs_Twist.z := geometry_msgs_Twist.z (geometry_msgs_Twist.linear cmd_vel) |};
            geometry_msgs_Twist.angular :=
              {| geometry_msgs_Twist.x := geometry_msgs_Twist.x (geometry_msgs_Twist.angular cmd_vel);
                 geometry_msgs_Twist.y := geometry_msgs_Twist.y (geometry_msgs_Twist.angular cmd_vel);
                 geometry_msgs_Twist.z := 0 |} |}, true)) /\
  (forall (ros : Ros) (plan : list geometry_msgs.PoseStamped),
      plan <> [] -> exists p', setPlan ros p plan = Ok (p', true)).
Proof.
  intros Hreach Hinit.
  pose proof (reachable_existing_plugin_ cos sin pow p Hreach Hinit) as Hplugin.
  split; [exact Hplugin |]. split.
  - intros f cmd_vel. unfold computeVelocityCommands. now rewrite Hplugin.
  - intros ros plan Hplan. unfold setPlan. rewrite Hinit. cbn [negb]. cbv zeta.
    destruct (vector_at_nonempty plan Hplan) as [a Ha]. rewrite Ha. cbn [mbind result_bind].
    cbn [existing_plugin_ set_goal_ set_global_plan_]. rewrite Hplugin. now eexists.
Qed.

(** With no plan, the grid that a call leaves holds 70 and 100 only. *)
Lemma getLaserScanPoints_without_plan (cos sin : float -> float) (ros : Ros)
    (p p' : NeuroLocalPlannerWrapper) (laser_scan : sensor_msgs.LaserScan)
    (published : list Publication) :
  global_plan_ p = [] ->
  getLaserScanPoints cos sin ros p laser_scan = Ok (p', published) ->
  Forall (fun c => c = 70 \/ c = 100) (nav_msgs.data (customized_costmap_ p')).
Proof.
  intros Hplan H. apply getLaserScanPoints_inv in H as (data1 & data2 & H1 & H2 & -> & _).
  cbv zeta. cbn [customized_costmap_ set_transition_msg_ set_customized_costmap_ nav_msgs.data
                 set_grid_header set_grid_data].
  rewrite initialize_or_clear_global_plan, Hplan, add_global_path_empty in H2.
  injection H2 as <-. cbn [nav_msgs.data set_grid_data].
  apply add_laser_scan_points_marks in H1 as [_ Hcells].
  cbn [nav_msgs.data set_grid_header] in Hcells. rewrite initialize_or_clear_data in Hcells.
  apply Forall_lookup. intros j c Hj. destruct (Hcells j) as [E | [_ E]].
  - rewrite Hj in E. symmetry in E. apply lookup_replicate in E as [-> _]. now left.
  - rewrite Hj in E. injection E as ->. now right.
Qed.

(** X16: [isGoalReached] publishes [new_round] = true exactly when it returns
    true, and then it clears the plan; it never writes the goal, the grid, the
    buffer or a flag.  After it has returned true, and until [setPlan] is
    called again, the callback draws no plan: the grid of the next scan holds
    70 and 100 only. *)
Theorem isGoalReached_clears_the_plan (cos sin : float -> float)
    (pow : float -> float -> float) (ros : Ros) (pose : tf.Pose) (p : NeuroLocalPlannerWrapper) :
  let '(p', published, reached) := isGoalReached pow ros pose p in
  published = (if reached then [true] else []) /\
  global_plan_ p' = (if reached then [] else global_plan_ p) /\
  goal_ p' = goal_ p /\
  customized_costmap_ p' = customized_costmap_ p /\
  transition_msg_ p' = transition_msg_ p /\
  initialized_ p' = initialized_ p /\
  existing_plugin_ p' = existing_plugin_ p /\
  is_customized_costmap_initialized_ p' = is_customized_costmap_initialized_ p /\
  (reached = true ->
   forall (ros' : Ros) (laser_scan : sensor_msgs.LaserScan) (q : NeuroLocalPlannerWrapper)
          (grids : list Publication),
     getLaserScanPoints cos sin ros' p' laser_scan = Ok (q, grids) ->
     Forall (fun c => c = 70 \/ c = 100) (nav_msgs.data (customized_costmap_ q))).
Proof.
  unfold isGoalReached. cbv zeta. destruct (_ <? _)%float.
  - repeat split. intros _ ros' laser_scan q grids.
    now apply getLaserScanPoints_without_plan.
  - repeat split. discriminate.
Qed.

(** The headers of the stacked units of a run of step 5 from an empty buffer. *)
Lemma buffer_costmaps_headers (n : nat) :
  forall (gs : list nav_msgs.OccupancyGrid) (t : Transition),
    (length gs <= n)%nat ->
    depth t = 4 -> state_representation t = [] ->
    0 < width t * height t -> 4 * (width t * height t) < 2 ^ 32 ->
    Forall (fun g => Z.of_nat (length (nav_msgs.data g)) = width t * height t) gs ->
    0 <= std_msgs.seq (header t) < 2 ^ 32 ->
    forall (k : nat) (m : Transition),
      transitions (buffer_costmaps t gs).2 !! k = Some m ->
      std_msgs.seq (header m) = wrap_u32 (std_msgs.seq (header t) + Z.of_nat k) /\
      width m = width t /\ height m = height t /\ depth m = 4 /\
      exists g5 : nav_msgs.OccupancyGrid,
        gs !! (5 * k + 4)%nat = Some g5 /\
        std_msgs.stamp (header m) = std_msgs.stamp (nav_msgs.header g5) /\
        std_msgs.frame_id (header m) = std_msgs.frame_id (nav_msgs.header g5).
Proof.
  induction n as [| n IH]; intros gs t Hn Hd Hempty Hpos Hfit Hall Hseq k m Hk.
  - destruct gs; [| simpl in Hn; lia]. discriminate Hk.
  - destruct gs as [| g1 [| g2 [| g3 [| g4 [| g5 rest]]]]].
    1-5: rewrite (buffer_costmaps_filling _ t 0) in Hk; try assumption;
      [discriminate Hk | rewrite Hempty; reflexivity | lia | cbn [length]; lia].
    change (g1 :: g2 :: g3 :: g4 :: g5 :: rest) with ([g1; g2; g3; g4; g5] ++ rest) in Hk.
    rewrite buffer_costmaps_app in Hk.
    assert (Hfour : Forall (fun g => Z.of_nat (length (nav_msgs.data g)) = width t * height t)
                           [g1; g2; g3; g4]
                    /\ Forall (fun g => Z.of_nat (length (nav_msgs.data g))
                                        = width t * height t) rest).
    { apply Forall_cons in Hall as [H1 Hall]. apply Forall_cons in Hall as [H2 Hall].
      apply Forall_cons in Hall as [H3 Hall]. apply Forall_cons in Hall as [H4 Hall].
      apply Forall_cons in Hall as [_ Hall]. split; [| exact Hall].
      repeat constructor; assumption. }
    destruct Hfour as [Hfour Hrest].
    destruct (buffer_costmaps_five t g1 g2 g3 g4 g5 Hd Hempty Hpos Hfit Hfour)
      as (t' & m0 & E & _ & Hstamp & Hframe & Hseq0 & Hw0 & Hh0 & Hd0 & Ht' & Hw & Hh & Hd'
          & Hseq').
    rewrite E in Hk.
    pose proof (IH rest t') as IH'.
    destruct (buffer_costmaps t' rest) as [t2 pub2]. cbn [fst snd app] in Hk, IH'.
    rewrite transitions_cons in Hk. destruct k as [| k].
    + injection Hk as <-. rewrite Z.add_0_r, wrap_u32_small by lia.
      split; [exact Hseq0 |]. split; [exact Hw0 |]. split; [exact Hh0 |].
      split; [congruence |]. exists g5. now split.
    + cbn [lookup list_lookup] in Hk.
      destruct (IH' ltac:(cbn [length] in Hn; lia) ltac:(congruence) Ht'
                    ltac:(rewrite Hw, Hh; exact Hpos) ltac:(rewrite Hw, Hh; exact Hfit)
                    ltac:(rewrite Hw, Hh; exact Hrest)
                    ltac:(rewrite Hseq'; apply wrap_u32_range) k m Hk)
        as (Hs & Hwm & Hhm & Hdm & g & Hg & Hgs & Hgf).
      split.
      { rewrite Hs, Hseq'. unfold add_u32, wrap_u32. rewrite Zplus_mod_idemp_l. f_equal. lia. }
      split; [congruence |]. split; [congruence |]. split; [exact Hdm |].
      exists g. split; [| now split].
      replace (5 * S k + 4)%nat with (S (S (S (S (S (5 * k + 4))))))%nat by lia. exact Hg.
Qed.

(** X17: over any run of scans from the first one, on a costmap of at least one
    cell and fewer than 2^30, the stacked units are numbered 0, 1, 2, ... in
    their header, carry the frame of the grid and the dimensions of the
    costmap with depth 4, and stacked unit k (from 0) carries the time stamp of
    scan 5k+5, the scan whose grid is part of no unit. *)
Theorem stacked_units_carry_the_stamp_of_every_fifth_scan (cos sin : float -> float)
    (ros : Ros) (laser_scan : sensor_msgs.LaserScan)
    (scans : list (Ros * sensor_msgs.LaserScan)) (p p' : NeuroLocalPlannerWrapper)
    (published : list Publication) (k : nat) (m : Transition) :
  is_customized_costmap_initialized_ p = false ->
  state_representation (transition_msg_ p) = [] ->
  0 < getSizeInCellsX (costmap_ ros) * getSizeInCellsY (costmap_ ros) ->
  4 * (getSizeInCellsX (costmap_ ros) * getSizeInCellsY (costmap_ ros)) < 2 ^ 32 ->
  getLaserScanPoints_each cos sin p ((ros, laser_scan) :: scans) = Ok (p', published) ->
  transitions published !! k = Some m ->
  std_msgs.seq (header m) = wrap_u32 (Z.of_nat k) /\
  std_msgs.frame_id (header m) = "/base_footprint" /\
  width m = getSizeInCellsX (costmap_ ros) /\
  height m = getSizeInCellsY (costmap_ ros) /\
  depth m = 4 /\
  exists (ros5 : Ros) (scan5 : sensor_msgs.LaserScan),
    ((ros, laser_scan) :: scans) !! (5 * k + 4)%nat = Some (ros5, scan5) /\
    std_msgs.stamp (header m) = std_msgs.stamp (sensor_msgs.header scan5).
Proof.
  intros Hfirst Hempty Hpos Hfit H Hk.
  apply getLaserScanPoints_each_buffer in H as (gs & _ & Hstamps & Hall & Htrans & _).
  set (t := transition_msg_ (initialize_or_clear ros p)) in *.
  assert (Ht : depth t = 4 /\ state_representation t = []
               /\ width t = getSizeInCellsX (costmap_ ros)
               /\ height t = getSizeInCellsY (costmap_ ros)
               /\ std_msgs.seq (header t) = 0).
  { subst t. unfold initialize_or_clear. rewrite Hfirst. cbn. now rewrite Hempty. }
  destruct Ht as (Hd & He & Hw & Hh & Hs).
  rewrite Htrans in Hk.
  destruct (buffer_costmaps_headers (length gs) gs t) with (k := k) (m := m)
    as (Hseq & Hwm & Hhm & Hdm & g5 & Hg5 & Hstamp & Hframe);
    try assumption; try (rewrite Hw, Hh; assumption); [lia | | rewrite Hs; lia |].
  { eapply Forall_impl; [exact Hall |]. intros g (Hinfo & _ & Hlen).
    rewrite Hlen, Hinfo, Hw, Hh. unfold initialize_or_clear. rewrite Hfirst. cbn.
    rewrite Z2Nat.id, mul_u32_small by (try apply wrap_u32_range; lia). reflexivity. }
  rewrite Hs, Z.add_0_l in Hseq.
  split; [exact Hseq |]. split.
  { rewrite Hframe. rewrite Forall_lookup in Hall. destruct (Hall _ _ Hg5) as (_ & Hf & _).
    rewrite Hf. unfold initialize_or_clear. rewrite Hfirst. reflexivity. }
  split; [congruence |]. split; [congruence |]. split; [exact Hdm |].
  assert (Hs5 : ((fun g => std_msgs.stamp (nav_msgs.header g)) <$> gs) !! (5 * k + 4)%nat
                = Some (std_msgs.stamp (nav_msgs.header g5))).
  { rewrite list_lookup_fmap, Hg5. reflexivity. }
  rewrite Hstamps, list_lookup_fmap in Hs5.
  destruct (((ros, laser_scan) :: scans) !! (5 * k + 4)%nat) as [[ros5 scan5] |] eqn:E;
    [| discriminate Hs5].
  injection Hs5 as Hs5. exists ros5, scan5. split; [reflexivity |]. now rewrite Hstamp.
Qed.

(** ** Exact operations of binary64 *)

(** A shift to the right of a mantissa that ends in zeros loses nothing. *)
Lemma shr_1_even (q : Z) :
  0 <= q ->
  shr_1 {| shr_m := 2 * q; shr_r := false; shr_s := false |}
  = {| shr_m := q; shr_r := false; shr_s := false |}.
Proof. intros Hq. destruct q as [| p | p]; [reflexivity | reflexivity | lia]. Qed.

Lemma iter_shr_1_exact (n : positive) :
  forall q : Z,
    0 <= q ->
    SpecFloat.iter_pos shr_1 n {| shr_m := q * 2 ^ Z.pos n; shr_r := false; shr_s := false |}
    = {| shr_m := q; shr_r := false; shr_s := false |}.
Proof.
  induction n as [n IH | n IH |]; intros q Hq; cbn [SpecFloat.iter_pos].
  - assert (E : q * 2 ^ Z.pos n~1 = 2 * (q * 2 ^ Z.pos n * 2 ^ Z.pos n)).
    { rewrite Pos2Z.inj_xI. replace (2 * Z.pos n + 1) with (Z.pos n + Z.pos n + 1) by lia.
      rewrite !Z.pow_add_r, Z.pow_1_r by lia. ring. }
    rewrite E, shr_1_even by (apply Z.mul_nonneg_nonneg; [apply Z.mul_nonneg_nonneg |];
                              try apply Z.pow_nonneg; lia).
    rewrite IH by (apply Z.mul_nonneg_nonneg; try apply Z.pow_nonneg; lia).
    now apply IH.
  - assert (E : q * 2 ^ Z.pos n~0 = q * 2 ^ Z.pos n * 2 ^ Z.pos n).
    { rewrite Pos2Z.inj_xO, <- Z.mul_assoc, <- Z.pow_add_r by lia. f_equal. f_equal. lia. }
    rewrite E. rewrite IH by (apply Z.mul_nonneg_nonneg; try apply Z.pow_nonneg; lia).
    now apply IH.
  - replace (q * 2 ^ 1) with (2 * q) by (rewrite Z.pow_1_r; lia). now apply shr_1_even.
Qed.

(** Rounding a mantissa K * 2^n of 53 + n digits loses nothing. *)
Lemma binary_round_aux_exact (M K : positive) (e n : Z) :
  Z.pos M = Z.pos K * 2 ^ n -> 0 <= n ->
  2 ^ 52 <= Z.pos K < 2 ^ 53 ->
  -1074 <= e + n <= 971 ->
  binary_round_aux prec emax false (Z.pos M) e loc_Exact = S754_finite false K (e + n).
Proof.
  intros HM Hn HK He.
  assert (Hpn : 0 < 2 ^ n) by (apply Z.pow_pos_nonneg; lia).
  assert (Hd : Z.pos (digits2_pos M) = 53 + n).
  { apply binary64.digits2_pos_unique. rewrite HM.
    replace (53 + n - 1) with (52 + n) by lia. rewrite !Z.pow_add_r by lia. nia. }
  assert (HdK : Z.pos (digits2_pos K) = 53).
  { apply binary64.digits2_pos_unique. change (2 ^ (53 - 1)) with (2 ^ 52). exact HK. }
  unfold binary_round_aux, shr_fexp. cbn [Zdigits2]. rewrite Hd.
  change (fexp prec emax (53 + n + e)) with (fexp64 (53 + n + e)).
  rewrite binary64.fexp64_normal by lia.
  replace (53 + n + e - 53 - e) with n by lia.
  assert (Hshr : shr (shr_record_of_loc (Z.pos M) loc_Exact) e n
                 = ({| shr_m := Z.pos K; shr_r := false; shr_s := false |}, e + n)).
  { unfold shr. destruct n as [| pn | pn]; [| | lia].
    - rewrite Z.pow_0_r, Z.mul_1_r in HM. injection HM as ->.
      rewrite Z.add_0_r. reflexivity.
    - cbn [shr_record_of_loc]. rewrite HM, iter_shr_1_exact by lia. reflexivity. }
  rewrite Hshr. cbn [shr_m loc_of_shr_record round_nearest_even Zdigits2]. rewrite HdK.
  change (fexp prec emax (53 + (e + n))) with (fexp64 (53 + (e + n))).
  rewrite binary64.fexp64_normal by lia.
  replace (53 + (e + n) - 53 - (e + n)) with 0 by lia.
  cbn [shr shr_record_of_loc shr_m].
  destruct (Z.leb_spec (e + n) (emax - prec)) as [_ | Hbad]; [reflexivity |].
  unfold emax, prec in Hbad. lia.
Qed.

(** The same for a mantissa that denotes an integer below 2^53. *)
Lemma binary_round_aux_integer (M : positive) (e N : Z) :
  Z.pos M = N * 2 ^ (- e) -> e <= 0 -> 0 < N < 2 ^ 53 -> 2 ^ 52 <= Z.pos M ->
  exists (m : positive) (e' : Z),
    binary_round_aux prec emax false (Z.pos M) e loc_Exact = S754_finite false m e' /\
    2 ^ 52 <= Z.pos m < 2 ^ 53 /\ -52 <= e' <= 0 /\ Z.pos m = N * 2 ^ (- e').
Proof.
  intros HM He HN HM52.
  pose proof (binary64.digits2_pos_bounds M) as Hdig.
  set (d := Z.pos (digits2_pos M)) in *.
  assert (Hd : 53 <= d).
  { destruct (Z.le_gt_cases 53 d) as [| Hlt]; [assumption | exfalso].
    assert (2 ^ d <= 2 ^ 52) by (apply Z.pow_le_mono_r; lia). lia. }
  set (n := d - 53).
  assert (Hpe : 0 < 2 ^ (- e)) by (apply Z.pow_pos_nonneg; lia).
  assert (Hne : n <= - e).
  { destruct (Z.le_gt_cases n (- e)) as [| Hgt]; [assumption | exfalso].
    assert (H : 2 ^ (53 - e) <= 2 ^ (d - 1)) by (apply Z.pow_le_mono_r; lia).
    replace (53 - e) with (53 + - e) in H by lia. rewrite Z.pow_add_r in H by lia.
    nia. }
  assert (Hsplit : 2 ^ (- e) = 2 ^ (- e - n) * 2 ^ n).
  { rewrite <- Z.pow_add_r by lia. f_equal. lia. }
  assert (Hpk : 0 < 2 ^ (- e - n)) by (apply Z.pow_pos_nonneg; lia).
  assert (Hpn : 0 < 2 ^ n) by (apply Z.pow_pos_nonneg; lia).
  assert (Hd1 : 2 ^ (d - 1) = 2 ^ 52 * 2 ^ n /\ 2 ^ d = 2 ^ 53 * 2 ^ n).
  { split; rewrite <- Z.pow_add_r by lia; f_equal; lia. }
  destruct Hd1 as [Hlo Hhi]. rewrite Hlo, Hhi in Hdig.
  assert (HK : 0 < N * 2 ^ (- e - n)) by nia.
  exists (Z.to_pos (N * 2 ^ (- e - n))), (e + n).
  assert (HKpos : Z.pos (Z.to_pos (N * 2 ^ (- e - n))) = N * 2 ^ (- e - n))
    by (apply Z2Pos.id; exact HK).
  assert (HKb : 2 ^ 52 <= N * 2 ^ (- e - n) < 2 ^ 53).
  { rewrite HM, Hsplit in Hdig. nia. }
  assert (He' : -52 <= e + n).
  { destruct (Z.le_gt_cases (-52) (e + n)) as [| Hlt]; [assumption | exfalso].
    assert (2 ^ 53 <= 2 ^ (- e - n)) by (apply Z.pow_le_mono_r; lia). nia. }
  split.
  - apply binary_round_aux_exact; rewrite ?HKpos; try lia.
  - rewrite HKpos. split; [exact HKb |]. split; [lia |]. f_equal. f_equal. lia.
Qed.

Lemma binary_normalize_integer (S : positive) (e N : Z) :
  Z.pos S = N * 2 ^ (- e) -> e <= 0 -> 0 < N < 2 ^ 53 ->
  exists (m : positive) (e' : Z),
    binary_normalize prec emax (Z.pos S) e false = S754_finite false m e' /\
    2 ^ 52 <= Z.pos m < 2 ^ 53 /\ -52 <= e' <= 0 /\ Z.pos m = N * 2 ^ (- e').
Proof.
  intros HS He HN. unfold binary_normalize, binary_round.
  pose proof (binary64.digits2_pos_bounds S) as Hdig.
  set (d := Z.pos (digits2_pos S)) in *.
  assert (Hpe : 0 < 2 ^ (- e)) by (apply Z.pow_pos_nonneg; lia).
  assert (Hde : 1 <= d + e).
  { destruct (Z.le_gt_cases 1 (d + e)) as [| Hlt]; [assumption | exfalso].
    assert (2 ^ d <= 2 ^ (- e)) by (apply Z.pow_le_mono_r; lia). nia. }
  change (fexp prec emax (d + e)) with (fexp64 (d + e)).
  rewrite binary64.fexp64_normal by lia.
  unfold shl_align. replace (d + e - 53 - e) with (d - 53) by lia.
  destruct (d - 53) as [| k | k] eqn:Hk.
  - apply (binary_round_aux_integer S e N); try assumption.
    replace d with 53 in Hdig by lia. change (2 ^ (53 - 1)) with (2 ^ 52) in Hdig. lia.
  - apply (binary_round_aux_integer S e N); try assumption.
    assert (2 ^ 52 <= 2 ^ (d - 1)) by (apply Z.pow_le_mono_r; lia). lia.
  - assert (HM : Z.pos (Pos.iter xO S k) = Z.pos S * 2 ^ (53 - d)).
    { rewrite binary64.Pos_iter_xO. f_equal. f_equal. lia. }
    assert (Hp : 0 < 2 ^ (53 - d)) by (apply Z.pow_pos_nonneg; lia).
    apply (binary_round_aux_integer _ _ N); try assumption; try lia.
    + rewrite HM, HS, <- Z.mul_assoc, <- Z.pow_add_r by lia. f_equal. f_equal. lia.
    + rewrite HM.
      assert (2 ^ (d - 1) * 2 ^ (53 - d) = 2 ^ 52).
      { rewrite <- Z.pow_add_r by lia. f_equal. lia. }
      nia.
Qed.

(** The conversions and the operations on integers. *)
Lemma of_Z_is_integer (n : Z) : 0 <= n < 2 ^ 53 -> is_integer (double.of_Z n) n.
Proof.
  intros Hn. destruct (Z.eq_dec n 0) as [-> | Hne].
  - left. split; reflexivity.
  - right. split; [lia |].
    destruct (binary64.of_Z_value n ltac:(lia)) as (m & e & E & Hm & He & Hv & _).
    now exists m, e.
Qed.

Lemma mul_is_integer (x y : float) (a b : Z) :
  is_integer x a -> is_integer y b -> a * b < 2 ^ 53 -> is_integer (x * y) (a * b).
Proof.
  intros [[-> Hx] | (Ha & mx & ex & Hx & Hmx & Hex & Hvx)]
         [[-> Hy] | (Hb & my & ey & Hy & Hmy & Hey & Hvy)] Hab.
  - left. split; [reflexivity |]. rewrite FloatAxioms.mul_spec, Hx, Hy. reflexivity.
  - left. split; [reflexivity |]. rewrite FloatAxioms.mul_spec, Hx, Hy. reflexivity.
  - left. split; [lia |]. rewrite FloatAxioms.mul_spec, Hx, Hy. reflexivity.
  - right. split; [lia |]. rewrite FloatAxioms.mul_spec, Hx, Hy.
    unfold SF64mul, SFmul. cbn [xorb].
    assert (Hpx : 0 < 2 ^ (- ex)) by (apply Z.pow_pos_nonneg; lia).
    assert (Hpy : 0 < 2 ^ (- ey)) by (apply Z.pow_pos_nonneg; lia).
    assert (Hprod : 2 ^ 52 <= Z.pos (mx * my)).
    { rewrite Pos2Z.inj_mul. assert (0 < 2 ^ 52) by reflexivity. nia. }
    apply (binary_round_aux_integer (mx * my) (ex + ey) (a * b)); [| lia | lia | exact Hprod].
    rewrite Pos2Z.inj_mul, Hvx, Hvy.
    replace (- (ex + ey)) with (- ex + - ey) by lia. rewrite Z.pow_add_r by lia. ring.
Qed.

Lemma shl_align_fst (m : positive) (e e' : Z) :
  e' <= e -> Z.pos (shl_align m e e').1 = Z.pos m * 2 ^ (e - e').
Proof.
  intros H. unfold shl_align. destruct (e' - e) as [| k | k] eqn:Hk; try lia.
  - replace (e - e') with 0 by lia. cbn [fst]. rewrite Z.pow_0_r. lia.
  - cbn [fst]. rewrite binary64.Pos_iter_xO. f_equal. f_equal. lia.
Qed.

Lemma add_is_integer (x y : float) (a b : Z) :
  is_integer x a -> is_integer y b -> a + b < 2 ^ 53 -> is_integer (x + y) (a + b).
Proof.
  intros [[-> Hx] | (Ha & mx & ex & Hx & Hmx & Hex & Hvx)]
         [[-> Hy] | (Hb & my & ey & Hy & Hmy & Hey & Hvy)] Hab.
  - left. split; [reflexivity |]. rewrite FloatAxioms.add_spec, Hx, Hy. reflexivity.
  - right. split; [lia |]. exists my, ey. rewrite FloatAxioms.add_spec, Hx, Hy.
    split; [reflexivity |]. now rewrite Z.add_0_l.
  - right. split; [lia |]. exists mx, ex. rewrite FloatAxioms.add_spec, Hx, Hy.
    split; [reflexivity |]. now rewrite Z.add_0_r.
  - right. split; [lia |]. rewrite FloatAxioms.add_spec, Hx, Hy.
    unfold SF64add, SFadd. cbn [cond_Zopp].
    set (ez := Z.min ex ey).
    pose proof (shl_align_fst mx ex ez ltac:(lia)) as Sx.
    pose proof (shl_align_fst my ey ez ltac:(lia)) as Sy.
    change (Z.pos (shl_align mx ex ez).1 + Z.pos (shl_align my ey ez).1)
      with (Z.pos ((shl_align mx ex ez).1 + (shl_align my ey ez).1)).
    apply (binary_normalize_integer _ ez (a + b)); try lia.
    rewrite Pos2Z.inj_add, Sx, Sy, Hvx, Hvy, Z.mul_add_distr_r.
    rewrite <- !Z.mul_assoc, <- !Z.pow_add_r by lia.
    f_equal; f_equal; f_equal; lia.
Qed.

Lemma truncate_is_integer (x : float) (n : Z) : is_integer x n -> double.truncate x = Some n.
Proof.
  intros [[-> Hx] | (Hn & m & e & Hx & _ & He & Hv)]; unfold double.truncate; rewrite Hx.
  - reflexivity.
  - f_equal. destruct (Z.leb_spec 0 e).
    + replace e with 0 in * by lia. rewrite Z.pow_0_r in *. lia.
    + rewrite Hv. apply Z.div_mul. apply Z.pow_nonzero; lia.
Qed.

(** ** The subscripts of the Path Rasterizer *)

(** The subscript that line 457 computes in doubles, for a cell of the grid. *)
Lemma plan_pixel_subscript_exact (info : nav_msgs.MapMetaData) (x y : Z) :
  0 <= x < nav_msgs.width info -> 0 <= y < nav_msgs.height info ->
  nav_msgs.width info * nav_msgs.height info < 2 ^ 53 ->
  double.to_size_t
    (plan_pixel_subscript info
       {| geometry_msgs.x := double.of_Z x; geometry_msgs.y := double.of_Z y;
          geometry_msgs.z := 0 |})
  = Ok (x + y * nav_msgs.width info).
Proof.
  intros Hx Hy Hwh. unfold plan_pixel_subscript. cbn [geometry_msgs.x geometry_msgs.y].
  set (w := nav_msgs.width info) in *. set (h := nav_msgs.height info) in *.
  assert (Hyw : y * w + w <= w * h) by nia.
  assert (Hi : is_integer (double.of_Z x + double.of_Z y * double.of_Z w) (x + y * w)).
  { assert (Hw : w <= w * h) by nia.
    apply add_is_integer.
    - apply of_Z_is_integer. lia.
    - apply mul_is_integer.
      + apply of_Z_is_integer. nia.
      + apply of_Z_is_integer. lia.
      + lia.
    - lia. }
  apply truncate_is_integer in Hi. apply to_integer_Ok. split; [exact Hi |].
  split; [nia |]. apply Z.le_trans with (2 ^ 53); [lia | vm_compute; discriminate].
Qed.

(** X18: the subscript that the Path Rasterizer computes in doubles for the cell
    (x, y) of a grid of fewer than 2^53 cells is x + y * width exactly, so that
    two cells have the same subscript only if they are the same cell, and
    the subscript is below width * height. *)
Theorem plan_subscripts_are_exact (info : nav_msgs.MapMetaData) (x y x' y' : Z) :
  0 <= x < nav_msgs.width info -> 0 <= y < nav_msgs.height info ->
  0 <= x' < nav_msgs.width info -> 0 <= y' < nav_msgs.height info ->
  nav_msgs.width info * nav_msgs.height info < 2 ^ 53 ->
  let subscript (cx cy : Z) :=
    double.to_size_t
      (plan_pixel_subscript info
         {| geometry_msgs.x := double.of_Z cx; geometry_msgs.y := double.of_Z cy;
            geometry_msgs.z := 0 |}) in
  subscript x y = Ok (x + y * nav_msgs.width info) /\
  x + y * nav_msgs.width info < nav_msgs.width info * nav_msgs.height info /\
  (subscript x y = subscript x' y' -> x = x' /\ y = y').
Proof.
  intros Hx Hy Hx' Hy' Hwh subscript. subst subscript. cbv beta.
  rewrite !plan_pixel_subscript_exact by assumption.
  split; [reflexivity |]. split; [nia |].
  intros [= E]. assert (y = y') by nia. subst y'. lia.
Qed.

(** What the second loop leaves in a cell: what was there, or a value of the
    plan. *)
Lemma write_plan_pixels_cells (P : Z -> Prop) (info : nav_msgs.MapMetaData) (total : Z)
    (coordinates : list geometry_msgs.Point) :
  forall (counter : Z) (data data' : list Z),
    (forall k v, counter <= k < counter + Z.of_nat (length coordinates) ->
                 plan_pixel total k = Ok v -> P v) ->
    write_plan_pixels info total counter coordinates data = Ok data' ->
    forall j : nat, data' !! j = data !! j \/ exists v, P v /\ data' !! j = Some v.
Proof.
  induction coordinates as [| a coordinates IH]; intros counter data data' Hv H j.
  - injection H as <-. now left.
  - apply write_plan_pixels_cons in H as (i & v & Hi & Hpix & Hlt & H).
    assert (Pv : P v) by (apply (Hv counter); [cbn [length]; lia | exact Hpix]).
    apply (IH (counter + 1) _ _) with (j := j) in H.
    + destruct H as [H | H]; [| now right].
      destruct (decide (j = Z.to_nat i)) as [-> | Hne].
      * right. exists v. split; [exact Pv |]. rewrite H. apply list_lookup_insert_eq.
        apply to_size_t_nonneg in Hi. lia.
      * left. rewrite H. now apply list_lookup_insert_ne.
    + intros k w Hk. apply Hv. cbn [length]. lia.
Qed.

(** The second loop over cells of the grid, for a plan of two pixels or more. *)
Lemma write_plan_pixels_defined (info : nav_msgs.MapMetaData) (total : Z)
    (coordinates : list geometry_msgs.Point) :
  2 <= total < 2 ^ 31 ->
  nav_msgs.width info * nav_msgs.height info < 2 ^ 53 ->
  Forall (fun a => exists x y : Z,
              a = {| geometry_msgs.x := double.of_Z x; geometry_msgs.y := double.of_Z y;
                     geometry_msgs.z := 0 |}
              /\ 0 <= x < nav_msgs.width info /\ 0 <= y < nav_msgs.height info) coordinates ->
  forall (counter : Z) (data : list Z),
    0 <= counter -> counter + Z.of_nat (length coordinates) <= total ->
    Z.of_nat (length data) = nav_msgs.width info * nav_msgs.height info ->
    exists data', write_plan_pixels info total counter coordinates data = Ok data'.
Proof.
  intros Ht Hwh Hall. induction Hall as [| a coordinates (x & y & -> & Hx & Hy) _ IH];
    intros counter data Hc Hroom Hlen.
  - now exists data.
  - cbn [length] in Hroom. cbn [write_plan_pixels].
    rewrite plan_pixel_subscript_exact by assumption. cbn [mbind result_bind].
    destruct (plan_pixel_range total counter) as (v & Hv & _); [lia | lia |].
    rewrite Hv. cbn [mbind result_bind].
    rewrite vector_set_in_range by nia. cbn [mbind result_bind].
    apply IH; [lia | lia | now rewrite length_insert].
Qed.

(** X19: on a grid of fewer than 2^53 cells whose buffer has width*height cells,
    the Path Rasterizer is defined exactly when the number of poses of the
    plan that fall into the grid is not 1, for every plan shorter than 2^31
    poses whose cells can be computed: no write goes outside the buffer.  It
    then leaves a buffer of the same length in which every cell holds what
    it held or a value within 0..50. *)
Theorem path_rasterizer_is_defined_unless_one_pixel (ros : Ros)
    (plan : list geometry_msgs.PoseStamped) (g : nav_msgs.OccupancyGrid)
    (coordinates : list geometry_msgs.Point) :
  nav_msgs.width (nav_msgs.info g) * nav_msgs.height (nav_msgs.info g) < 2 ^ 53 ->
  Z.of_nat (length (nav_msgs.data g))
  = nav_msgs.width (nav_msgs.info g) * nav_msgs.height (nav_msgs.info g) ->
  Z.of_nat (length plan) < 2 ^ 31 ->
  global_plan_map_coordinates ros g PoseStamped_0 [] plan = Ok coordinates ->
  (length coordinates = 1%nat -> add_global_path ros plan g = Undefined) /\
  (length coordinates <> 1%nat ->
   exists data',
     add_global_path ros plan g = Ok data' /\
     length data' = length (nav_msgs.data g) /\
     forall j : nat,
       data' !! j = nav_msgs.data g !! j \/ exists v, 0 <= v <= 50 /\ data' !! j = Some v).
Proof.
  intros Hwh Hlen Hplan Hc. unfold add_global_path. rewrite Hc. cbn [mbind result_bind].
  pose proof (global_plan_map_coordinates_cells _ _ _ _ _ _ Hc) as (new & E & Hnew & Hall).
  cbn [app] in E. subst new. rewrite wrap_s32_small by lia.
  split.
  - intros Hone. destruct coordinates as [| a [| b l]]; try discriminate Hone.
    apply write_plan_pixels_single.
  - intros Hne. destruct (decide (coordinates = [])) as [-> | Hnil].
    { exists (nav_msgs.data g). split; [reflexivity |]. split; [reflexivity | now left]. }
    assert (Htotal : 2 <= Z.of_nat (length coordinates) < 2 ^ 31).
    { destruct coordinates as [| a [| b l]];
        [congruence | exfalso; now apply Hne | cbn [length] in *; lia]. }
    destruct (write_plan_pixels_defined (nav_msgs.info g) _ coordinates Htotal Hwh Hall
                0 (nav_msgs.data g)) as [data' H]; [lia | lia | exact Hlen |].
    exists data'. split; [exact H |].
    pose proof (write_plan_pixels_untouched _ _ _ _ _ _ H) as [Hl _]. split; [exact Hl |].
    revert H. apply write_plan_pixels_cells.
    intros k v Hk Hv. destruct (plan_pixel_range _ k Htotal ltac:(lia)) as (v' & Hv' & Hr).
    rewrite Hv in Hv'. now injection Hv' as <-.
Qed.

(** ** A plan without transforms *)

(** Poses whose transformation throws are all given the cell of the pose
    that [pose_robot_base_frame] held before them. *)
Lemma global_plan_map_coordinates_stale (ros : Ros) (g : nav_msgs.OccupancyGrid)
    (pose : geometry_msgs.PoseStamped) (cx cy : Z) (plan : list geometry_msgs.PoseStamped) :
  let info := nav_msgs.info g in
  Forall (fun it => transformPose (tf_ ros) (std_msgs.frame_id (nav_msgs.header g))
                      (set_pose_stamp (std_msgs.stamp (nav_msgs.header g)) it) = None) plan ->
  double.to_int (spec_cellX info (getSizeInMetersX (costmap_ ros))
                   (geometry_msgs.x (geometry_msgs.position (geometry_msgs.pose pose)))) = Ok cx ->
  double.to_int (spec_cellY info (getSizeInMetersY (costmap_ ros))
                   (geometry_msgs.y (geometry_msgs.position (geometry_msgs.pose pose)))) = Ok cy ->
  0 <= cx < nav_msgs.width info -> 0 <= cy < nav_msgs.height info ->
  forall kept : list geometry_msgs.Point,
    global_plan_map_coordinates ros g pose kept plan
    = Ok (kept ++ replicate (length plan)
                    {| geometry_msgs.x := double.of_Z cx; geometry_msgs.y := double.of_Z cy;
                       geometry_msgs.z := 0 |}).
Proof.
  intros info Hfail Hx Hy Hcx Hcy. unfold spec_cellX in Hx. unfold spec_cellY in Hy.
  induction Hfail as [| it plan Hit _ IH]; intros kept.
  - cbn. now rewrite app_nil_r.
  - cbn [global_plan_map_coordinates]. rewrite (transformed_pose_failure _ _ _ _ Hit).
    fold info. rewrite Hx. cbn [mbind result_bind]. rewrite Hy. cbn [mbind result_bind].
    rewrite in_bounds_decide, bool_decide_eq_true_2 by (split; assumption).
    rewrite IH. cbn [length replicate]. now rewrite <- app_assoc.
Qed.

(** Pixels that share one cell: the cell gets the value of the last. *)
Lemma write_plan_pixels_replicate (info : nav_msgs.MapMetaData) (total : Z)
    (a : geometry_msgs.Point) (i : Z) (n : nat) :
  2 <= total < 2 ^ 31 ->
  double.to_size_t (plan_pixel_subscript info a) = Ok i ->
  forall (counter : Z) (data : list Z) (v : Z),
    0 <= counter -> counter + Z.of_nat (S n) <= total ->
    i < Z.of_nat (length data) ->
    plan_pixel total (counter + Z.of_nat n) = Ok v ->
    write_plan_pixels info total counter (replicate (S n) a) data
    = Ok (<[Z.to_nat i := v]> data).
Proof.
  intros Ht Hi. induction n as [| n IH]; intros counter data v Hc Hroom Hlt Hv.
  - cbn [replicate write_plan_pixels]. rewrite Hi. cbn [mbind result_bind].
    rewrite Z.add_0_r in Hv. rewrite Hv. cbn [mbind result_bind].
    now rewrite vector_set_in_range.
  - change (replicate (S (S n)) a) with (a :: replicate (S n) a). cbn [write_plan_pixels].
    rewrite Hi. cbn [mbind result_bind].
    destruct (plan_pixel_range total counter) as (v0 & Hv0 & _); [lia | lia |].
    rewrite Hv0. cbn [mbind result_bind].
    rewrite vector_set_in_range by assumption. cbn [mbind result_bind].
    rewrite (IH (counter + 1) _ v); [| lia | lia | now rewrite length_insert |].
    + now rewrite list_insert_insert_eq.
    + rewrite <- Hv. f_equal. lia.
Qed.

(** X20: when no pose of a plan of two or more (and fewer than 2^31) can be
    transformed, the whole plan collapses into one cell: every pose is
    rasterized at the position that the constructor left in
    [pose_robot_base_frame], (0, 0), and that cell gets 0, the value of the
    last pixel; no other cell is written.  The cell of (0, 0) is taken to be
    a cell of the grid, and the buffer to have width*height < 2^53 cells. *)
Theorem plan_collapses_into_one_cell_without_transforms (ros : Ros)
    (plan : list geometry_msgs.PoseStamped) (g : nav_msgs.OccupancyGrid) (cx cy : Z) :
  let info := nav_msgs.info g in
  Forall (fun it => transformPose (tf_ ros) (std_msgs.frame_id (nav_msgs.header g))
                      (set_pose_stamp (std_msgs.stamp (nav_msgs.header g)) it) = None) plan ->
  double.to_int (spec_cellX info (getSizeInMetersX (costmap_ ros)) 0) = Ok cx ->
  double.to_int (spec_cellY info (getSizeInMetersY (costmap_ ros)) 0) = Ok cy ->
  0 <= cx < nav_msgs.width info -> 0 <= cy < nav_msgs.height info ->
  nav_msgs.width info * nav_msgs.height info < 2 ^ 53 ->
  Z.of_nat (length (nav_msgs.data g)) = nav_msgs.width info * nav_msgs.height info ->
  2 <= Z.of_nat (length plan) < 2 ^ 31 ->
  add_global_path ros plan g
  = Ok (<[Z.to_nat (cx + cy * nav_msgs.width info) := 0]> (nav_msgs.data g)).
Proof.
  intros info Hfail Hx Hy Hcx Hcy Hwh Hlen Hplan. unfold add_global_path.
  rewrite (global_plan_map_coordinates_stale ros g PoseStamped_0 cx cy plan Hfail Hx Hy Hcx Hcy).
  cbn [mbind result_bind app]. rewrite length_replicate, wrap_s32_small by lia. fold info.
  destruct (length plan) as [| n] eqn:En; [cbn in Hplan; lia |].
  apply write_plan_pixels_replicate; try lia.
  - now apply plan_pixel_subscript_exact.
  - nia.
  - rewrite <- (plan_pixel_last (Z.of_nat (S n))) by lia. f_equal. lia.
Qed.

(** ** A scan without a sample of the valid range *)

(** X21: a scan without a sample of the valid range (an empty scan among them)
    on a planner without plan is always handled: the callback returns,
    whatever the transforms and the costmap are, and publishes a grid of
    width*height cells (on 32 bits) that are all at 70, with the stamp of
    the scan. *)
Theorem scan_without_valid_sample_publishes_the_background (cos sin : float -> float)
    (ros : Ros) (p : NeuroLocalPlannerWrapper) (laser_scan : sensor_msgs.LaserScan) :
  global_plan_ p = [] ->
  Forall (fun r => (r <=? sensor_msgs.range_min laser_scan)%float = true
                   \/ (sensor_msgs.range_max laser_scan <=? r)%float = true
                   \/ is_nan r = true
                   \/ is_nan (sensor_msgs.range_min laser_scan) = true
                   \/ is_nan (sensor_msgs.range_max laser_scan) = true)
         (sensor_msgs.ranges laser_scan) ->
  exists (p' : NeuroLocalPlannerWrapper) (g : nav_msgs.OccupancyGrid)
         (stacked : list Publication),
    getLaserScanPoints cos sin ros p laser_scan = Ok (p', customized_costmap_pub g :: stacked) /\
    nav_msgs.data g
    = replicate (Z.to_nat (mul_u32 (nav_msgs.width (nav_msgs.info g))
                                   (nav_msgs.height (nav_msgs.info g)))) 70 /\
    nav_msgs.data (customized_costmap_ p') = nav_msgs.data g /\
    std_msgs.stamp (nav_msgs.header g) = std_msgs.stamp (sensor_msgs.header laser_scan).
Proof.
  intros Hplan Hranges.
  eexists _, _, _. split.
  - apply (getLaserScanPoints_Ok cos sin ros p laser_scan).
    + now apply add_laser_scan_points_ignored.
    + rewrite initialize_or_clear_global_plan, Hplan. apply add_global_path_empty.
  - cbn [nav_msgs.data nav_msgs.info nav_msgs.header set_grid_data set_grid_header
         customized_costmap_ set_transition_msg_ set_customized_costmap_
         set_header_stamp std_msgs.stamp].
    split; [apply initialize_or_clear_data |]. split; reflexivity.
Qed.

(** ** The cells of the stacked units *)

(** The grids that a run of the callback publishes hold 70, 100 and values
    of the plan. *)
Lemma getLaserScanPoints_each_cells (cos sin : float -> float)
    (scans : list (Ros * sensor_msgs.LaserScan)) :
  forall (p p' : NeuroLocalPlannerWrapper) (published : list Publication),
    Z.of_nat (length (global_plan_ p)) < 2 ^ 31 ->
    getLaserScanPoints_each cos sin p scans = Ok (p', published) ->
    Forall (fun g => Forall (fun c => c = 70 \/ c = 100 \/ 0 <= c <= 50) (nav_msgs.data g))
           (costmaps published).
Proof.
  induction scans as [| [ros laser_scan] scans IH]; intros p p' published Hplan H.
  - injection H as <- <-. constructor.
  - cbn [getLaserScanPoints_each] in H.
    apply bind_Ok in H as ([p1 pub1] & H1 & H). apply bind_Ok in H as ([p2 pub2] & H2 & H).
    injection H as <- <-.
    pose proof (getLaserScanPoints_cells _ _ _ _ _ _ _ Hplan H1) as Hcells.
    apply getLaserScanPoints_step in H1 as (Hp & _ & _ & _ & _ & _ & _ & _ & _ & _ & _ & g & Hg & Hgd).
    apply IH in H2; [| now rewrite Hp].
    rewrite costmaps_app, Hg. cbn [app]. constructor; [now rewrite Hgd | exact H2].
Qed.

Lemma stacked_units_cells (P : Z -> Prop) (gs : list nav_msgs.OccupancyGrid) :
  Forall (fun g => Forall P (nav_msgs.data g)) gs -> Forall (Forall P) (stacked_units gs).
Proof.
  assert (Hmain : forall (n : nat) (gs : list nav_msgs.OccupancyGrid),
            (length gs <= n)%nat ->
            Forall (fun g => Forall P (nav_msgs.data g)) gs ->
            Forall (Forall P) (stacked_units gs)).
  { clear gs. induction n as [| n IH]; intros gs Hn H.
    - destruct gs; [constructor | simpl in Hn; lia].
    - destruct gs as [| g1 [| g2 [| g3 [| g4 [| g5 gs]]]]]; try constructor.
      + apply Forall_cons in H as [H1 H]. apply Forall_cons in H as [H2 H].
        apply Forall_cons in H as [H3 H]. apply Forall_cons in H as [H4 H].
        repeat (apply Forall_app; split); assumption.
      + apply IH; [cbn [length] in Hn; lia |].
        do 5 (apply Forall_cons in H as [_ H]). exact H. }
  apply (Hmain (length gs)). lia.
Qed.

(** X22: over any run of scans from the first one with a plan shorter than 2^31
    poses, on a costmap of at least one cell and fewer than 2^30, every cell
    of every stacked unit that the callback publishes holds 70, 100 or a
    value of the plan within 0..50. *)
Theorem stacked_units_hold_70_100_or_a_plan_value (cos sin : float -> float)
    (ros : Ros) (laser_scan : sensor_msgs.LaserScan)
    (scans : list (Ros * sensor_msgs.LaserScan)) (p p' : NeuroLocalPlannerWrapper)
    (published : list Publication) :
  is_customized_costmap_initialized_ p = false ->
  state_representation (transition_msg_ p) = [] ->
  0 < getSizeInCellsX (costmap_ ros) * getSizeInCellsY (costmap_ ros) ->
  4 * (getSizeInCellsX (costmap_ ros) * getSizeInCellsY (costmap_ ros)) < 2 ^ 32 ->
  Z.of_nat (length (global_plan_ p)) < 2 ^ 31 ->
  getLaserScanPoints_each cos sin p ((ros, laser_scan) :: scans) = Ok (p', published) ->
  Forall (fun m => Forall (fun c => c = 70 \/ c = 100 \/ 0 <= c <= 50) (state_representation m))
         (transitions published).
Proof.
  intros Hfirst Hempty Hpos Hfit Hplan H.
  pose proof (getLaserScanPoints_each_cells _ _ _ _ _ _ Hplan H) as Hcells.
  apply getLaserScanPoints_each_buffer in H as (gs & Hdata & _ & Hall & Htrans & _).
  set (t := transition_msg_ (initialize_or_clear ros p)) in *.
  assert (Ht : depth t = 4 /\ state_representation t = []
               /\ width t = getSizeInCellsX (costmap_ ros)
               /\ height t = getSizeInCellsY (costmap_ ros)).
  { subst t. unfold initialize_or_clear. rewrite Hfirst. cbn. now rewrite Hempty. }
  destruct Ht as (Hd & He & Hw & Hh).
  destruct (buffer_costmaps_run (length gs) gs t) as (Hunits & _);
    try assumption; try (rewrite Hw, Hh; assumption); [lia | |].
  { eapply Forall_impl; [exact Hall |]. intros g (Hinfo & _ & Hlen).
    rewrite Hlen, Hinfo, Hw, Hh. unfold initialize_or_clear. rewrite Hfirst. cbn.
    rewrite Z2Nat.id, mul_u32_small by (try apply wrap_u32_range; lia). reflexivity. }
  apply Forall_fmap. unfold compose.
  change (Forall (Forall (fun c => c = 70 \/ c = 100 \/ 0 <= c <= 50))
            (state_representation <$> transitions published)).
  rewrite Htrans, Hunits, (stacked_units_data gs (costmaps published) Hdata).
  now apply stacked_units_cells.
Qed.

(** ** A costmap without cells *)

(** A call on an empty buffer whose full length is 0. *)
Lemma getLaserScanPoints_empty_buffer (cos sin : float -> float) (ros : Ros)
    (p p' : NeuroLocalPlannerWrapper) (laser_scan : sensor_msgs.LaserScan)
    (published : list Publication) :
  let t := transition_msg_ (initialize_or_clear ros p) in
  state_representation t = [] -> full_length t = 0 ->
  getLaserScanPoints cos sin ros p laser_scan = Ok (p', published) ->
  state_representation (transition_msg_ p') = [] /\
  full_length (transition_msg_ p') = 0 /\
  exists m, transitions published = [m] /\ state_representation m = [].
Proof.
  intros t Hempty Hfull H.
  apply getLaserScanPoints_step in H as (_ & _ & _ & _ & _ & _ & _ & _ & _ & Ht & Htr & _).
  fold t in Ht, Htr. rewrite Ht, Htr.
  destruct (buffer_costmap_full t (customized_costmap_ p')) as (m & t' & E & Hm & _ & _ & _ & _ & Ht' & Hw & Hh & Hd).
  { rewrite Hempty, Hfull. reflexivity. }
  rewrite E. cbn [fst snd]. split; [exact Ht' |]. split.
  - unfold full_length in *. now rewrite Hw, Hh, Hd.
  - exists m. split; [reflexivity | congruence].
Qed.

Lemma getLaserScanPoints_each_empty_buffer (cos sin : float -> float)
    (scans : list (Ros * sensor_msgs.LaserScan)) :
  forall (p p' : NeuroLocalPlannerWrapper) (published : list Publication),
    is_customized_costmap_initialized_ p = true ->
    state_representation (transition_msg_ p) = [] -> full_length (transition_msg_ p) = 0 ->
    getLaserScanPoints_each cos sin p scans = Ok (p', published) ->
    length (transitions published) = length scans /\
    Forall (fun m => state_representation m = []) (transitions published).
Proof.
  induction scans as [| [ros laser_scan] scans IH]; intros p p' published Hrun Hempty Hfull H.
  - injection H as <- <-. split; [reflexivity | constructor].
  - cbn [getLaserScanPoints_each] in H.
    apply bind_Ok in H as ([p1 pub1] & H1 & H). apply bind_Ok in H as ([p2 pub2] & H2 & H).
    injection H as <- <-.
    pose proof (getLaserScanPoints_step _ _ _ _ _ _ _ H1) as (_ & _ & _ & _ & Hrun1 & _).
    apply getLaserScanPoints_empty_buffer in H1 as (He1 & Hf1 & m & Hm & Hme);
      [| now rewrite (initialize_or_clear_running ros p Hrun)
       | now rewrite (initialize_or_clear_running ros p Hrun)].
    apply (IH p1 p2 pub2 Hrun1 He1 Hf1) in H2 as [Hlen Hall].
    rewrite transitions_app, Hm. cbn [app length]. split; [now rewrite Hlen |].
    constructor; assumption.
Qed.

(** X23: on a costmap without cells (width*height is 0 on 32 bits) the buffer
    counts as full while it is empty: from the first scan on, every call
    that returns publishes one stacked unit, and every stacked unit is
    empty. *)
Theorem costmap_without_cells_publishes_empty_units (cos sin : float -> float)
    (ros : Ros) (laser_scan : sensor_msgs.LaserScan)
    (scans : list (Ros * sensor_msgs.LaserScan)) (p p' : NeuroLocalPlannerWrapper)
    (published : list Publication) :
  is_customized_costmap_initialized_ p = false ->
  state_representation (transition_msg_ p) = [] ->
  mul_u32 (getSizeInCellsX (costmap_ ros)) (getSizeInCellsY (costmap_ ros)) = 0 ->
  getLaserScanPoints_each cos sin p ((ros, laser_scan) :: scans) = Ok (p', published) ->
  length (transitions published) = S (length scans) /\
  Forall (fun m => state_representation m = []) (transitions published).
Proof.
  intros Hfirst Hempty Hcells H.
  cbn [getLaserScanPoints_each] in H.
  apply bind_Ok in H as ([p1 pub1] & H1 & H). apply bind_Ok in H as ([p2 pub2] & H2 & H).
  injection H as <- <-.
  pose proof (getLaserScanPoints_step _ _ _ _ _ _ _ H1) as (_ & _ & _ & _ & Hrun1 & _).
  apply getLaserScanPoints_empty_buffer in H1 as (He1 & Hf1 & m & Hm & Hme).
  - apply (getLaserScanPoints_each_empty_buffer cos sin scans p1 p2 pub2 Hrun1 He1 Hf1) in H2
      as [Hlen Hall].
    rewrite transitions_app, Hm. cbn [app length]. split; [now rewrite Hlen |].
    constructor; assumption.
  - unfold initialize_or_clear. rewrite Hfirst. cbn. exact Hempty.
  - unfold initialize_or_clear. rewrite Hfirst. unfold full_length. cbn. now rewrite Hcells.
Qed.

(** ** Coordinates that are not numbers *)

(** A NaN goes through the operations of the index computation. *)
Lemma sub_nan_l (x y : float) : Prim2SF x = S754_nan -> Prim2SF (x - y) = S754_nan.
Proof. intros H. now rewrite FloatAxioms.sub_spec, H. Qed.

Lemma div_nan_l (x y : float) : Prim2SF x = S754_nan -> Prim2SF (x / y) = S754_nan.
Proof. intros H. now rewrite FloatAxioms.div_spec, H. Qed.

Lemma mul_nan_l (x y : float) : Prim2SF x = S754_nan -> Prim2SF (x * y) = S754_nan.
Proof. intros H. now rewrite FloatAxioms.mul_spec, H. Qed.

Lemma mul_nan_r (x y : float) : Prim2SF y = S754_nan -> Prim2SF (x * y) = S754_nan.
Proof.
  intros H. rewrite FloatAxioms.mul_spec, H. unfold SF64mul, SFmul.
  now destruct (Prim2SF x).
Qed.

Lemma add_nan_r (x y : float) : Prim2SF y = S754_nan -> Prim2SF (x + y) = S754_nan.
Proof.
  intros H. rewrite FloatAxioms.add_spec, H. unfold SF64add, SFadd.
  now destruct (Prim2SF x).
Qed.

Lemma add_nan_l (x y : float) : Prim2SF x = S754_nan -> Prim2SF (x + y) = S754_nan.
Proof. intros H. now rewrite FloatAxioms.add_spec, H. Qed.

Lemma round_nan_to_int (x : float) :
  Prim2SF x = S754_nan -> double.to_int (double.round x) = Undefined.
Proof.
  intros H. unfold double.round. rewrite H.
  unfold double.to_int, double.to_integer, double.truncate. now rewrite H.
Qed.

(** The index of a coordinate that is not a number. *)
Lemma index_of_nan (v origin size cells : float) :
  Prim2SF v = S754_nan ->
  double.to_int (double.round ((v - origin) / size * cells - 0.5)) = Undefined.
Proof.
  intros H. apply round_nan_to_int, sub_nan_l, mul_nan_l, div_nan_l, sub_nan_l, H.
Qed.

Lemma to_int_bind_Undefined {B : Type} (v : float) (k : Z -> result B) :
  (forall z, k z = Undefined) -> double.to_int v ≫= k = Undefined.
Proof.
  intros H. destruct (to_integer_defined_or_not (- 2 ^ 31) (2 ^ 31 - 1) v) as [[z E] | E];
    unfold double.to_int; rewrite E; [apply H | reflexivity].
Qed.

(** The first loop of the Path Rasterizer on a plan with such a pose. *)
Lemma global_plan_map_coordinates_nan (ros : Ros) (g : nav_msgs.OccupancyGrid)
    (it q : geometry_msgs.PoseStamped) (rest : list geometry_msgs.PoseStamped) :
  transformPose (tf_ ros) (std_msgs.frame_id (nav_msgs.header g))
    (set_pose_stamp (std_msgs.stamp (nav_msgs.header g)) it) = Some q ->
  is_nan (geometry_msgs.x (geometry_msgs.position (geometry_msgs.pose q))) = true
  \/ is_nan (geometry_msgs.y (geometry_msgs.position (geometry_msgs.pose q))) = true ->
  forall (before : list geometry_msgs.PoseStamped) (pose : geometry_msgs.PoseStamped)
         (kept : list geometry_msgs.Point),
    global_plan_map_coordinates ros g pose kept (before ++ it :: rest) = Undefined.
Proof.
  intros Hq Hnan. induction before as [| b before IH]; intros pose kept.
  - cbn [app global_plan_map_coordinates]. cbv zeta. unfold transformed_pose. rewrite Hq.
    destruct Hnan as [Hx | Hy].
    + rewrite (index_of_nan _ _ _ _ (is_nan_Prim2SF _ Hx)). reflexivity.
    + apply to_int_bind_Undefined. intros x.
      rewrite (index_of_nan _ _ _ _ (is_nan_Prim2SF _ Hy)). reflexivity.
  - cbn [app global_plan_map_coordinates]. cbv zeta.
    apply to_int_bind_Undefined. intros x. apply to_int_bind_Undefined. intros y. apply IH.
Qed.

(** The Scan Rasterizer under a transform whose origin is not a number. *)
Lemma add_laser_scan_point_nan (cos sin : float -> float) (c : Costmap2D)
    (laser_scan : sensor_msgs.LaserScan) (t : StampedTransform) (info : nav_msgs.MapMetaData)
    (i : Z) (r : float) (data : list Z) :
  is_nan (getX t) = true ->
  (sensor_msgs.range_min laser_scan <? r)%float && (r <? sensor_msgs.range_max laser_scan)%float
  = true ->
  add_laser_scan_point cos sin c laser_scan t info i r data = Undefined.
Proof.
  intros Hnan Hrange. apply is_nan_Prim2SF in Hnan.
  unfold add_laser_scan_point, position_robot_base_frame. rewrite Hrange. cbv zeta.
  rewrite (index_of_nan (cos (yaw t) * _ - _)); [reflexivity |].
  apply sub_nan_l, mul_nan_r, add_nan_r, Hnan.
Qed.

(** X24: a coordinate that is not a number makes the callback undefined, since
    it reaches a conversion to [int].  A plan with a pose that [transformPose]
    turns into a pose with a NaN in x or y makes the Path Rasterizer
    undefined, wherever the pose stands in the plan.  A transform whose
    origin has a NaN in x makes the Scan Rasterizer undefined as soon as the
    scan has a sample of the valid range. *)
Theorem nan_coordinates_are_undefined (cos sin : float -> float) (ros : Ros)
    (g : nav_msgs.OccupancyGrid) :
  (forall (it q : geometry_msgs.PoseStamped) (before rest : list geometry_msgs.PoseStamped),
      transformPose (tf_ ros) (std_msgs.frame_id (nav_msgs.header g))
        (set_pose_stamp (std_msgs.stamp (nav_msgs.header g)) it) = Some q ->
      is_nan (geometry_msgs.x (geometry_msgs.position (geometry_msgs.pose q))) = true
      \/ is_nan (geometry_msgs.y (geometry_msgs.position (geometry_msgs.pose q))) = true ->
      add_global_path ros (before ++ it :: rest) g = Undefined) /\
  (forall (laser_scan : sensor_msgs.LaserScan) (t : StampedTransform)
          (before rest : list float) (r : float) (i : Z) (data : list Z),
      is_nan (getX t) = true ->
      Forall (fun r' => (sensor_msgs.range_min laser_scan <? r')%float
                        && (r' <? sensor_msgs.range_max laser_scan)%float = false) before ->
      (sensor_msgs.range_min laser_scan <? r)%float
      && (r <? sensor_msgs.range_max laser_scan)%float = true ->
      add_laser_scan_points cos sin (costmap_ ros) laser_scan t (nav_msgs.info g) i
        (before ++ r :: rest) data = Undefined).
Proof.
  split.
  - intros it q before rest Hq Hnan. unfold add_global_path.
    now rewrite (global_plan_map_coordinates_nan ros g it q rest Hq Hnan).
  - intros laser_scan t before rest r i data Hnan Hbefore Hr. revert i.
    induction Hbefore as [| r' before Hr' _ IH]; intros i.
    + cbn [app add_laser_scan_points]. now rewrite add_laser_scan_point_nan.
    + cbn [app add_laser_scan_points]. rewrite add_laser_scan_point_ignored by exact Hr'.
      cbn [mbind result_bind]. apply IH.
Qed.

(** ** The theorems at concrete inputs *)

Lemma clear_costmap_background_witness :
  is_customized_costmap_initialized_ scenario.after_first_scan = true /\
  nav_msgs.data (customized_costmap_ scenario.after_first_scan) !! scenario.cell 60 40 = Some 100 /\
  Forall (fun c => c = 70)
    (nav_msgs.data (customized_costmap_
       (initialize_or_clear scenario.ros_80 scenario.after_first_scan))) /\
  Z.of_nat (length (nav_msgs.data (customized_costmap_
       (initialize_or_clear scenario.ros_80 scenario.after_first_scan)))) = 80 * 80.
Proof.
  assert (Hrun : is_customized_costmap_initialized_ scenario.after_first_scan = true)
    by (vm_compute; reflexivity).
  assert (Hsize : nav_msgs.width (nav_msgs.info (customized_costmap_ scenario.after_first_scan))
                  * nav_msgs.height (nav_msgs.info (customized_costmap_ scenario.after_first_scan))
                  = 6400) by (vm_compute; reflexivity).
  destruct (clear_costmap_background scenario.ros_80 scenario.after_first_scan Hrun)
    as (_ & Hinfo & Hall & Hlen); [rewrite Hsize; lia |].
  split; [exact Hrun |]. split; [vm_compute; reflexivity |]. split; [exact Hall |].
  rewrite Hlen, Hinfo. exact Hsize.
Defined.

(** C1 as the claim words it fails: after exactly four scans on a 2 x 2 costmap
    no stacked unit has been published, and the accumulation holds the sixteen
    cells of the four grids. *)
Lemma four_scans_publish_no_stacked_unit :
  let run := getLaserScanPoints_each scenario.cos_series scenario.sin_series scenario.started
               (replicate 4 (scenario.ros_2, scenario.scan [])) in
  (exists p published,
      run = Ok (p, published) /\
      transitions published = [] /\
      length (costmaps published) = 4%nat /\
      state_representation (transition_msg_ p) = replicate 16 70) /\
  ~ (exists p published m,
        run = Ok (p, published) /\
        transitions published = [m] /\
        state_representation (transition_msg_ p) = []).
Proof.
  split.
  - eexists _, _. split; [vm_compute; reflexivity |]. repeat split.
  - intros (p & published & m & Hrun & Hm & _). vm_compute in Hrun.
    injection Hrun as _ <-. discriminate Hm.
Qed.

Lemma buffer_publishes_on_the_push_after_the_fourth_witness :
  let g := scenario.grid_2 in
  (buffer_costmaps scenario.buffer_2 [g 70; g 100; g 50; g 0]).2 = [] /\
  state_representation (buffer_costmaps scenario.buffer_2 [g 70; g 100; g 50; g 0]).1
  = replicate 4 70 ++ replicate 4 100 ++ replicate 4 50 ++ replicate 4 0 /\
  (exists m,
      (buffer_costmaps scenario.buffer_2 [g 70; g 100; g 50; g 0; g 25]).2 = [transition_pub m] /\
      state_representation m
      = replicate 4 70 ++ replicate 4 100 ++ replicate 4 50 ++ replicate 4 0 /\
      Z.of_nat (length (state_representation m)) = 2 * 2 * 4) /\
  state_representation (buffer_costmaps scenario.buffer_2 [g 70; g 100; g 50; g 0; g 25]).1 = [].
Proof.
  intros g.
  destruct (buffer_publishes_on_the_push_after_the_fourth scenario.buffer_2
              (g 70) (g 100) (g 50) (g 0) (g 25))
    as (_ & _ & _ & _ & H4 & Hacc & Hfifth & Hempty);
    [reflexivity | reflexivity | reflexivity | reflexivity | repeat constructor |].
  repeat split; assumption.
Defined.

Lemma single_plan_pixel_is_undefined_witness :
  global_plan_map_coordinates scenario.ros_80 scenario.grid_80 PoseStamped_0 []
    [scenario.pose_at "map" 1 0]
  = Ok [{| geometry_msgs.x := 60; geometry_msgs.y := 40; geometry_msgs.z := 0 |}] /\
  PrimFloat.is_nan (plan_pixel_value 1 0) = true /\
  add_global_path scenario.ros_80 [scenario.pose_at "map" 1 0] scenario.grid_80 = Undefined.
Proof.
  assert (H : global_plan_map_coordinates scenario.ros_80 scenario.grid_80 PoseStamped_0 []
                [scenario.pose_at "map" 1 0]
              = Ok [{| geometry_msgs.x := 60; geometry_msgs.y := 40; geometry_msgs.z := 0 |}])
    by (vm_compute; reflexivity).
  destruct (single_plan_pixel_is_undefined scenario.ros_80 [scenario.pose_at "map" 1 0]
              scenario.grid_80 _ H) as (Hnan & _ & Hadd).
  repeat split; assumption.
Defined.

(** C6 as the claim words it fails: the point (1e20, 0) of the grid frame has
    the index cellX = 2e21, outside [0, 80), so that the mapping declares it
    invalid and no cell is to be written.  The code converts the index to
    [int] before it compares it with the bounds, and 2e21 is no value of
    [int]: the conversion is undefined, for a sample in the Scan Rasterizer
    and for a pose in the Path Rasterizer, and neither returns with the cells
    as they were. *)
Lemma world_to_cell_beyond_int :
  let info := nav_msgs.info scenario.grid_80 in
  let far := {| getX := 1e20; getY := 0; yaw := 0 |} in
  let laser_scan := scenario.scan [1%float] in
  let it := scenario.pose_at "map" 1e20 0 in
  (exists cellX : Z,
      double.truncate (spec_cellX info 4 1e20) = Some cellX /\ 2 ^ 31 <= cellX) /\
  spec_worldToCell info 4 4 1e20 0 = None /\
  (* a sample of the valid range at this point *)
  (sensor_msgs.range_min laser_scan <? 1)%float && (1 <? sensor_msgs.range_max laser_scan)%float
  = true /\
  position_robot_base_frame scenario.cos_series scenario.sin_series laser_scan far 0 1
  = (1e20%float, 0%float) /\
  add_laser_scan_point scenario.cos_series scenario.sin_series scenario.costmap_80 laser_scan
    far info 0 1 scenario.background = Undefined /\
  add_laser_scan_point scenario.cos_series scenario.sin_series scenario.costmap_80 laser_scan
    far info 0 1 scenario.background <> Ok scenario.background /\
  (* a pose of the plan at this point *)
  geometry_msgs.position
    (geometry_msgs.pose (transformed_pose scenario.ros_80 scenario.grid_80 PoseStamped_0 it))
  = {| geometry_msgs.x := 1e20; geometry_msgs.y := 0; geometry_msgs.z := 0 |} /\
  global_plan_map_coordinates scenario.ros_80 scenario.grid_80 PoseStamped_0 [] [it] = Undefined /\
  global_plan_map_coordinates scenario.ros_80 scenario.grid_80 PoseStamped_0 [] [it] <> Ok [].
Proof.
  intros info far laser_scan it.
  assert (Hscan : add_laser_scan_point scenario.cos_series scenario.sin_series
                    scenario.costmap_80 laser_scan far info 0 1 scenario.background = Undefined)
    by (vm_compute; reflexivity).
  assert (Hpath : global_plan_map_coordinates scenario.ros_80 scenario.grid_80 PoseStamped_0 []
                    [it] = Undefined) by (vm_compute; reflexivity).
  split; [| split; [| split; [| split; [| split; [| split; [| split; [| split]]]]]]].
  - eexists. split; [vm_compute; reflexivity | vm_compute; discriminate].
  - vm_compute; reflexivity.
  - vm_compute; reflexivity.
  - vm_compute; reflexivity.
  - exact Hscan.
  - rewrite Hscan. discriminate.
  - vm_compute; reflexivity.
  - exact Hpath.
  - rewrite Hpath. discriminate.
Qed.

Lemma both_rasterizers_map_world_to_cell_witness :
  let info := nav_msgs.info scenario.grid_80 in
  let laser_scan := scenario.scan [1%float] in
  double.truncate (spec_cellX info 4 1) = Some 60 /\
  double.truncate (spec_cellY info 4 0) = Some 40 /\
  spec_worldToCell info 4 4 1 0 = Some (60, 40) /\
  add_laser_scan_point scenario.cos_series scenario.sin_series scenario.costmap_80 laser_scan
    scenario.identity info 0 1 scenario.background
  = Ok (<[3260%nat := 100]> scenario.background) /\
  global_plan_map_coordinates scenario.ros_80 scenario.grid_80 PoseStamped_0 []
    [scenario.pose_at "map" 1 0; scenario.pose_at "map" 9 9]
  = Ok [{| geometry_msgs.x := 60; geometry_msgs.y := 40; geometry_msgs.z := 0 |}].
Proof.
  intros info laser_scan.
  assert (Hx : double.truncate (spec_cellX info 4 1) = Some 60) by reflexivity.
  assert (Hy : double.truncate (spec_cellY info 4 0) = Some 40) by reflexivity.
  destruct (both_rasterizers_map_world_to_cell scenario.cos_series scenario.sin_series
              scenario.ros_80 scenario.grid_80 laser_scan scenario.identity 0 1%float
              scenario.background PoseStamped_0 (scenario.pose_at "map" 1 0) []
              [scenario.pose_at "map" 9 9] 1%float 0%float 60 40 Hx Hy)
    as (_ & _ & _ & Hscan & Hpath); [lia | lia |].
  assert (Hspec : spec_worldToCell info 4 4 1 0 = Some (60, 40)) by reflexivity.
  split; [exact Hx |]. split; [exact Hy |]. split; [exact Hspec |]. split.
  - etransitivity; [apply Hscan; vm_compute; (reflexivity || discriminate) | reflexivity].
  - etransitivity; [apply Hpath; reflexivity | vm_compute; reflexivity].
Defined.


Lemma sample_at_range_2_is_dropped_witness :
  scenario.cos_series 0 = 1%float /\ scenario.sin_series 0 = 0%float /\
  exists p' g published,
    getLaserScanPoints scenario.cos_series scenario.sin_series scenario.ros_80 scenario.started
      (scenario.scan [2%float])
    = Ok (p', customized_costmap_pub g :: published) /\
    nav_msgs.data g = replicate (Z.to_nat 6400) 70 /\
    nav_msgs.data (customized_costmap_ p') = replicate (Z.to_nat 6400) 70.
Proof.
  split; [reflexivity |]. split; [reflexivity |].
  apply (sample_at_range_2_is_dropped scenario.cos_series scenario.sin_series scenario.started);
    [reflexivity | reflexivity | reflexivity | left; reflexivity].
Defined.

Lemma sample_at_range_1_marks_cell_60_40_witness :
  scenario.cos_series 0 = 1%float /\ scenario.sin_series 0 = 0%float /\
  exists p' g published,
    getLaserScanPoints scenario.cos_series scenario.sin_series scenario.ros_80 scenario.started
      (scenario.scan [1%float])
    = Ok (p', customized_costmap_pub g :: published) /\
    nav_msgs.data g = <[scenario.cell 60 40 := 100]> (replicate (Z.to_nat 6400) 70).
Proof.
  split; [reflexivity |]. split; [reflexivity |].
  apply (sample_at_range_1_marks_cell_60_40 scenario.cos_series scenario.sin_series
           scenario.started); [reflexivity | reflexivity | reflexivity | left; reflexivity].
Defined.

(** C3 as the claim words it fails: in its scenario the cell (59, 39) is left
    at 70; the cell set to 100 is (60, 40), since [round] takes 59.5 to 60 and
    39.5 to 40. *)
Lemma sample_at_range_1_leaves_cell_59_39 :
  let cells :=
    published_data (getLaserScanPoints scenario.cos_series scenario.sin_series scenario.ros_80
                      scenario.started (scenario.scan [1%float])) in
  (double.round 59.5 = 60%float /\ double.round 39.5 = 40%float) /\
  cells ≫= (.!! scenario.cell 59 39) = Some 70 /\
  cells ≫= (.!! scenario.cell 60 40) = Some 100 /\
  cells ≫= (.!! scenario.cell 59 39) <> Some 100.
Proof.
  intros cells. split; [split; reflexivity |].
  assert (H : cells ≫= (.!! scenario.cell 59 39) = Some 70) by (vm_compute; reflexivity).
  split; [exact H |]. split; [vm_compute; reflexivity |]. rewrite H. discriminate.
Qed.

Lemma first_scan_is_rasterized_and_published_witness :
  let marked := <[scenario.cell 60 40 := 100]> scenario.background in
  is_customized_costmap_initialized_ scenario.started = false /\
  is_customized_costmap_initialized_ scenario.after_first_scan = true /\
  (exists p' g published,
      getLaserScanPoints scenario.cos_series scenario.sin_series scenario.ros_80 scenario.started
        (scenario.scan [1%float])
      = Ok (p', customized_costmap_pub g :: published) /\
      nav_msgs.info g = nav_msgs.info scenario.grid_80 /\
      nav_msgs.data g = marked /\
      is_customized_costmap_initialized_ p' = true) /\
  (exists q' g published,
      getLaserScanPoints scenario.cos_series scenario.sin_series scenario.ros_80
        scenario.after_first_scan (scenario.scan [1%float])
      = Ok (q', customized_costmap_pub g :: published) /\
      nav_msgs.info g = nav_msgs.info scenario.grid_80 /\
      nav_msgs.data g = marked).
Proof.
  intros marked.
  destruct (first_scan_is_rasterized_and_published scenario.cos_series scenario.sin_series
              scenario.ros_80 scenario.started (scenario.scan [1%float]) marked marked)
    as (_ & Hfirst & Hother); [reflexivity | vm_compute; reflexivity | vm_compute; reflexivity |].
  split; [reflexivity |]. split; [vm_compute; reflexivity |]. split; [exact Hfirst |].
  apply Hother; vm_compute; reflexivity.
Defined.

(** ** The further properties at concrete inputs *)

Lemma setPlan_stores_the_plan_and_its_last_pose_witness :
  exists p',
    setPlan scenario.ros_80 scenario.started scenario.plan_three = Ok (p', true) /\
    global_plan_ p' = scenario.plan_three /\
    geometry_msgs.x (geometry_msgs.position (goal_ p')) = 1%float /\
    geometry_msgs.y (geometry_msgs.position (goal_ p')) = 0%float.
Proof.
  destruct (setPlan_stores_the_plan_and_its_last_pose scenario.ros_80 scenario.started
              scenario.plan_three (scenario.pose_at "map" 1 0))
    as (p' & Hset & Hplan & Hx & Hy & _); [reflexivity | reflexivity | vm_compute; discriminate |].
  exists p'. repeat split; assumption.
Defined.

Lemma samples_outside_the_valid_range_are_ignored_witness :
  add_laser_scan_points scenario.cos_series scenario.sin_series scenario.costmap_80
    (scenario.scan [single.of_double 0.1; 10; 0 / 0; infinity; 0.05]%float)
    scenario.identity (nav_msgs.info scenario.grid_80) 0
    [single.of_double 0.1; 10; 0 / 0; infinity; 0.05]%float scenario.background
  = Ok scenario.background.
Proof.
  apply samples_outside_the_valid_range_are_ignored.
  repeat constructor; vm_compute; tauto.
Defined.

Lemma scan_rasterizer_only_marks_cells_witness :
  length (<[3%nat := 100]> (nav_msgs.data run.grid_2)) = length (nav_msgs.data run.grid_2) /\
  (<[3%nat := 100]> (nav_msgs.data run.grid_2) !! 3%nat = nav_msgs.data run.grid_2 !! 3%nat
   \/ ((3 < length (nav_msgs.data run.grid_2))%nat
       /\ <[3%nat := 100]> (nav_msgs.data run.grid_2) !! 3%nat = Some 100)).
Proof.
  destruct (scan_rasterizer_only_marks_cells scenario.cos_series scenario.sin_series
              scenario.costmap_2 (run.scan_at 11 [0.25%float]) scenario.identity
              (nav_msgs.info run.grid_2) [0.25%float] 0 (nav_msgs.data run.grid_2)
              (<[3%nat := 100]> (nav_msgs.data run.grid_2)))
    as [Hlen Hcells]; [vm_compute; reflexivity |].
  split; [exact Hlen | exact (Hcells 3%nat)].
Defined.

Lemma scan_rasterizer_writes_inside_the_buffer_witness :
  add_laser_scan_point scenario.cos_series scenario.sin_series scenario.costmap_2
    (run.scan_at 11 [0.25%float]) scenario.identity (nav_msgs.info run.grid_2) 0 0.25%float
    (nav_msgs.data run.grid_2)
  = Ok (<[3%nat := 100]> (nav_msgs.data run.grid_2)).
Proof.
  exact (scan_rasterizer_writes_inside_the_buffer scenario.cos_series scenario.sin_series
           scenario.costmap_2 (run.scan_at 11 [0.25%float]) scenario.identity
           (nav_msgs.info run.grid_2) 0 0.25%float (nav_msgs.data run.grid_2)
           0.25%float 0%float 1 1
           ltac:(vm_compute; discriminate) ltac:(reflexivity) ltac:(reflexivity)
           ltac:(reflexivity) ltac:(reflexivity) ltac:(reflexivity)).
Defined.

Lemma plan_cells_are_cells_of_the_grid_witness :
  exists new : list geometry_msgs.Point,
    [scenario.point 1 1; scenario.point 0 0] = [] ++ new /\ (length new <= 2)%nat.
Proof.
  destruct (plan_cells_are_cells_of_the_grid scenario.ros_2 run.grid_2 run.plan_two
              PoseStamped_0 [] [scenario.point 1 1; scenario.point 0 0])
    as (new & Hnew & Hlen & _); [vm_compute; reflexivity |].
  exists new. split; assumption.
Defined.

Lemma plan_starts_at_50_and_ends_at_0_witness :
  plan_pixel 1000 0 = Ok 50 /\ plan_pixel 1000 (1000 - 1) = Ok 0.
Proof. apply plan_starts_at_50_and_ends_at_0. lia. Defined.

Lemma plan_values_follow_the_ramp_witness :
  exists v : Z,
    plan_pixel 7 2 = Ok v /\ 0 <= v <= 50 /\
    (50 - 50 * IZR 2 / IZR (7 - 1) - / 2 - / 1099511627776 <= IZR v
     <= 50 - 50 * IZR 2 / IZR (7 - 1) + / 2 + / 1099511627776)%R.
Proof. apply plan_values_follow_the_ramp; lia. Defined.

Lemma published_cells_are_70_100_or_a_plan_value_witness :
  let p := scenario.started_with
             [scenario.pose_at "map" (-0.2) (-0.2); scenario.pose_at "map" 0.2 (-0.2)] in
  let r := getLaserScanPoints scenario.cos_series scenario.sin_series scenario.ros_2 p
             (run.scan_at 11 [0.25%float]) in
  nav_msgs.data (customized_costmap_ (run.planner_of r)) = [50; 0; 70; 100] /\
  Forall (fun c => c = 70 \/ c = 100 \/ 0 <= c <= 50)
    (nav_msgs.data (customized_costmap_ (run.planner_of r))) /\
  exists g, costmaps (run.published_by r) = [g] /\ nav_msgs.data g = [50; 0; 70; 100].
Proof.
  intros p r.
  assert (Hdata : nav_msgs.data (customized_costmap_ (run.planner_of r)) = [50; 0; 70; 100])
    by (vm_compute; reflexivity).
  destruct (published_cells_are_70_100_or_a_plan_value scenario.cos_series scenario.sin_series
              scenario.ros_2 p (run.planner_of r) (run.scan_at 11 [0.25%float])
              (run.published_by r))
    as (Hcells & g & Hg & Hgdata); [vm_compute; reflexivity | vm_compute; reflexivity |].
  split; [exact Hdata |]. split; [exact Hcells |].
  exists g. split; [exact Hg |]. now rewrite Hgdata.
Defined.

Lemma getLaserScanPoints_writes_grid_and_buffer_only_witness :
  let p := scenario.started_with run.plan_two in
  let p' := run.planner_of (getLaserScanPoints scenario.cos_series scenario.sin_series
                              scenario.ros_2 p (run.scan_at 11 [0.25%float])) in
  global_plan_ p' = run.plan_two /\ goal_ p' = goal_ p /\ initialized_ p' = true.
Proof.
  intros p p'.
  destruct (getLaserScanPoints_writes_grid_and_buffer_only scenario.cos_series
              scenario.sin_series scenario.ros_2 p p' (run.scan_at 11 [0.25%float])
              (run.published_by (getLaserScanPoints scenario.cos_series scenario.sin_series
                                   scenario.ros_2 p (run.scan_at 11 [0.25%float]))))
    as (Hplan & Hgoal & Hinit & _); [vm_compute; reflexivity |].
  repeat split; assumption.
Defined.

Lemma grids_are_numbered_from_0_witness :
  length (costmaps (run.published_by (run.from_start run.six_scans))) = 6%nat /\
  (std_msgs.seq ∘ nav_msgs.header) <$> costmaps (run.published_by (run.from_start run.six_scans))
  = [0; 1; 2; 3; 4; 5].
Proof.
  destruct (grids_are_numbered_from_0 scenario.cos_series scenario.sin_series run.six_scans
              scenario.started (run.planner_of (run.from_start run.six_scans))
              (run.published_by (run.from_start run.six_scans)))
    as [Hlen _]; [reflexivity | vm_compute; reflexivity |].
  split; [exact Hlen | vm_compute; reflexivity].
Defined.

Lemma buffer_stacks_four_grids_out_of_five_witness :
  let gs := [scenario.grid_2 1; scenario.grid_2 2; scenario.grid_2 3; scenario.grid_2 4;
             scenario.grid_2 5; scenario.grid_2 6; scenario.grid_2 7] in
  state_representation <$> transitions (buffer_costmaps scenario.buffer_2 gs).2
  = [[1; 1; 1; 1; 2; 2; 2; 2; 3; 3; 3; 3; 4; 4; 4; 4]] /\
  state_representation (buffer_costmaps scenario.buffer_2 gs).1 = [6; 6; 6; 6; 7; 7; 7; 7].
Proof.
  intros gs.
  destruct (buffer_stacks_four_grids_out_of_five scenario.buffer_2 gs)
    as (Hunits & Hpending & _); try reflexivity.
  - repeat constructor.
  - split; [exact Hunits | exact Hpending].
Defined.

Lemma transitions_stack_four_published_grids_out_of_five_witness :
  state_representation <$> transitions (run.published_by (run.from_start run.six_scans))
  = stacked_units (costmaps (run.published_by (run.from_start run.six_scans))) /\
  stacked_units (costmaps (run.published_by (run.from_start run.six_scans)))
  = [[70; 70; 70; 100; 70; 70; 70; 70; 70; 70; 70; 100; 70; 70; 70; 70]].
Proof.
  destruct (transitions_stack_four_published_grids_out_of_five scenario.cos_series
              scenario.sin_series scenario.ros_2 (run.scan_at 11 [0.25%float])
              (tail run.six_scans) scenario.started
              (run.planner_of (run.from_start run.six_scans))
              (run.published_by (run.from_start run.six_scans)))
    as [Hunits _]; try (vm_compute; reflexivity).
  split; [exact Hunits | vm_compute; reflexivity].
Defined.

Lemma stacked_units_carry_the_stamp_of_every_fifth_scan_witness :
  exists m : Transition,
    transitions (run.published_by (run.from_start run.six_scans)) !! 0%nat = Some m /\
    std_msgs.seq (header m) = 0 /\ std_msgs.stamp (header m) = 15 /\ depth m = 4.
Proof.
  pose (m := {| header := {| std_msgs.seq := 0; std_msgs.stamp := 15;
                            std_msgs.frame_id := "/base_footprint" |};
                width := 2; height := 2; depth := 4;
                state_representation :=
                  [70; 70; 70; 100; 70; 70; 70; 70; 70; 70; 70; 100; 70; 70; 70; 70] |}).
  assert (Hm : transitions (run.published_by (run.from_start run.six_scans)) !! 0%nat = Some m)
    by (vm_compute; reflexivity).
  destruct (stacked_units_carry_the_stamp_of_every_fifth_scan scenario.cos_series
              scenario.sin_series scenario.ros_2 (run.scan_at 11 [0.25%float])
              (tail run.six_scans) scenario.started
              (run.planner_of (run.from_start run.six_scans))
              (run.published_by (run.from_start run.six_scans)) 0%nat m)
    as (Hseq & _ & _ & _ & Hdepth & ros5 & scan5 & Hscan5 & Hstamp);
    try (vm_compute; reflexivity).
  exists m. split; [exact Hm |]. split; [exact Hseq |]. split; [reflexivity | exact Hdepth].
Defined.

Lemma the_plugin_is_never_used_witness :
  existing_plugin_ scenario.started = false /\
  computeVelocityCommands (fun cmd => (cmd, false)) scenario.started Twist_0
  = (set_linear_x 0.5 Twist_0, true).
Proof.
  destruct (the_plugin_is_never_used scenario.cos_series scenario.sin_series
              (fun x _ => (x * x)%float) scenario.started)
    as (Hplugin & Hcmd & _).
  - apply reachable_initialize. now apply reachable_constructed.
  - reflexivity.
  - split; [exact Hplugin |]. rewrite Hcmd. reflexivity.
Defined.

Lemma plan_subscripts_are_exact_witness :
  double.to_size_t
    (plan_pixel_subscript (nav_msgs.info scenario.grid_80)
       (scenario.point (double.of_Z 60) (double.of_Z 40))) = Ok (60 + 40 * 80) /\
  60 + 40 * 80 < 80 * 80.
Proof.
  destruct (plan_subscripts_are_exact (nav_msgs.info scenario.grid_80) 60 40 50 40)
    as (Hi & Hlt & _); try (vm_compute; split; [discriminate | reflexivity]).
  - vm_compute. reflexivity.
  - split; [exact Hi | exact Hlt].
Defined.

Lemma path_rasterizer_is_defined_unless_one_pixel_witness :
  exists data',
    add_global_path scenario.ros_2 run.plan_two run.grid_2 = Ok data' /\
    length data' = 4%nat.
Proof.
  destruct (path_rasterizer_is_defined_unless_one_pixel scenario.ros_2 run.plan_two run.grid_2
              [scenario.point 1 1; scenario.point 0 0])
    as [_ Hdefined]; try (vm_compute; reflexivity).
  destruct Hdefined as (data' & Hpath & Hlen & _); [discriminate |].
  exists data'. split; [exact Hpath | exact Hlen].
Defined.

Lemma plan_collapses_into_one_cell_without_transforms_witness :
  add_global_path run.ros_none run.plan_two run.grid_2 = Ok [70; 70; 70; 0].
Proof.
  exact (plan_collapses_into_one_cell_without_transforms run.ros_none run.plan_two run.grid_2
           1 1 ltac:(repeat constructor) ltac:(reflexivity) ltac:(reflexivity)
           ltac:(vm_compute; split; [discriminate | reflexivity])
           ltac:(vm_compute; split; [discriminate | reflexivity])
           ltac:(vm_compute; reflexivity) ltac:(reflexivity)
           ltac:(vm_compute; split; [discriminate | reflexivity])).
Defined.

Lemma scan_without_valid_sample_publishes_the_background_witness :
  exists (p' : NeuroLocalPlannerWrapper) (g : nav_msgs.OccupancyGrid)
         (stacked : list Publication),
    getLaserScanPoints scenario.cos_series scenario.sin_series scenario.ros_2 scenario.started
      (run.scan_at 12 [])
    = Ok (p', customized_costmap_pub g :: stacked) /\
    nav_msgs.data (customized_costmap_ p') = nav_msgs.data g /\
    std_msgs.stamp (nav_msgs.header g) = 12.
Proof.
  destruct (scan_without_valid_sample_publishes_the_background scenario.cos_series
              scenario.sin_series scenario.ros_2 scenario.started (run.scan_at 12 []))
    as (p' & g & stacked & Hcall & _ & Hdata & Hstamp); [reflexivity | constructor |].
  exists p', g, stacked. repeat split; assumption.
Defined.

Lemma stacked_units_hold_70_100_or_a_plan_value_witness :
  Forall (fun m => Forall (fun c => c = 70 \/ c = 100 \/ 0 <= c <= 50) (state_representation m))
         (transitions
            (run.published_by
               (getLaserScanPoints_each scenario.cos_series scenario.sin_series
                  (scenario.started_with run.plan_two) run.six_scans))) /\
  state_representation <$>
    transitions
      (run.published_by
         (getLaserScanPoints_each scenario.cos_series scenario.sin_series
            (scenario.started_with run.plan_two) run.six_scans))
  = [[0; 70; 70; 50; 0; 70; 70; 50; 0; 70; 70; 50; 0; 70; 70; 50]].
Proof.
  split; [| vm_compute; reflexivity].
  apply (stacked_units_hold_70_100_or_a_plan_value scenario.cos_series scenario.sin_series
           scenario.ros_2 (run.scan_at 11 [0.25%float]) (tail run.six_scans)
           (scenario.started_with run.plan_two)
           (run.planner_of
              (getLaserScanPoints_each scenario.cos_series scenario.sin_series
                 (scenario.started_with run.plan_two) run.six_scans)));
    try (vm_compute; reflexivity).
Defined.

Lemma costmap_without_cells_publishes_empty_units_witness :
  length
    (transitions
       (run.published_by
          (run.from_start
             [(run.ros_wrapped, run.scan_at 11 []); (run.ros_wrapped, run.scan_at 12 [])])))
  = 2%nat /\
  Forall (fun m => state_representation m = [])
    (transitions
       (run.published_by
          (run.from_start
             [(run.ros_wrapped, run.scan_at 11 []); (run.ros_wrapped, run.scan_at 12 [])]))).
Proof.
  apply (costmap_without_cells_publishes_empty_units scenario.cos_series scenario.sin_series
           run.ros_wrapped (run.scan_at 11 []) [(run.ros_wrapped, run.scan_at 12 [])]
           scenario.started
           (run.planner_of
              (run.from_start
                 [(run.ros_wrapped, run.scan_at 11 []); (run.ros_wrapped, run.scan_at 12 [])])));
    vm_compute; reflexivity.
Defined.

Lemma nan_coordinates_are_undefined_witness :
  add_global_path scenario.ros_2 run.plan_nan run.grid_2 = Undefined /\
  add_laser_scan_points scenario.cos_series scenario.sin_series scenario.costmap_2
    (run.scan_at 11 [0.05; 0.25; 0.25]%float) {| getX := nan; getY := 0; yaw := 0 |}
    (nav_msgs.info run.grid_2) 0 [0.05; 0.25; 0.25]%float (nav_msgs.data run.grid_2)
  = Undefined.
Proof.
  destruct (nan_coordinates_are_undefined scenario.cos_series scenario.sin_series scenario.ros_2
              run.grid_2) as [Hplan Hscan].
  split.
  - apply (Hplan (scenario.pose_at "map" nan 0)
             (set_pose_stamp (std_msgs.stamp (nav_msgs.header run.grid_2))
                (scenario.pose_at "map" nan 0))
             [scenario.pose_at "map" 0.2%float 0.2%float]
             [scenario.pose_at "map" (-0.2)%float (-0.2)%float]);
      [reflexivity | left; reflexivity].
  - apply (Hscan (run.scan_at 11 [0.05; 0.25; 0.25]%float) {| getX := nan; getY := 0; yaw := 0 |}
             [0.05%float] [0.25%float] 0.25%float 0 (nav_msgs.data run.grid_2));
      [reflexivity | repeat constructor | reflexivity].
Defined.
